(** * Bugwatch Python SDK: the event capture and fingerprinting engine

    A shallow embedding of [bugwatch/types.py], [bugwatch/fingerprint.py],
    [bugwatch/transport.py], [bugwatch/client.py] and the module-level API of
    [bugwatch/__init__.py], followed by the properties of the engine.

    Conventions of the embedding.
    - A Python [str] is a Rocq [string] whose characters are code points
      below 256; [str.encode()] is UTF-8 over those code points and always
      succeeds on them. Text with other code points is outside the
      embedding: in particular no string here holds a lone surrogate, on
      which [str.encode()] raises [UnicodeEncodeError].
    - A Python [int] is a [Z]; a [float] is a binary64 [float].
    - [Optional[T]] is [option T]; [Dict[str, T]] is [gmap string T].
    - A call that may raise returns an [Outcome]; a call with effects is a
      function of the world ([Runtime.t]), which carries the clock, the
      random source, the network, the standard output and the trace of what
      the SDK did to the outside. *)

From Stdlib Require Import ZArith List String Ascii Bool Lia Floats.
From Stdlib Require Import Numbers.DecimalString.
From stdpp Require Import gmap strings list.

Open Scope string_scope.
Open Scope list_scope.
Open Scope Z_scope.

(* ===================================================================== *)
(** * Python primitives *)
(* ===================================================================== *)

Module Py.

(** A raised exception, an instance of [Exception]: the class name and
    [str(exc)]. *)
Record Exc := mkExc { exc_class : string; exc_text : string }.

(** The result of evaluating a Python call. *)
Inductive Outcome (A : Type) :=
| Ok (a : A)
| Raise (e : Exc).
Arguments Ok {A} a.
Arguments Raise {A} e.

Definition chars (s : string) : list ascii := list_ascii_of_string s.
Definition str (l : list ascii) : string := string_of_list_ascii l.

(** [str(n)] for an [int]. *)
Definition str_of_int (n : Z) : string := NilZero.string_of_int (Z.to_int n).

(** [bool(s)] for an [Optional[str]]: [None] and the empty string are falsy. *)
Definition truthy (s : option string) : bool :=
  match s with
  | Some (String _ _) => true
  | _ => false
  end.

(** [a or b] on an optional string and a string. *)
Definition or_else (a : option string) (b : string) : string :=
  match a with
  | Some (String c r) => String c r
  | _ => b
  end.

(** [l[:n]] for a non-negative literal [n]. *)
Definition slice_to {A} (n : nat) (l : list A) : list A := firstn n l.

(** [l[start:]]: a negative [start] counts from the end; the bound is
    clamped to the list. *)
Definition slice_from {A} (start : Z) (l : list A) : list A :=
  let len := Z.of_nat (length l) in
  let lo := if start <? 0 then Z.max (start + len) 0 else Z.min start len in
  skipn (Z.to_nat lo) l.

(** [sep.join(parts)]. *)
Fixpoint join (sep : string) (parts : list string) : string :=
  match parts with
  | [] => ""
  | [p] => p
  | p :: rest => p +:+ sep +:+ join sep rest
  end.

(** [s.rstrip()] keeps [s] up to its last character outside [strip]. *)
Fixpoint rstrip_chars (strip : ascii -> bool) (l : list ascii) : list ascii :=
  match l with
  | [] => []
  | c :: t =>
      match rstrip_chars strip t with
      | [] => if strip c then [] else [c]
      | r => c :: r
      end
  end.

(** Whitespace, as [str.rstrip()] understands it below code point 256:
    tab to carriage return, the four separators 28 to 31, space, next-line
    and no-break space. *)
Definition is_space (c : ascii) : bool :=
  let n := N_of_ascii c in
  ((9 <=? n) && (n <=? 13) || (28 <=? n) && (n <=? 32) || (n =? 133) || (n =? 160))%N.

Definition rstrip (s : string) : string := str (rstrip_chars is_space (chars s)).
Definition rstrip_char (x : ascii) (s : string) : string :=
  str (rstrip_chars (Ascii.eqb x) (chars s)).

(** [range(lo, hi)]. *)
Definition range (lo hi : Z) : list Z :=
  map (fun i => lo + Z.of_nat i) (seq 0 (Z.to_nat (hi - lo))).

(** [x in xs] for a tuple of integers. *)
Definition mem (x : Z) (xs : list Z) : bool := existsb (Z.eqb x) xs.

(** [s.startswith(prefix)]. *)
Definition startswith (s prefix : string) : bool := String.prefix prefix s.

(** [needle in s]. *)
Fixpoint contains (needle s : string) : bool :=
  String.prefix needle s ||
  match s with
  | EmptyString => false
  | String _ r => contains needle r
  end.

(** [s.encode()]: UTF-8; a code point from 128 to 255 takes two bytes. On
    the strings of the embedding the encoding cannot fail. *)
Definition encode_char (c : ascii) : list Z :=
  let n := Z.of_N (N_of_ascii c) in
  if n <? 128 then [n]
  else [Z.lor 192 (Z.shiftr n 6); Z.lor 128 (Z.land n 63)].

Definition encode (s : string) : list Z := flat_map encode_char (chars s).

(** [l[:stop]]: a negative [stop] counts from the end; the bound is
    clamped to the list. *)
Definition slice_upto {A} (stop : Z) (l : list A) : list A :=
  let len := Z.of_nat (length l) in
  let hi := if stop <? 0 then Z.max (stop + len) 0 else Z.min stop len in
  firstn (Z.to_nat hi) l.

(** A [dict] with string keys, in insertion order. [d[key] = value] keeps
    the place of a key that is there and appends a new one. *)
Definition dict_set {V} (key : string) (value : V) (d : list (string * V))
  : list (string * V) :=
  if existsb (fun kv => String.eqb (fst kv) key) d
  then map (fun kv => if String.eqb (fst kv) key then (key, value) else kv) d
  else d ++ [(key, value)].

(** [d.get(key)]. *)
Definition dict_get {V} (key : string) (d : list (string * V)) : option V :=
  match find (fun kv => String.eqb (fst kv) key) d with
  | Some kv => Some (snd kv)
  | None => None
  end.

End Py.

Export Py (Outcome, Ok, Raise).

(* ===================================================================== *)
(** * hashlib.sha256 (FIPS 180-4) *)
(* ===================================================================== *)

Module Sha256.

Definition w32 (x : Z) : Z := Z.land x 4294967295.
Definition add32 (x y : Z) : Z := w32 (x + y).
Definition rotr (n x : Z) : Z := w32 (Z.lor (Z.shiftr x n) (Z.shiftl x (32 - n))).
Definition shr (n x : Z) : Z := Z.shiftr x n.
Definition not32 (x : Z) : Z := Z.lxor x 4294967295.

Definition Ch (x y z : Z) : Z := Z.lxor (Z.land x y) (Z.land (not32 x) z).
Definition Maj (x y z : Z) : Z :=
  Z.lxor (Z.lxor (Z.land x y) (Z.land x z)) (Z.land y z).
Definition Sigma0 (x : Z) : Z := Z.lxor (Z.lxor (rotr 2 x) (rotr 13 x)) (rotr 22 x).
Definition Sigma1 (x : Z) : Z := Z.lxor (Z.lxor (rotr 6 x) (rotr 11 x)) (rotr 25 x).
Definition sigma0 (x : Z) : Z := Z.lxor (Z.lxor (rotr 7 x) (rotr 18 x)) (shr 3 x).
Definition sigma1 (x : Z) : Z := Z.lxor (Z.lxor (rotr 17 x) (rotr 19 x)) (shr 10 x).

(** The first 64 primes. *)
Definition primes : list Z :=
  [ 2; 3; 5; 7; 11; 13; 17; 19; 23; 29; 31; 37; 41; 43; 47; 53; 59; 61; 67; 71;
    73; 79; 83; 89; 97; 101; 103; 107; 109; 113; 127; 131; 137; 139; 149; 151;
    157; 163; 167; 173; 179; 181; 191; 193; 197; 199; 211; 223; 227; 229; 233;
    239; 241; 251; 257; 263; 269; 271; 277; 281; 283; 293; 307; 311 ].

(** The integer cube root, one bit at a time from bit [i - 1] down. *)
Fixpoint cube_root_bits (i : nat) (n r : Z) : Z :=
  match i with
  | O => r
  | S j =>
      let r' := r + 2 ^ Z.of_nat j in
      cube_root_bits j n (if r' * r' * r' <=? n then r' else r)
  end.

(** The round constants: the first 32 bits of the fractional parts of the
    cube roots of the first 64 primes. *)
Definition K : list Z :=
  Eval vm_compute in map (fun p => w32 (cube_root_bits 40 (p * 2 ^ 96) 0)) primes.

(** The initial hash value: the first 32 bits of the fractional parts of the
    square roots of the first 8 primes. *)
Definition H0 : list Z :=
  Eval vm_compute in map (fun p => w32 (Z.sqrt (p * 2 ^ 64))) (firstn 8 primes).

(** Padding: a [1] bit, zeros up to 56 modulo 64, the bit length on 8 bytes. *)
Definition be_bytes (n : nat) (x : Z) : list Z :=
  map (fun i => Z.land (Z.shiftr x (8 * Z.of_nat (n - 1 - i))) 255) (seq 0 n).

Definition pad (msg : list Z) : list Z :=
  let len := Z.of_nat (length msg) in
  let zeros := Z.to_nat ((55 - len) mod 64) in
  msg ++ [128] ++ repeat 0 zeros ++ be_bytes 8 (8 * len).

Fixpoint words (fuel : nat) (bytes : list Z) : list Z :=
  match fuel, bytes with
  | S f, a :: b :: c :: d :: rest =>
      (Z.shiftl a 24 + Z.shiftl b 16 + Z.shiftl c 8 + d) :: words f rest
  | _, _ => []
  end.

Fixpoint blocks (fuel : nat) (ws : list Z) : list (list Z) :=
  match fuel, ws with
  | S f, _ :: _ => firstn 16 ws :: blocks f (skipn 16 ws)
  | _, _ => []
  end.

(** The message schedule, most recent word first. *)
Fixpoint schedule (n : nat) (rev_w : list Z) : list Z :=
  match n with
  | O => rev_w
  | S n' =>
      let w := add32 (add32 (sigma1 (nth 1 rev_w 0)) (nth 6 rev_w 0))
                     (add32 (sigma0 (nth 14 rev_w 0)) (nth 15 rev_w 0)) in
      schedule n' (w :: rev_w)
  end.

Definition round (st : list Z) (kw : Z * Z) : list Z :=
  match st with
  | [a; b; c; d; e; f; g; h] =>
      let t1 := add32 (add32 (add32 h (Sigma1 e)) (add32 (Ch e f g) (fst kw))) (snd kw) in
      let t2 := add32 (Sigma0 a) (Maj a b c) in
      [add32 t1 t2; a; b; c; add32 d t1; e; f; g]
  | _ => st
  end.

Definition zip_with {A B C} (f : A -> B -> C) (l : list A) (r : list B) : list C :=
  map (fun p => f (fst p) (snd p)) (combine l r).

Definition compress (h : list Z) (block : list Z) : list Z :=
  let w := rev (schedule 48 (rev block)) in
  zip_with add32 h (fold_left round (combine K w) h).

Definition digest (msg : list Z) : list Z :=
  let bytes := pad msg in
  let ws := words (length bytes) bytes in
  fold_left compress (blocks (length ws) ws) H0.

Definition hex_digit (n : Z) : ascii :=
  nth (Z.to_nat n) (Py.chars "0123456789abcdef") "0"%char.

Definition hex32 (w : Z) : list ascii :=
  map (fun i => hex_digit (Z.land (Z.shiftr w (4 * Z.of_nat (7 - i))) 15)) (seq 0 8).

(** [hashlib.sha256(data).hexdigest()]. *)
Definition hexdigest (msg : list Z) : string := Py.str (flat_map hex32 (digest msg)).

End Sha256.

(* ===================================================================== *)
(** * The [re] module, as far as [fingerprint.py] uses it *)
(* ===================================================================== *)

Module Re.

Definition code (c : ascii) : N := N_of_ascii c.
Definition between (lo hi : N) (c : ascii) : bool :=
  ((lo <=? code c) && (code c <=? hi))%N.
Definition is_char (x : ascii) (c : ascii) : bool := Ascii.eqb c x.

Definition dquote : ascii := "034"%char.
Definition squote : ascii := "'"%char.
Definition backslash : ascii := "\"%char.

(** [\d]: the decimal digits; below 256 these are [0-9]. *)
Definition is_digit (c : ascii) : bool := between 48 57 c.

(** [[0-9a-fA-F]]. *)
Definition is_hex (c : ascii) : bool :=
  is_digit c || between 97 102 c || between 65 70 c.

(** [\w] of a [str] pattern: alphanumeric code points and the underscore.
    Below 128 these are [[A-Za-z0-9_]]; from 128 to 255 they are the
    letters, superscript digits and vulgar fractions of Latin-1. *)
Definition is_word (c : ascii) : bool :=
  is_digit c || between 97 122 c || between 65 90 c || is_char "_" c
  || is_char "170" c || is_char "178" c || is_char "179" c || is_char "181" c
  || is_char "185" c || is_char "186" c || between 188 190 c
  || between 192 214 c || between 216 246 c || between 248 255 c.

(** [[\w\-./]]. *)
Definition is_posix_path_char (c : ascii) : bool :=
  is_word c || is_char "-" c || is_char "." c || is_char "/" c.

(** [[\w\-.\\ ]]. *)
Definition is_windows_path_char (c : ascii) : bool :=
  is_word c || is_char "-" c || is_char "." c || is_char backslash c || is_char " " c.

(** The patterns of [_normalize_message] are sequences of three kinds of
    atoms. Each repetition is greedy, and in each pattern the character
    after a repetition (if any) lies outside the repeated class, so the first
    match the backtracking search of [re] finds is the greedy one. *)
Inductive atom :=
| Lit (c : ascii)                      (* the character [c] *)
| Cls (n : nat) (P : ascii -> bool)    (* [[P]{n}] *)
| Many (P : ascii -> bool).            (* [[P]*] *)

Definition pattern := list atom.

Definition lit (s : string) : pattern := map Lit (Py.chars s).
Definition plus (P : ascii -> bool) : pattern := [Cls 1 P; Many P].

(** Length of the longest prefix of [s] inside the class [P]. *)
Fixpoint span (P : ascii -> bool) (s : list ascii) : nat :=
  match s with
  | c :: t => if P c then S (span P t) else O
  | [] => O
  end.

(** [match_here p s]: the length of the match of [p] at the start of [s]. *)
Fixpoint match_here (p : pattern) (s : list ascii) : option nat :=
  match p with
  | [] => Some O
  | Lit c :: p' =>
      match s with
      | x :: t => if Ascii.eqb x c then option_map S (match_here p' t) else None
      | [] => None
      end
  | Cls n P :: p' =>
      if (n <=? length s)%nat && forallb P (firstn n s)
      then option_map (Nat.add n) (match_here p' (skipn n s))
      else None
  | Many P :: p' =>
      let k := span P s in option_map (Nat.add k) (match_here p' (skipn k s))
  end.

(** The scan of [re.sub]: [skip] characters of the last match are still to
    be passed over; otherwise the pattern is tried at the current position,
    a match is replaced and the scan resumes after it, and a character
    where nothing matches is copied. No pattern here matches the empty
    string. *)
Fixpoint sub_from (p : pattern) (repl : list ascii) (skip : nat) (s : list ascii)
  : list ascii :=
  match s with
  | [] => []
  | c :: t =>
      match skip with
      | S k => sub_from p repl k t
      | O =>
          match match_here p s with
          | Some (S n) => repl ++ sub_from p repl n t
          | _ => c :: sub_from p repl O t
          end
      end
  end.

(** [re.sub(p, repl, s)]. *)
Definition sub (p : pattern) (repl : string) (s : list ascii) : list ascii :=
  sub_from p (Py.chars repl) O s.

(** [re.search(p, s) is not None]: the pattern matches somewhere in [s]. *)
Fixpoint search (p : pattern) (s : list ascii) : bool :=
  match s with
  | [] => false
  | _ :: t =>
      match match_here p s with
      | Some (S _) => true
      | _ => search p t
      end
  end.

(** The characters an atom, and a pattern, can consume. *)
Definition accepts (a : atom) (c : ascii) : bool :=
  match a with
  | Lit x => Ascii.eqb c x
  | Cls _ P => P c
  | Many P => P c
  end.

Definition alphabet (p : pattern) (c : ascii) : bool := existsb (fun a => accepts a c) p.

(** [[0-9a-fA-F]{8}-[0-9a-fA-F]{4}-[0-9a-fA-F]{4}-[0-9a-fA-F]{4}-[0-9a-fA-F]{12}] *)
Definition uuid : pattern :=
  [Cls 8 is_hex; Lit "-"; Cls 4 is_hex; Lit "-"; Cls 4 is_hex; Lit "-";
   Cls 4 is_hex; Lit "-"; Cls 12 is_hex].

(** [0x[0-9a-fA-F]+] *)
Definition hex : pattern := lit "0x" ++ plus is_hex.

(** [at 0x[0-9a-fA-F]+] *)
Definition address : pattern := lit "at 0x" ++ plus is_hex.

(** [(/[\w\-./]+)+]: the slash is in the class, so the first repetition of
    the group takes the whole run and no second one can start. *)
Definition posix_path : pattern := Lit "/" :: plus is_posix_path_char.

(** [(\\[\w\-.\\ ]+)+]: likewise, the backslash is in the class. *)
Definition windows_path : pattern := Lit backslash :: plus is_windows_path_char.

(** A quoted literal: the quote [q], any run of characters other than [q],
    then [q] again (the patterns for double and for single quotes). *)
Definition quoted (q : ascii) : pattern :=
  [Lit q; Many (fun c => negb (is_char q c)); Lit q].

(** [\d+] *)
Definition number : pattern := plus is_digit.

End Re.

(* ===================================================================== *)
(** * bugwatch/types.py *)
(* ===================================================================== *)

Inductive Level := DEBUG | INFO | WARNING | ERROR | FATAL.

Definition Level_value (l : Level) : string :=
  match l with
  | DEBUG => "debug"
  | INFO => "info"
  | WARNING => "warning"
  | ERROR => "error"
  | FATAL => "fatal"
  end.

(** A value of type [Any] (an [extra] entry, a breadcrumb payload, a
    serialized local variable); an object is known by its class name. *)
#[warnings="-register-all"]
Inductive Any :=
| ANone
| ABool (b : bool)
| AInt (n : Z)
| AFloat (x : float)
| AStr (s : string)
| AList (items : list Any)
| ADict (items : list (string * Any))
| AObject (type_name : string).

(** [datetime]: microseconds since the epoch. *)
Definition datetime := Z.

Module StackFrame.
Record t := mk {
  filename : string;
  function : string;
  lineno : Z;
  colno : option Z;
  context_line : option string;
  pre_context : option (list string);
  post_context : option (list string);
  in_app : bool;
  module : option string;
  vars : option (gmap string Any);
}.
End StackFrame.

Module ExceptionInfo.
Record t := mk {
  type : string;
  value : string;
  stacktrace : list StackFrame.t;
  module : option string;
}.
End ExceptionInfo.

Module Breadcrumb.
Record t := mk {
  category : string;
  message : string;
  type : string;
  level : Level;
  timestamp : datetime;
  data : option (gmap string Any);
}.
End Breadcrumb.

Module UserContext.
Record t := mk {
  id : option string;
  email : option string;
  username : option string;
  ip_address : option string;
  extra : option (gmap string Any);
}.
End UserContext.

Module RequestContext.
Record t := mk {
  url : option string;
  method : option string;
  headers : option (gmap string string);
  query_string : option string;
  data : option (gmap string Any);
  cookies : option (gmap string string);
  env : option (gmap string string);
}.
End RequestContext.

Module RuntimeInfo.
Record t := mk { name : string; version : string }.
End RuntimeInfo.

Module SdkInfo.
Record t := mk { name : string; version : string }.
End SdkInfo.

Module ErrorEvent.
Record t := mk {
  event_id : string;
  timestamp : datetime;
  level : Level;
  exception : option ExceptionInfo.t;
  message : option string;
  platform : string;
  sdk : option SdkInfo.t;
  runtime : option RuntimeInfo.t;
  request : option RequestContext.t;
  user : option UserContext.t;
  tags : gmap string string;
  extra : gmap string Any;
  breadcrumbs : list Breadcrumb.t;
  fingerprint : option string;
  environment : option string;
  release : option string;
  server_name : option string;
}.

(** [event.fingerprint = fp]. *)
Definition set_fingerprint (fp : option string) (e : t) : t :=
  mk (event_id e) (timestamp e) (level e) (exception e) (message e) (platform e)
     (sdk e) (runtime e) (request e) (user e) (tags e) (extra e) (breadcrumbs e)
     fp (environment e) (release e) (server_name e).

(** [event.tags[key] = value]. *)
Definition set_tag (key value : string) (e : t) : t :=
  mk (event_id e) (timestamp e) (level e) (exception e) (message e) (platform e)
     (sdk e) (runtime e) (request e) (user e) (<[key := value]> (tags e)) (extra e)
     (breadcrumbs e) (fingerprint e) (environment e) (release e) (server_name e).
End ErrorEvent.

(** The [before_send] callable: its truth value ([bool(before_send)], true
    for every function, false for a callable object whose [__bool__] or
    [__len__] says so), and what calling it does: it returns an event, or
    [None] to drop it, or raises. *)
Module BeforeSend.
Record t := mk {
  truth : bool;
  call : ErrorEvent.t -> Outcome (option ErrorEvent.t);
}.
End BeforeSend.

Module BugwatchOptions.
Record t := mk {
  api_key : string;
  endpoint : string;
  environment : option string;
  release : option string;
  server_name : option string;
  debug : bool;
  max_breadcrumbs : Z;
  sample_rate : float;
  attach_stacktrace : bool;
  send_default_pii : bool;
  before_send : option BeforeSend.t;
  capture_locals : bool;
  max_value_length : Z;
}.

(** [BugwatchOptions(api_key=...)] with every other field at its default. *)
Definition defaults (api_key : string) : t :=
  mk api_key "https://api.bugwatch.dev" None None None false 100 1%float
     true false None false 1024.
End BugwatchOptions.

(* ===================================================================== *)
(** * bugwatch/fingerprint.py *)
(* ===================================================================== *)

Module Fingerprint.

Definition _normalize_message (message : string) : string :=
  let normalized := Py.chars message in
  (* Replace UUIDs first (before numbers corrupt them) *)
  let normalized := Re.sub Re.uuid "<uuid>" normalized in
  (* Replace hex values (before numbers corrupt them) *)
  let normalized := Re.sub Re.hex "<hex>" normalized in
  (* Replace memory addresses *)
  let normalized := Re.sub Re.address "at <address>" normalized in
  (* Replace file paths *)
  let normalized := Re.sub Re.posix_path "<path>" normalized in
  let normalized := Re.sub Re.windows_path "<path>" normalized in
  (* Replace quoted strings *)
  let normalized := Re.sub (Re.quoted Re.dquote) "<string>" normalized in
  let normalized := Re.sub (Re.quoted Re.squote) "<string>" normalized in
  (* Replace numbers last (after other patterns that contain numbers) *)
  let normalized := Re.sub Re.number "<number>" normalized in
  Py.str normalized.

Definition generate_fingerprint
  (error_type message : string) (stacktrace : option string) : string :=
  let normalized_message := _normalize_message message in
  let content := error_type +:+ ":" +:+ normalized_message in
  let content :=
    match stacktrace with
    | Some (String _ _ as st) => content +:+ ":" +:+ st   (* [if stacktrace:] *)
    | _ => content
    end in
  String.substring 0 32 (Sha256.hexdigest (Py.encode content)).

(** The f-string [{frame.filename}:{frame.function}:{frame.lineno}]. *)
Definition frame_part (frame : StackFrame.t) : string :=
  StackFrame.filename frame +:+ ":" +:+ StackFrame.function frame +:+ ":"
  +:+ Py.str_of_int (StackFrame.lineno frame).

(** The digest built by the loop over [exception.stacktrace[:5]]. *)
Definition stacktrace_digest (frames : list StackFrame.t) : option string :=
  let stacktrace_parts :=
    map frame_part (List.filter StackFrame.in_app (Py.slice_to 5 frames)) in
  match stacktrace_parts with
  | [] => None
  | _ => Some (Py.join "|" stacktrace_parts)
  end.

Definition fingerprint_from_exception (exception : ExceptionInfo.t) : string :=
  let stacktrace := stacktrace_digest (ExceptionInfo.stacktrace exception) in
  generate_fingerprint (ExceptionInfo.type exception) (ExceptionInfo.value exception)
    stacktrace.

End Fingerprint.


(* ===================================================================== *)
(** * The running process *)
(* ===================================================================== *)

(** One entry of [error.__traceback__], outermost call first. [f_locals] is
    what [_extract_locals] returns for the frame's local variables (a
    serialized copy, in which every failure is caught per binding). *)
Module Traceback.
Record entry := mk {
  tb_lineno : Z;
  co_filename : string;
  co_name : string;
  f_globals_name : option string;
  f_locals : option (gmap string Any);
}.
End Traceback.

(** The exception object handed to [capture_exception]. *)
Module BaseException.
Record t := mk {
  class_name : string;                  (* [type(error).__name__] *)
  class_module : option string;         (* [type(error).__module__] *)
  as_str : Outcome string;              (* [str(error)] *)
  traceback : list Traceback.entry;     (* [error.__traceback__] *)
}.
End BaseException.

(** A Python value, as [_serialize_value] tells values apart with
    [isinstance]: [VList] is a list or a tuple, [VSet] a set or frozenset in
    iteration order, [VDict] a dict with string keys, [VInstance] an object
    with a [__dict__], [VOther] anything else, known by its class name and
    what [str(value)] does. A [bytes] value is known by its length and by
    what [decode('utf-8', errors='replace')] does. *)
#[warnings="-register-all"]
Inductive Value :=
| VNone
| VBool (b : bool)
| VInt (n : Z)
| VFloat (x : float)
| VStr (s : string)
| VBytes (length : Z) (decoded : Outcome string)
| VList (items : list Value)
| VDict (items : list (string * Value))
| VSet (items : list Value)
| VInstance (type_name : string)
| VOther (type_name : string) (as_str : Outcome string).

Module Runtime.

(** What one HTTP exchange comes to. *)
Inductive HttpResult :=
| Response (status : Z)
| HTTPError (code : Z) (reason : string)
| URLError (reason : string)
| OtherError (e : Py.Exc).

(** What the SDK does to the outside, in order. *)
Inductive Effect :=
| Print (line : string)
| Log (severity : string) (line : string)
| BeforeSendCall (event : ErrorEvent.t)
| TransportSend (event : ErrorEvent.t)
| HttpPost (endpoint : string) (body : string)
| TaskScheduled (event : ErrorEvent.t)
| TransportFlush
| PrintTags (tags : gmap string string)
| HandlerCall (handler : string).

(** What the host answers. The sources that change from call to call are
    indexed by the number of answers given so far ([tick]). The wire body of
    an event is [json.dumps(_serialize_event(event))], which raises on a
    value JSON cannot hold. [print_raises] is what [print] raises for an
    output, if it raises: [sys.stdout] may be closed, or unable to encode
    the text. *)
Record Host := mkHost {
  python_version : string;
  sys_platform : string;
  platform_system : string;
  sys_prefix : string;
  sys_base_prefix : string;
  version_info_ge_3_8 : bool;
  gethostname : string;
  environ : string -> option string;
  linecache_getline : string -> Z -> string;
  httpx_installed : bool;
  json_body : ErrorEvent.t -> Outcome string;
  random_random : nat -> float;
  uuid4_hex : nat -> string;
  datetime_now : nat -> datetime;
  http_exchange : nat -> HttpResult;
  loop_is_running : nat -> bool;
  print_raises : Effect -> option Py.Exc;
}.

Record t := mk {
  host : Host;
  exc_info : option BaseException.t;    (* [sys.exc_info()[1]] *)
  tick : nat;
  trace : list Effect;
}.

(** A Python call: it reads and extends the world, and returns or raises. *)
Definition M (A : Type) : Type := t -> Outcome A * t.

Definition ret {A} (a : A) : M A := fun w => (Ok a, w).
Definition raise {A} (e : Py.Exc) : M A := fun w => (Raise e, w).
Definition bind {A B} (m : M A) (k : A -> M B) : M B :=
  fun w =>
    match m w with
    | (Ok a, w') => k a w'
    | (Raise e, w') => (Raise e, w')
    end.

(** [try: m  except Exception as e: handler(e)]. *)
Definition try_except {A} (m : M A) (handler : Py.Exc -> M A) : M A :=
  fun w =>
    match m w with
    | (Ok a, w') => (Ok a, w')
    | (Raise e, w') => handler e w'
    end.

Definition lift {A} (o : Outcome A) : M A := fun w => (o, w).

Definition emit (e : Effect) : M unit :=
  fun w => (Ok tt, mk (host w) (exc_info w) (tick w) (trace w ++ [e])).

(** Ask the host a question whose answer changes over time. *)
Definition ask {A} (q : Host -> nat -> A) : M A :=
  fun w => (Ok (q (host w) (tick w)), mk (host w) (exc_info w) (S (tick w)) (trace w)).

(** Read a fixed fact about the host. *)
Definition read {A} (q : Host -> A) : M A := fun w => (Ok (q (host w)), w).

Definition sys_exc_info : M (option BaseException.t) := fun w => (Ok (exc_info w), w).

Definition when (b : bool) (m : M unit) : M unit := if b then m else ret tt.

(** [print(...)]: the output appears, unless the host raises. *)
Definition print (out : Effect) : M unit :=
  fun w =>
    match print_raises (host w) out with
    | Some e => (Raise e, w)
    | None => emit out w
    end.

End Runtime.

Import Runtime (M, ret, bind, try_except).

Notation "'let!' x ':=' m 'in' k" := (bind m (fun x => k))
  (at level 10, x name, m at level 100, k at level 200).
Notation "'do!' m 'in' k" := (bind m (fun _ => k))
  (at level 10, m at level 100, k at level 200).

(* ===================================================================== *)
(** * bugwatch/transport.py *)
(* ===================================================================== *)

(** What [dataclasses.asdict] makes of an event and what
    [convert_and_clean] returns: plain data. [Isoformat d] is the text
    [d.isoformat()]; an [Object] is a value that is neither a [datetime] nor
    a member of an [Enum]. *)
Module Payload.
#[warnings="-register-all"]
Inductive t :=
| Null
| Bool (b : bool)
| Int (n : Z)
| Float (x : float)
| Str (s : string)
| Datetime (d : datetime)
| Enum (l : Level)
| Isoformat (d : datetime)
| List (items : list t)
| Dict (items : list (string * t))
| Object (type_name : string).
End Payload.

Module Transport.

Import Runtime.

(** The transports of the SDK, and a transport written by the user: its
    truth value, its [send], which may raise, and its [flush] method if it
    has one. *)
Inductive t :=
| HttpTransport (options : BugwatchOptions.t)
| AsyncHttpTransport (options : BugwatchOptions.t)
| NoopTransport
| ConsoleTransport (options : BugwatchOptions.t)
| UserTransport (truth : bool) (send : ErrorEvent.t -> Outcome bool)
    (flush : option (Outcome unit)).

Definition endpoint (options : BugwatchOptions.t) : string :=
  Py.rstrip_char "/" (BugwatchOptions.endpoint options) +:+ "/api/v1/events".

Definition log_sent (options : BugwatchOptions.t) (event : ErrorEvent.t) : M unit :=
  when (BugwatchOptions.debug options)
    (emit (Log "debug" ("Event sent successfully: " +:+ ErrorEvent.event_id event))).

(** [HttpTransport.send]: the [try] body, with each [except] clause at the
    place where its exception arises. *)
Definition HttpTransport_send (options : BugwatchOptions.t) (event : ErrorEvent.t)
  : M bool :=
  let! body := read (fun h => json_body h event) in
  match body with
  | Raise e =>
      do! emit (Log "error" ("Error sending event: " +:+ Py.exc_text e)) in ret false
  | Ok body =>
      do! emit (HttpPost (endpoint options) body) in
      let! response := ask http_exchange in
      match response with
      | Response status =>
          if Py.mem status [200; 201; 202]
          then do! log_sent options event in ret true
          else
            do! emit (Log "warning" ("Failed to send event: HTTP " +:+ Py.str_of_int status)) in
            ret false
      | HTTPError code reason =>
          do! emit (Log "error" ("HTTP error sending event: " +:+ Py.str_of_int code
                                 +:+ " " +:+ reason)) in
          ret false
      | URLError reason =>
          do! emit (Log "error" ("URL error sending event: " +:+ reason)) in ret false
      | OtherError e =>
          do! emit (Log "error" ("Error sending event: " +:+ Py.exc_text e)) in ret false
      end
  end.

Definition error_text (r : HttpResult) : string :=
  match r with
  | Response _ => ""
  | HTTPError _ reason => reason
  | URLError reason => reason
  | OtherError e => Py.exc_text e
  end.

(** [AsyncHttpTransport.send_async]: one [except Exception] for everything. *)
Definition AsyncHttpTransport_send_async (options : BugwatchOptions.t)
  (event : ErrorEvent.t) : M bool :=
  let failed text := do! emit (Log "error" ("Error sending event: " +:+ text)) in ret false in
  let! installed := read httpx_installed in
  if negb installed
  then failed "httpx is required for async transport. Install it with: pip install bugwatch-sdk[async]"
  else
    let! body := read (fun h => json_body h event) in
    match body with
    | Raise e => failed (Py.exc_text e)
    | Ok body =>
        do! emit (HttpPost (endpoint options) body) in
        let! response := ask http_exchange in
        match response with
        | Response status_code =>
            if Py.mem status_code [200; 201]
            then do! log_sent options event in ret true
            else
              do! emit (Log "warning" ("Failed to send event: HTTP "
                                       +:+ Py.str_of_int status_code)) in
              ret false
        | failure => failed (error_text failure)
        end
    end.

(** [AsyncHttpTransport.send]: inside a running loop the send becomes a
    background task and the answer is optimistic; otherwise [send_async]
    runs to completion. *)
Definition AsyncHttpTransport_send (options : BugwatchOptions.t) (event : ErrorEvent.t)
  : M bool :=
  let! running := ask loop_is_running in
  if running then do! emit (TaskScheduled event) in ret true
  else AsyncHttpTransport_send_async options event.

(** [bool(transport)]: an object of the SDK is true. *)
Definition truthy (transport : t) : bool :=
  match transport with
  | UserTransport truth _ _ => truth
  | _ => true
  end.

(** [ConsoleTransport.send]: five [print] calls outside any [try]. *)
Definition ConsoleTransport_send (event : ErrorEvent.t) : M bool :=
  do! print (Print ("[Bugwatch] Event " +:+ ErrorEvent.event_id event)) in
  do! print (Print ("  Level: " +:+ Level_value (ErrorEvent.level event))) in
  do! match ErrorEvent.exception event with
      | Some exc =>
          print (Print ("  Exception: " +:+ ExceptionInfo.type exc +:+ ": "
                        +:+ ExceptionInfo.value exc))
      | None => ret tt
      end in
  do! match ErrorEvent.message event with
      | Some (String _ _ as text) => print (Print ("  Message: " +:+ text))
      | _ => ret tt
      end in
  do! print (PrintTags (ErrorEvent.tags event)) in
  ret true.

(** [transport.send(event)], as the client calls it. *)
Definition send (transport : t) (event : ErrorEvent.t) : M bool :=
  do! emit (TransportSend event) in
  match transport with
  | HttpTransport options => HttpTransport_send options event
  | AsyncHttpTransport options => AsyncHttpTransport_send options event
  | NoopTransport => ret true
  | ConsoleTransport _ => ConsoleTransport_send event
  | UserTransport _ user_send _ => lift (user_send event)
  end.

(** [if hasattr(transport, 'flush'): transport.flush()]. *)
Definition flush_if_any (transport : t) : M unit :=
  match transport with
  | UserTransport _ _ (Some user_flush) => do! emit TransportFlush in lift user_flush
  | _ => ret tt
  end.

(** [dataclasses.asdict]: a dataclass becomes the dict of its fields in
    declaration order, lists and dicts are copied element by element, any
    other value is copied as it is. *)
Fixpoint asdict_any (value : Any) : Payload.t :=
  match value with
  | ANone => Payload.Null
  | ABool b => Payload.Bool b
  | AInt n => Payload.Int n
  | AFloat x => Payload.Float x
  | AStr s => Payload.Str s
  | AList items => Payload.List (map asdict_any items)
  | ADict items =>
      Payload.Dict ((fix all (l : list (string * Any)) : list (string * Payload.t) :=
                       match l with
                       | (k, v) :: rest => (k, asdict_any v) :: all rest
                       | [] => []
                       end) items)
  | AObject type_name => Payload.Object type_name
  end.

Definition optional {A} (f : A -> Payload.t) (field : option A) : Payload.t :=
  match field with
  | Some value => f value
  | None => Payload.Null
  end.

Definition asdict_dict {V} (f : V -> Payload.t) (d : gmap string V) : Payload.t :=
  Payload.Dict (map (fun kv => (fst kv, f (snd kv))) (map_to_list d)).

Definition asdict_strings (l : list string) : Payload.t :=
  Payload.List (map Payload.Str l).

Definition asdict_StackFrame (frame : StackFrame.t) : Payload.t :=
  Payload.Dict
    [ ("filename", Payload.Str (StackFrame.filename frame));
      ("function", Payload.Str (StackFrame.function frame));
      ("lineno", Payload.Int (StackFrame.lineno frame));
      ("colno", optional Payload.Int (StackFrame.colno frame));
      ("context_line", optional Payload.Str (StackFrame.context_line frame));
      ("pre_context", optional asdict_strings (StackFrame.pre_context frame));
      ("post_context", optional asdict_strings (StackFrame.post_context frame));
      ("in_app", Payload.Bool (StackFrame.in_app frame));
      ("module", optional Payload.Str (StackFrame.module frame));
      ("vars", optional (asdict_dict asdict_any) (StackFrame.vars frame)) ].

Definition asdict_ExceptionInfo (exception : ExceptionInfo.t) : Payload.t :=
  Payload.Dict
    [ ("type", Payload.Str (ExceptionInfo.type exception));
      ("value", Payload.Str (ExceptionInfo.value exception));
      ("stacktrace", Payload.List (map asdict_StackFrame (ExceptionInfo.stacktrace exception)));
      ("module", optional Payload.Str (ExceptionInfo.module exception)) ].

Definition asdict_Breadcrumb (breadcrumb : Breadcrumb.t) : Payload.t :=
  Payload.Dict
    [ ("category", Payload.Str (Breadcrumb.category breadcrumb));
      ("message", Payload.Str (Breadcrumb.message breadcrumb));
      ("type", Payload.Str (Breadcrumb.type breadcrumb));
      ("level", Payload.Enum (Breadcrumb.level breadcrumb));
      ("timestamp", Payload.Datetime (Breadcrumb.timestamp breadcrumb));
      ("data", optional (asdict_dict asdict_any) (Breadcrumb.data breadcrumb)) ].

Definition asdict_UserContext (user : UserContext.t) : Payload.t :=
  Payload.Dict
    [ ("id", optional Payload.Str (UserContext.id user));
      ("email", optional Payload.Str (UserContext.email user));
      ("username", optional Payload.Str (UserContext.username user));
      ("ip_address", optional Payload.Str (UserContext.ip_address user));
      ("extra", optional (asdict_dict asdict_any) (UserContext.extra user)) ].

Definition asdict_RequestContext (request : RequestContext.t) : Payload.t :=
  Payload.Dict
    [ ("url", optional Payload.Str (RequestContext.url request));
      ("method", optional Payload.Str (RequestContext.method request));
      ("headers", optional (asdict_dict Payload.Str) (RequestContext.headers request));
      ("query_string", optional Payload.Str (RequestContext.query_string request));
      ("data", optional (asdict_dict asdict_any) (RequestContext.data request));
      ("cookies", optional (asdict_dict Payload.Str) (RequestContext.cookies request));
      ("env", optional (asdict_dict Payload.Str) (RequestContext.env request)) ].

Definition asdict_RuntimeInfo (runtime : RuntimeInfo.t) : Payload.t :=
  Payload.Dict [ ("name", Payload.Str (RuntimeInfo.name runtime));
                 ("version", Payload.Str (RuntimeInfo.version runtime)) ].

Definition asdict_SdkInfo (sdk : SdkInfo.t) : Payload.t :=
  Payload.Dict [ ("name", Payload.Str (SdkInfo.name sdk));
                 ("version", Payload.Str (SdkInfo.version sdk)) ].

Definition asdict (event : ErrorEvent.t) : Payload.t :=
  Payload.Dict
    [ ("event_id", Payload.Str (ErrorEvent.event_id event));
      ("timestamp", Payload.Datetime (ErrorEvent.timestamp event));
      ("level", Payload.Enum (ErrorEvent.level event));
      ("exception", optional asdict_ExceptionInfo (ErrorEvent.exception event));
      ("message", optional Payload.Str (ErrorEvent.message event));
      ("platform", Payload.Str (ErrorEvent.platform event));
      ("sdk", optional asdict_SdkInfo (ErrorEvent.sdk event));
      ("runtime", optional asdict_RuntimeInfo (ErrorEvent.runtime event));
      ("request", optional asdict_RequestContext (ErrorEvent.request event));
      ("user", optional asdict_UserContext (ErrorEvent.user event));
      ("tags", asdict_dict Payload.Str (ErrorEvent.tags event));
      ("extra", asdict_dict asdict_any (ErrorEvent.extra event));
      ("breadcrumbs", Payload.List (map asdict_Breadcrumb (ErrorEvent.breadcrumbs event)));
      ("fingerprint", optional Payload.Str (ErrorEvent.fingerprint event));
      ("environment", optional Payload.Str (ErrorEvent.environment event));
      ("release", optional Payload.Str (ErrorEvent.release event));
      ("server_name", optional Payload.Str (ErrorEvent.server_name event)) ].

(** [convert_and_clean]: Convert datetime/enum objects and remove None
    values. *)
Fixpoint convert_and_clean (obj : Payload.t) : Payload.t :=
  match obj with
  | Payload.Datetime d => Payload.Isoformat d
  | Payload.Enum l => Payload.Str (Level_value l)
  | Payload.Dict items =>
      Payload.Dict
        ((fix kept (l : list (string * Payload.t)) : list (string * Payload.t) :=
            match l with
            | (k, v) :: rest =>
                match v with
                | Payload.Null => kept rest
                | _ => (k, convert_and_clean v) :: kept rest
                end
            | [] => []
            end) items)
  | Payload.List items => Payload.List (map convert_and_clean items)
  | other => other
  end.

(** [HttpTransport._serialize_event]. *)
Definition _serialize_event (event : ErrorEvent.t) : Payload.t :=
  convert_and_clean (asdict event).

End Transport.

(* ===================================================================== *)
(** * bugwatch/client.py *)
(* ===================================================================== *)

Definition SDK_NAME : string := "bugwatch-python".
Definition SDK_VERSION : string := "0.1.0".

Module BugwatchClient.

Import Runtime.

Record t := mk {
  options : BugwatchOptions.t;
  transport : Transport.t;
  _breadcrumbs : list Breadcrumb.t;
  _user : option UserContext.t;
  _request : option RequestContext.t;
  _tags : gmap string string;
  _extra : gmap string Any;
}.

Definition with_breadcrumbs (self : t) (crumbs : list Breadcrumb.t) : t :=
  mk (options self) (transport self) crumbs (_user self) (_request self)
     (_tags self) (_extra self).

(** [BugwatchClient(options, transport)]. *)
Definition __init__ (options : BugwatchOptions.t) (transport : option Transport.t)
  : M t :=
  (* transport or HttpTransport(options) *)
  let transport :=
    match transport with
    | Some given => if Transport.truthy given then given else Transport.HttpTransport options
    | None => Transport.HttpTransport options
    end in
  let! version := read python_version in
  let! sys_platform := read sys_platform in
  let! system := read platform_system in
  let tags : gmap string string :=
    <["os.name" := system]> (<["os.platform" := sys_platform]>
      (<["runtime.version" := version]> (<["runtime" := "python"]> ∅))) in
  let tags :=
    match BugwatchOptions.environment options with
    | Some (String _ _ as environment) => <["environment" := environment]> tags
    | _ => tags
    end in
  do! when (BugwatchOptions.debug options)
        (print (Print "[Bugwatch] Python SDK initialized")) in
  ret (mk options transport [] None None tags ∅).

Definition _is_in_app (h : Host) (filename : string) : bool :=
  if Py.contains "site-packages" filename then false
  else if Py.startswith filename "<" then false
  else
    let stdlib_paths := [sys_prefix h; sys_base_prefix h] in
    if existsb (fun path => Py.startswith filename path
                            && negb (Py.contains "site-packages" filename))
               stdlib_paths
    then false
    else true.

(** The lines [linecache] has for the given numbers, empty ones left out. *)
Definition context_lines (h : Host) (filename : string) (numbers : list Z) : list string :=
  flat_map (fun i =>
              match linecache_getline h filename i with
              | EmptyString => []
              | line => [Py.rstrip line]
              end) numbers.

Definition none_if_empty {A} (l : list A) : option (list A) :=
  match l with [] => None | _ => Some l end.

Definition extract_frame (self : t) (h : Host) (tb : Traceback.entry) : StackFrame.t :=
  let lineno := Traceback.tb_lineno tb in
  let filename := Traceback.co_filename tb in
  let in_app := _is_in_app h filename in
  let context_line := Py.rstrip (linecache_getline h filename lineno) in
  let pre_context := context_lines h filename (Py.range (Z.max 1 (lineno - 3)) lineno) in
  let post_context := context_lines h filename (Py.range (lineno + 1) (lineno + 4)) in
  let local_vars :=
    if BugwatchOptions.capture_locals (options self) && in_app
    then Traceback.f_locals tb else None in
  StackFrame.mk filename (Traceback.co_name tb) lineno (Some 0)
    (if Py.truthy (Some context_line) then Some context_line else None)
    (none_if_empty pre_context) (none_if_empty post_context)
    in_app (Traceback.f_globals_name tb) local_vars.

Definition _extract_exception (self : t) (error : BaseException.t) : M ExceptionInfo.t :=
  let! h := read (fun h => h) in
  let frames := map (extract_frame self h) (BaseException.traceback error) in
  let! value := lift (BaseException.as_str error) in
  ret (ExceptionInfo.mk (BaseException.class_name error) value frames
         (BaseException.class_module error)).

(** [{**own}] updated with the caller's dictionary, whose entries win. *)
Definition merged {V} (own : gmap string V) (given : option (gmap string V))
  : gmap string V :=
  match given with
  | Some given => given ∪ own
  | None => own
  end.

Definition _create_event (self : t) (level : Level)
  (exception : option ExceptionInfo.t) (message : option string)
  (tags : option (gmap string string)) (extra : option (gmap string Any))
  : M ErrorEvent.t :=
  let! event_id := ask uuid4_hex in
  let merged_tags := merged (_tags self) tags in
  let merged_extra := merged (_extra self) extra in
  (* Ensure message is never None (server requires it) *)
  let final_message :=
    match message, exception with
    | Some text, _ => text
    | None, Some exception =>
        ExceptionInfo.type exception +:+ ": " +:+ ExceptionInfo.value exception
    | None, None => ""
    end in
  let! timestamp := ask datetime_now in
  let! version := read python_version in
  let! hostname := read gethostname in
  ret (ErrorEvent.mk event_id timestamp level exception (Some final_message) "python"
         (Some (SdkInfo.mk SDK_NAME SDK_VERSION))
         (Some (RuntimeInfo.mk "python" version))
         (_request self) (_user self) merged_tags merged_extra (_breadcrumbs self) None
         (BugwatchOptions.environment (options self))
         (BugwatchOptions.release (options self))
         (Some (Py.or_else (BugwatchOptions.server_name (options self)) hostname))).

(** The sample-rate gate: [true] when the call is dropped. *)
Definition sampled_out (self : t) : M bool :=
  let rate := BugwatchOptions.sample_rate (options self) in
  if PrimFloat.ltb rate 1%float
  then let! draw := ask random_random in ret (PrimFloat.ltb rate draw)
  else ret false.

(** [if self.options.before_send:], which tests the truth value of the
    callable. *)
Definition hook (self : t) : option BeforeSend.t :=
  match BugwatchOptions.before_send (options self) with
  | Some before_send => if BeforeSend.truth before_send then Some before_send else None
  | None => None
  end.

(** The [before_send] hook and the transport, shared by both captures. *)
Definition deliver (self : t) (event : ErrorEvent.t) : M string :=
  let! event :=
    match hook self with
    | Some before_send =>
        do! emit (BeforeSendCall event) in lift (BeforeSend.call before_send event)
    | None => ret (Some event)
    end in
  match event with
  | None => ret ""
  | Some event =>
      do! Transport.send (transport self) event in
      ret (ErrorEvent.event_id event)
  end.

Definition capture_exception (self : t) (error : option BaseException.t)
  (level : Level) (tags : option (gmap string string))
  (extra : option (gmap string Any)) : M string :=
  let! error :=
    match error with
    | Some error => ret (Some error)
    | None => sys_exc_info
    end in
  match error with
  | None => ret ""
  | Some error =>
      let! dropped := sampled_out self in
      if dropped then ret ""
      else
        let! exception_info := _extract_exception self error in
        let! event := _create_event self level (Some exception_info) None tags extra in
        let event :=
          ErrorEvent.set_fingerprint
            (Some (Fingerprint.fingerprint_from_exception exception_info)) event in
        deliver self event
  end.

Definition capture_message (self : t) (message : string) (level : Level)
  (tags : option (gmap string string)) (extra : option (gmap string Any)) : M string :=
  let! dropped := sampled_out self in
  if dropped then ret ""
  else
    let! event := _create_event self level None (Some message) tags extra in
    deliver self event.

Definition add_breadcrumb (self : t) (category message : string) (level : Level)
  (data : option (gmap string Any)) (breadcrumb_type : string) : M t :=
  let! timestamp := ask datetime_now in
  let breadcrumb := Breadcrumb.mk category message breadcrumb_type level timestamp data in
  let crumbs := _breadcrumbs self ++ [breadcrumb] in
  (* Limit breadcrumbs *)
  let max_breadcrumbs := BugwatchOptions.max_breadcrumbs (options self) in
  if Z.of_nat (length crumbs) >? max_breadcrumbs
  then ret (with_breadcrumbs self (Py.slice_from (- max_breadcrumbs) crumbs))
  else ret (with_breadcrumbs self crumbs).

Definition set_user (self : t) (user : option UserContext.t) : t :=
  mk (options self) (transport self) (_breadcrumbs self) user (_request self)
     (_tags self) (_extra self).

Definition set_request (self : t) (request : option RequestContext.t) : t :=
  mk (options self) (transport self) (_breadcrumbs self) (_user self) request
     (_tags self) (_extra self).

Definition set_tag (self : t) (key value : string) : t :=
  mk (options self) (transport self) (_breadcrumbs self) (_user self) (_request self)
     (<[key := value]> (_tags self)) (_extra self).

Definition set_extra (self : t) (key : string) (value : Any) : t :=
  mk (options self) (transport self) (_breadcrumbs self) (_user self) (_request self)
     (_tags self) (<[key := value]> (_extra self)).

Definition clear_breadcrumbs (self : t) : t := with_breadcrumbs self [].

(** [value[:max_len] + "..."] when [len(value) > max_len]. *)
Definition shortened (max_len : Z) (s : string) : string :=
  if Z.of_nat (String.length s) >? max_len
  then Py.str (Py.slice_upto max_len (Py.chars s)) +:+ "..."
  else s.

(** [_serialize_value(value, max_len, depth)]. A set is serialized as the
    list of its elements at the same depth, which is the list branch. *)
Fixpoint _serialize_value (max_len : Z) (depth : Z) (value : Value) {struct value} : Any :=
  if depth >? 3 then AStr "<max depth>"       (* Prevent deep recursion *)
  else
    let sequence (items : list Value) (all first_ten : list Any) : Any :=
      if Z.of_nat (length items) >? 10
      then AList (first_ten
                  ++ [AStr ("... and " +:+ Py.str_of_int (Z.of_nat (length items) - 10)
                            +:+ " more")])
      else AList all in
    match value with
    | VNone => ANone
    | VBool b => ABool b
    | VInt n => AInt n
    | VFloat x => AFloat x
    | VStr s => AStr (shortened max_len s)
    | VBytes len decoded =>
        match decoded with
        | Ok decoded => AStr (shortened max_len decoded)
        | Raise _ => AStr ("<bytes len=" +:+ Py.str_of_int len +:+ ">")
        end
    | VList items | VSet items =>
        sequence items
          (map (_serialize_value max_len (depth + 1)) items)
          ((fix first (n : nat) (l : list Value) : list Any :=
              match n, l with
              | S n, v :: rest => _serialize_value max_len (depth + 1) v :: first n rest
              | _, _ => []
              end) 10%nat items)
    | VDict items =>
        if Z.of_nat (length items) >? 10
        then
          ADict (Py.dict_set "..."
                   (AStr (Py.str_of_int (Z.of_nat (length items) - 10) +:+ " more keys"))
                   ((fix first (n : nat) (l : list (string * Value))
                       : list (string * Any) :=
                       match n, l with
                       | S n, (k, v) :: rest =>
                           (k, _serialize_value max_len (depth + 1) v) :: first n rest
                       | _, _ => []
                       end) 10%nat items))
        else
          ADict ((fix all (l : list (string * Value)) : list (string * Any) :=
                    match l with
                    | (k, v) :: rest =>
                        (k, _serialize_value max_len (depth + 1) v) :: all rest
                    | [] => []
                    end) items)
    | VInstance type_name => AStr ("<" +:+ type_name +:+ ">")
    | VOther type_name as_str =>
        match as_str with
        | Ok str_val => AStr (shortened max_len str_val)
        | Raise _ => AStr ("<" +:+ type_name +:+ ">")
        end
    end.

Definition skip_prefixes : list string := ["_"; "__"].
Definition skip_names : list string := ["self"; "cls"; "request"; "response"; "environ"].

(** [_extract_locals(local_vars)]: [local_vars] is [frame.f_locals] in
    insertion order. No branch of [_serialize_value] raises on a [Value], so
    the handler around the call is not reached. *)
Definition _extract_locals (self : t) (local_vars : list (string * Value))
  : option (gmap string Any) :=
  let max_len := BugwatchOptions.max_value_length (options self) in
  let result :=
    fold_left
      (fun (result : gmap string Any) (binding : string * Value) =>
         let name := fst binding in
         if existsb (Py.startswith name) skip_prefixes then result
         else if existsb (String.eqb name) skip_names then result
         else <[name := _serialize_value max_len 0 (snd binding)]> result)
      local_vars ∅ in
  if (size result =? 0)%nat then None else Some result.

End BugwatchClient.

(* ===================================================================== *)
(** * bugwatch/__init__.py *)
(* ===================================================================== *)

Module Bugwatch.

Import Runtime.

(** A function installed as an exception hook: one of the three hooks of
    this module, or somebody else's. *)
Inductive Handler :=
| BugwatchHook
| ForeignHook (name : string).

Definition is_bugwatch (h : Handler) : bool :=
  match h with BugwatchHook => true | ForeignHook _ => false end.

(** The module globals, and the interpreter slots the module writes to:
    [sys.excepthook], [threading.excepthook], and the exception handler of
    the running event loop when there is one. *)
Record State := mk {
  _client : option BugwatchClient.t;
  _original_excepthook : option Handler;
  _original_threading_excepthook : option Handler;
  _original_asyncio_handler : option Handler;
  _hooks_installed : bool;
  sys_excepthook : Handler;
  threading_excepthook : Handler;
  running_loop : option (option Handler);
  atexit_handlers : nat;
}.

(** The module as imported, before any call. *)
Definition initial (sys_hook threading_hook : Handler) (loop : option (option Handler))
  : State :=
  mk None None None None false sys_hook threading_hook loop 0%nat.

Definition with_client (g : State) (client : option BugwatchClient.t) : State :=
  mk client (_original_excepthook g) (_original_threading_excepthook g)
     (_original_asyncio_handler g) (_hooks_installed g) (sys_excepthook g)
     (threading_excepthook g) (running_loop g) (atexit_handlers g).

Definition _install_excepthook (g : State) : State :=
  if is_bugwatch (sys_excepthook g) then g
  else mk (_client g) (Some (sys_excepthook g)) (_original_threading_excepthook g)
          (_original_asyncio_handler g) (_hooks_installed g) BugwatchHook
          (threading_excepthook g) (running_loop g) (atexit_handlers g).

Definition _install_threading_hook (h : Host) (g : State) : State :=
  if version_info_ge_3_8 h && negb (is_bugwatch (threading_excepthook g))
  then mk (_client g) (_original_excepthook g) (Some (threading_excepthook g))
          (_original_asyncio_handler g) (_hooks_installed g) (sys_excepthook g)
          BugwatchHook (running_loop g) (atexit_handlers g)
  else g.

Definition _install_asyncio_hook (g : State) : State :=
  match running_loop g with
  | None => g     (* No running loop - that's okay, will work when loop starts *)
  | Some handler =>
      if match handler with Some h => is_bugwatch h | None => false end then g
      else mk (_client g) (_original_excepthook g) (_original_threading_excepthook g)
              handler (_hooks_installed g) (sys_excepthook g)
              (threading_excepthook g) (Some (Some BugwatchHook)) (atexit_handlers g)
  end.

Definition _uninstall_hooks (h : Host) (g : State) : State :=
  let sys_hook := default (sys_excepthook g) (_original_excepthook g) in
  let threading_hook :=
    match _original_threading_excepthook g with
    | Some original => if version_info_ge_3_8 h then original else threading_excepthook g
    | None => threading_excepthook g
    end in
  mk (_client g) (_original_excepthook g) (_original_threading_excepthook g)
     (_original_asyncio_handler g) false sys_hook threading_hook (running_loop g)
     (atexit_handlers g).

(** [try: _client.capture_exception(...)  except Exception: pass] *)
Definition capture_quietly (client : BugwatchClient.t) (error : BaseException.t)
  (level : Level) (tags : option (gmap string string))
  (extra : option (gmap string Any)) : M unit :=
  try_except
    (do! BugwatchClient.capture_exception client (Some error) level tags extra in ret tt)
    (fun _ => ret tt).

Definition call_original (original : option Handler) : M unit :=
  match original with
  | Some (ForeignHook name) => emit (HandlerCall name)
  | Some BugwatchHook => emit (HandlerCall "bugwatch")
  | None => ret tt
  end.

Definition with_traceback (error : BaseException.t) (tb : list Traceback.entry)
  : BaseException.t :=
  BaseException.mk (BaseException.class_name error) (BaseException.class_module error)
    (BaseException.as_str error) tb.

Definition _bugwatch_excepthook (g : State) (exc_value : BaseException.t)
  (exc_tb : list Traceback.entry) : M unit :=
  do! match _client g with
      | Some client => capture_quietly client (with_traceback exc_value exc_tb) FATAL None None
      | None => ret tt
      end in
  call_original (_original_excepthook g).

Definition _bugwatch_threading_excepthook (g : State) (exc_value : BaseException.t)
  (exc_traceback : list Traceback.entry) (thread_name : option string) : M unit :=
  do! match _client g with
      | Some client =>
          capture_quietly client (with_traceback exc_value exc_traceback) ERROR
            (Some {[ "thread.name" := default "unknown" thread_name ]}) None
      | None => ret tt
      end in
  call_original (_original_threading_excepthook g).

(** [_bugwatch_asyncio_handler]: of the [context] of the event loop, the
    exception where there is one that is true, the message, and what
    [str] makes of the future, which is evaluated inside the [try]. *)
Definition _bugwatch_asyncio_handler (g : State) (exception : option BaseException.t)
  (message : option string) (future : option (Outcome string)) : M unit :=
  do! match exception, _client g with
      | Some exception, Some client =>
          match default (Ok "") future with
          | Ok task =>
              capture_quietly client exception ERROR None
                (Some {[ "asyncio.message" := AStr (default "" message);
                         "asyncio.task" := AStr task ]})
          | Raise _ => ret tt
          end
      | _, _ => ret tt
      end in
  match _original_asyncio_handler g with
  | Some _ => call_original (_original_asyncio_handler g)
  | None => emit (HandlerCall "loop.default_exception_handler")
  end.

Definition _atexit_handler (g : State) : M unit :=
  match _client g with
  | Some client =>
      try_except (Transport.flush_if_any (BugwatchClient.transport client))
                 (fun _ => ret tt)
  | None => ret tt
  end.

(** A [print] of [init], made when [enabled]: the globals are as they were
    set so far when it raises. *)
Definition noted (enabled : bool) (text : string) (g : State) (w : Runtime.t)
  (next : State -> Runtime.t -> Outcome BugwatchClient.t * State * Runtime.t)
  : Outcome BugwatchClient.t * State * Runtime.t :=
  match when enabled (print (Print text)) w with
  | (Ok _, w) => next g w
  | (Raise e, w) => (Raise e, g, w)
  end.

(** [init]: [kwargs] are the further options, applied to the record built
    from the named arguments. The call returns or raises, and leaves the
    module globals as its assignments made them. *)
Definition init (g : State) (api_key : option string) (endpoint : string)
  (environment release : option string) (debug : bool)
  (install_excepthook install_threading_hook install_asyncio_hook : bool)
  (kwargs : BugwatchOptions.t -> BugwatchOptions.t) (w : Runtime.t)
  : Outcome BugwatchClient.t * State * Runtime.t :=
  let h := host w in
  let from_env (given : option string) (name : string) :=
    match given with Some v => Some v | None => environ h name end in
  match from_env api_key "BUGWATCH_API_KEY" with
  | None =>
      (Raise (Py.mkExc "ValueError"
         "api_key is required. Either pass it explicitly or set the BUGWATCH_API_KEY environment variable."),
       g, w)
  | Some api_key =>
      let environment := from_env environment "BUGWATCH_ENVIRONMENT" in
      let release := from_env release "BUGWATCH_RELEASE" in
      let base := BugwatchOptions.defaults api_key in
      let options :=
        kwargs (BugwatchOptions.mk api_key endpoint environment release
                  (BugwatchOptions.server_name base) debug
                  (BugwatchOptions.max_breadcrumbs base) (BugwatchOptions.sample_rate base)
                  (BugwatchOptions.attach_stacktrace base)
                  (BugwatchOptions.send_default_pii base) (BugwatchOptions.before_send base)
                  (BugwatchOptions.capture_locals base)
                  (BugwatchOptions.max_value_length base)) in
      match BugwatchClient.__init__ options None w with
      | (Raise e, w) => (Raise e, g, w)
      | (Ok client, w) =>
          let g := with_client g (Some client) in
          if _hooks_installed g then (Ok client, g, w)
          else
            let g := if install_excepthook then _install_excepthook g else g in
            noted (install_excepthook && debug) "[Bugwatch] Installed sys.excepthook" g w
              (fun g w =>
            let g := if install_threading_hook then _install_threading_hook h g else g in
            noted (install_threading_hook && debug && version_info_ge_3_8 h)
              "[Bugwatch] Installed threading.excepthook" g w
              (fun g w =>
            let g := if install_asyncio_hook then _install_asyncio_hook g else g in
            noted (install_asyncio_hook && debug)
              "[Bugwatch] Installed asyncio exception handler" g w
              (fun g w =>
            (* Register atexit handler *)
            let g := mk (_client g) (_original_excepthook g)
                        (_original_threading_excepthook g) (_original_asyncio_handler g)
                        (_hooks_installed g) (sys_excepthook g) (threading_excepthook g)
                        (running_loop g) (S (atexit_handlers g)) in
            noted debug "[Bugwatch] Registered atexit handler" g w
              (fun g w =>
            (Ok client,
             mk (_client g) (_original_excepthook g) (_original_threading_excepthook g)
                (_original_asyncio_handler g) true (sys_excepthook g)
                (threading_excepthook g) (running_loop g) (atexit_handlers g),
             w)))))
      end
  end.

Definition get_client (g : State) : option BugwatchClient.t := _client g.

Definition flush (g : State) : M unit :=
  match _client g with
  | Some client => Transport.flush_if_any (BugwatchClient.transport client)
  | None => ret tt
  end.

Definition close (g : State) : M State :=
  do! flush g in
  let! h := read (fun h => h) in
  ret (with_client (_uninstall_hooks h g) None).

Definition capture_exception (g : State) (error : option BaseException.t)
  (level : Level) (tags : option (gmap string string))
  (extra : option (gmap string Any)) : M string :=
  match _client g with
  | None => ret ""
  | Some client => BugwatchClient.capture_exception client error level tags extra
  end.

Definition capture_message (g : State) (message : string) (level : Level)
  (tags : option (gmap string string)) (extra : option (gmap string Any)) : M string :=
  match _client g with
  | None => ret ""
  | Some client => BugwatchClient.capture_message client message level tags extra
  end.

Definition add_breadcrumb (g : State) (category message : string) (level : Level)
  (data : option (gmap string Any)) : M State :=
  match _client g with
  | None => ret g
  | Some client =>
      let! client := BugwatchClient.add_breadcrumb client category message level data
                       "default" in
      ret (with_client g (Some client))
  end.

(** A setter that only rewrites a field of the client. *)
Definition on_client (g : State) (update : BugwatchClient.t -> BugwatchClient.t) : State :=
  match _client g with
  | None => g
  | Some client => with_client g (Some (update client))
  end.

Definition set_user (g : State) (user : option UserContext.t) : State :=
  on_client g (fun client => BugwatchClient.set_user client user).

Definition set_request (g : State) (request : option RequestContext.t) : State :=
  on_client g (fun client => BugwatchClient.set_request client request).

Definition set_tag (g : State) (key value : string) : State :=
  on_client g (fun client => BugwatchClient.set_tag client key value).

Definition set_extra (g : State) (key : string) (value : Any) : State :=
  on_client g (fun client => BugwatchClient.set_extra client key value).

End Bugwatch.

(* ===================================================================== *)
(** * The fingerprint as the specification words it *)
(* ===================================================================== *)

Module Spec.

(** The fingerprint as the specification describes it: hash
    [type + ":" + normalizedMessage], with [":" + stackDigest] appended when
    a digest is supplied, and keep the first 32 hexadecimal characters. *)
Definition fingerprint (type message : string) (stackDigest : option string) : string :=
  let content := type +:+ ":" +:+ Fingerprint._normalize_message message in
  let content :=
    match stackDigest with
    | Some digest => content +:+ ":" +:+ digest
    | None => content
    end in
  String.substring 0 32 (Sha256.hexdigest (Py.encode content)).

(** The stack digest as the specification describes it: the first five
    in-app frames of the whole stack. *)
Definition stack_digest (frames : list StackFrame.t) : option string :=
  match map Fingerprint.frame_part (firstn 5 (List.filter StackFrame.in_app frames)) with
  | [] => None
  | parts => Some (Py.join "|" parts)
  end.

End Spec.

(* ===================================================================== *)
(** * Vocabulary of the statements *)
(* ===================================================================== *)

(** ** Stack traces *)

Definition library_frame : StackFrame.t :=
  StackFrame.mk "lib.py" "lib_func" 5 None None None None false None None.

Definition app_frame : StackFrame.t :=
  StackFrame.mk "app.py" "main" 10 None None None None true None None.

(** Five library frames around the application frame that raised. *)
Definition deep_stack : list StackFrame.t := repeat library_frame 5 ++ [app_frame].

Definition deep_exception : ExceptionInfo.t :=
  ExceptionInfo.mk "ValueError" "error" deep_stack None.

(** The frames the digest is built from: those of the first five that are
    in-app, in stack order. *)
Definition digest_frames (frames : list StackFrame.t) : list StackFrame.t :=
  List.filter StackFrame.in_app (firstn 5 frames).

(** ** Hosts, worlds and events of the examples *)

(** The status the collector answers to the exchange that [w] is about to
    make for [event], if the event serializes and the exchange gets an
    answer. *)
Definition collector_status (event : ErrorEvent.t) (w : Runtime.t) : option Z :=
  match Runtime.json_body (Runtime.host w) event with
  | Ok _ =>
      match Runtime.http_exchange (Runtime.host w) (Runtime.tick w) with
      | Runtime.Response status => Some status
      | _ => None
      end
  | Raise _ => None
  end.

(** A host for the examples: nothing is configured in the environment, the
    collector answers every exchange with [answer]. *)
Definition example_host (answer : Runtime.HttpResult) : Runtime.Host :=
  Runtime.mkHost "3.11.4" "linux" "Linux" "/usr" "/usr" true "web-1"
    (fun _ => None) (fun _ _ => "") true (fun _ => Ok "{}")
    (fun _ => 0.5%float) (fun _ => "9f1c2d3e4b5a69788796a5b4c3d2e1f0")
    (fun n => Z.of_nat n) (fun _ => answer) (fun _ => false) (fun _ => None).

Definition example_world (answer : Runtime.HttpResult) : Runtime.t :=
  Runtime.mk (example_host answer) None 0 [].

Definition example_options : BugwatchOptions.t := BugwatchOptions.defaults "test-api-key".

Definition example_event : ErrorEvent.t :=
  ErrorEvent.mk "9f1c2d3e4b5a69788796a5b4c3d2e1f0" 1700000000000000 INFO None
    (Some "test") "python" None None None None ∅ ∅ [] None None None None.

(** ** Breadcrumb calls *)

(** The last [n] elements of a list. *)
Definition last_n {A} (n : nat) (l : list A) : list A := skipn (length l - n) l.

(** The arguments of one [add_breadcrumb] call. *)
Record crumb_call := mkCall {
  call_category : string;
  call_message : string;
  call_level : Level;
  call_data : option (gmap string Any);
  call_type : string;
}.

(** The breadcrumb a call records when the clock has been read [tick] times. *)
Definition recorded_at (h : Runtime.Host) (tick : nat) (c : crumb_call) : Breadcrumb.t :=
  Breadcrumb.mk (call_category c) (call_message c) (call_type c) (call_level c)
    (Runtime.datetime_now h tick) (call_data c).

Fixpoint recorded (h : Runtime.Host) (tick : nat) (calls : list crumb_call)
  : list Breadcrumb.t :=
  match calls with
  | [] => []
  | c :: rest => recorded_at h tick c :: recorded h (S tick) rest
  end.

(** A sequence of [add_breadcrumb] calls on the same client. *)
Fixpoint add_breadcrumbs (self : BugwatchClient.t) (calls : list crumb_call)
  : M BugwatchClient.t :=
  match calls with
  | [] => ret self
  | c :: rest =>
      let! self := BugwatchClient.add_breadcrumb self (call_category c) (call_message c)
                     (call_level c) (call_data c) (call_type c) in
      add_breadcrumbs self rest
  end.

Definition capacity (self : BugwatchClient.t) : Z :=
  BugwatchOptions.max_breadcrumbs (BugwatchClient.options self).

Definition example_client (max_breadcrumbs : Z) : BugwatchClient.t :=
  BugwatchClient.mk
    (BugwatchOptions.mk "test-api-key" "https://api.bugwatch.dev" (Some "test") None None
       false max_breadcrumbs 1%float true false None false 1024)
    Transport.NoopTransport [] None None ∅ ∅.

Definition example_calls (n : nat) : list crumb_call :=
  map (fun i => mkCall "test" ("breadcrumb " +:+ Py.str_of_int (Z.of_nat i)) INFO None "default")
      (seq 0 n).

(** ** What a capture lets the outside observe *)

(** The events handed to [transport.send], and those handed to the
    [before_send] hook, among some effects. *)
Definition sends (effects : list Runtime.Effect) : list ErrorEvent.t :=
  flat_map (fun e => match e with Runtime.TransportSend event => [event] | _ => [] end)
           effects.

Definition hook_calls (effects : list Runtime.Effect) : list ErrorEvent.t :=
  flat_map (fun e => match e with Runtime.BeforeSendCall event => [event] | _ => [] end)
           effects.

(** The world after [n] more answers of the host and the effects [new]. *)
Definition later (n : nat) (new : list Runtime.Effect) (w : Runtime.t) : Runtime.t :=
  Runtime.mk (Runtime.host w) (Runtime.exc_info w) (n + Runtime.tick w)
    (Runtime.trace w ++ new).


(** A computation is quiet when it never calls the hook or the transport:
    it answers [post], asks the host some questions and leaves effects of
    other kinds. *)
Definition quiet_effect (e : Runtime.Effect) : Prop :=
  match e with
  | Runtime.TransportSend _ | Runtime.BeforeSendCall _ => False
  | _ => True
  end.

Definition quiet {A} (m : M A) (post : Outcome A -> Prop) : Prop :=
  forall w, exists r n new,
    m w = (r, later n new w) /\ sends new = [] /\ hook_calls new = [] /\ post r.

Definition returns {A} (r : Outcome A) : Prop := exists a, r = Ok a.

(** A computation is steady when it calls neither the hook nor the
    transport and its answer depends on the host alone, not on the moment. *)
Definition steady {A} (m : M A) : Prop :=
  forall w, exists r n new,
    m w = (r, later n new w) /\ sends new = [] /\ hook_calls new = []
    /\ forall w', Runtime.host w' = Runtime.host w -> fst (m w') = r.

(** The sample-rate gate in the world [w]: with a rate below one a number is
    drawn, and the call is dropped when the draw is above the rate. *)
Definition dropped (self : BugwatchClient.t) (w : Runtime.t) : bool :=
  let rate := BugwatchOptions.sample_rate (BugwatchClient.options self) in
  PrimFloat.ltb rate 1%float
  && PrimFloat.ltb rate (Runtime.random_random (Runtime.host w) (Runtime.tick w)).

(** What [transport.send(event)] raises on the host [h], if it raises. *)
Definition send_raises (h : Runtime.Host) (transport : Transport.t) (event : ErrorEvent.t)
  : option Py.Exc :=
  match fst (Transport.send transport event (Runtime.mk h None 0 [])) with
  | Raise e => Some e
  | Ok _ => None
  end.

(** What the caller gets once [event] has gone to the transport: what the
    transport raises, or the id of the event. *)
Definition sent_by (self : BugwatchClient.t) (h : Runtime.Host) (event : ErrorEvent.t)
  (r : Outcome string) : Prop :=
  match send_raises h (BugwatchClient.transport self) event with
  | Some e => r = Raise e
  | None => r = Ok (ErrorEvent.event_id event)
  end.

(** The second half of both captures, from the event that was built: what
    is returned or raised, the events the hook was called with and the
    events the transport was given, in order. *)
Definition pipeline (self : BugwatchClient.t) (h : Runtime.Host) (event : ErrorEvent.t)
  (r : Outcome string) (hooked sent : list ErrorEvent.t) : Prop :=
  match BugwatchClient.hook self with
  | None => hooked = [] /\ sent = [event] /\ sent_by self h event r
  | Some before_send =>
      hooked = [event]
      /\ match BeforeSend.call before_send event with
         | Raise e => r = Raise e /\ sent = []
         | Ok None => r = Ok "" /\ sent = []
         | Ok (Some event') => sent = [event'] /\ sent_by self h event' r
         end
  end.

(** What [_create_event] copies into an event from the client and from the
    arguments of the call. *)
Definition built (self : BugwatchClient.t) (level : Level)
  (tags : option (gmap string string)) (extra : option (gmap string Any))
  (event : ErrorEvent.t) : Prop :=
  ErrorEvent.level event = level
  /\ ErrorEvent.platform event = "python"
  /\ ErrorEvent.tags event = BugwatchClient.merged (BugwatchClient._tags self) tags
  /\ ErrorEvent.extra event = BugwatchClient.merged (BugwatchClient._extra self) extra
  /\ ErrorEvent.breadcrumbs event = BugwatchClient._breadcrumbs self
  /\ ErrorEvent.user event = BugwatchClient._user self
  /\ ErrorEvent.request event = BugwatchClient._request self
  /\ ErrorEvent.environment event
     = BugwatchOptions.environment (BugwatchClient.options self)
  /\ ErrorEvent.release event = BugwatchOptions.release (BugwatchClient.options self).

(** The event of a [capture_message] call. *)
Definition message_event (self : BugwatchClient.t) (text : string) (level : Level)
  (tags : option (gmap string string)) (extra : option (gmap string Any))
  (event : ErrorEvent.t) : Prop :=
  ErrorEvent.message event = Some text
  /\ ErrorEvent.exception event = None
  /\ ErrorEvent.fingerprint event = None
  /\ built self level tags extra event.

(** The event of a [capture_exception] call about [error], whose text is
    [value]: the exception extracted, the message synthesized from it and
    the fingerprint. *)
Definition exception_event (self : BugwatchClient.t) (error : BaseException.t)
  (value : string) (level : Level)
  (tags : option (gmap string string)) (extra : option (gmap string Any))
  (event : ErrorEvent.t) : Prop :=
  exists info,
    ErrorEvent.exception event = Some info
    /\ ExceptionInfo.type info = BaseException.class_name error
    /\ ExceptionInfo.value info = value
    /\ ExceptionInfo.module info = BaseException.class_module error
    /\ length (ExceptionInfo.stacktrace info) = length (BaseException.traceback error)
    /\ ErrorEvent.message event
       = Some (BaseException.class_name error +:+ ": " +:+ value)
    /\ ErrorEvent.fingerprint event = Some (Fingerprint.fingerprint_from_exception info)
    /\ built self level tags extra event.

(** The message [_create_event] gives an event. *)
Definition final_message (message : option string) (exception : option ExceptionInfo.t)
  : string :=
  match message, exception with
  | Some text, _ => text
  | None, Some info => ExceptionInfo.type info +:+ ": " +:+ ExceptionInfo.value info
  | None, None => ""
  end.

(** What [capture_message] lets the outside observe in the world [w]: the
    call is dropped by the sample-rate gate, or its event goes through the
    hook and the transport. *)
Definition message_capture (self : BugwatchClient.t) (text : string) (level : Level)
  (tags : option (gmap string string)) (extra : option (gmap string Any))
  (w : Runtime.t) (r : Outcome string) (hooked sent : list ErrorEvent.t) : Prop :=
  if dropped self w then r = Ok "" /\ hooked = [] /\ sent = []
  else exists event,
         message_event self text level tags extra event
         /\ pipeline self (Runtime.host w) event r hooked sent.

(** The error a [capture_exception] call is about: its argument, or the
    exception being handled when there is no argument. *)
Definition captured (error : option BaseException.t) (w : Runtime.t)
  : option BaseException.t :=
  match error with
  | Some error => Some error
  | None => Runtime.exc_info w
  end.

(** What [capture_exception] lets the outside observe in the world [w]:
    there is no error to capture, or the call is dropped by the sample-rate
    gate, or [str(error)] raises, or its event goes through the hook and the
    transport. *)
Definition exception_capture (self : BugwatchClient.t) (error : option BaseException.t)
  (level : Level) (tags : option (gmap string string)) (extra : option (gmap string Any))
  (w : Runtime.t) (r : Outcome string) (hooked sent : list ErrorEvent.t) : Prop :=
  match captured error w with
  | None => r = Ok "" /\ hooked = [] /\ sent = []
  | Some raised =>
      if dropped self w then r = Ok "" /\ hooked = [] /\ sent = []
      else
        match BaseException.as_str raised with
        | Raise e => r = Raise e /\ hooked = [] /\ sent = []
        | Ok value =>
            exists event,
              exception_event self raised value level tags extra event
              /\ pipeline self (Runtime.host w) event r hooked sent
        end
  end.

(** ** Hooks and clients of the examples *)

Definition example_client_with (before_send : option BeforeSend.t)
  (transport : Transport.t) : BugwatchClient.t :=
  BugwatchClient.mk
    (BugwatchOptions.mk "test-api-key" "https://api.bugwatch.dev" (Some "test") None None
       false 100 1%float true false before_send false 1024)
    transport [] None None ∅ ∅.

Definition hook_failure : Py.Exc := Py.mkExc "RuntimeError" "hook failed".

(** Three functions used as hooks, and a callable object that would drop
    every event but whose truth value is false. *)
Definition failing_hook : BeforeSend.t := BeforeSend.mk true (fun _ => Raise hook_failure).
Definition dropping_hook : BeforeSend.t := BeforeSend.mk true (fun _ => Ok None).
Definition tagging_hook : BeforeSend.t :=
  BeforeSend.mk true (fun event => Ok (Some (ErrorEvent.set_tag "modified" "true" event))).

(** A transport written by the user whose [send] raises, a standard output
    that is closed, and an error whose [__str__] raises. *)
Definition transport_failure : Py.Exc := Py.mkExc "ConnectionError" "send failed".

Definition failing_transport : Transport.t :=
  Transport.UserTransport true (fun _ => Raise transport_failure) None.

Definition closed_stdout : Py.Exc := Py.mkExc "ValueError" "I/O operation on closed file.".

Definition closed_stdout_world : Runtime.t :=
  Runtime.mk
    (Runtime.mkHost "3.11.4" "linux" "Linux" "/usr" "/usr" true "web-1"
       (fun _ => None) (fun _ _ => "") true (fun _ => Ok "{}")
       (fun _ => 0.5%float) (fun _ => "9f1c2d3e4b5a69788796a5b4c3d2e1f0")
       (fun n => Z.of_nat n) (fun _ => Runtime.Response 200) (fun _ => false)
       (fun _ => Some closed_stdout))
    None 0 [].

Definition str_failure : Py.Exc := Py.mkExc "TypeError" "__str__ returned non-string".

Definition unprintable_error : BaseException.t :=
  BaseException.mk "Weird" (Some "app") (Raise str_failure) [].

Definition quiet_world : Runtime.t := example_world (Runtime.Response 200).



(** ** The module before [init] and after [close] *)

(** The module has no client: [init] was never called, or [close] has
    returned. *)
Inductive uninitialized : Bugwatch.State -> Prop :=
| never_initialized sys_hook threading_hook loop :
    uninitialized (Bugwatch.initial sys_hook threading_hook loop)
| closed g w g' w' :
    Bugwatch.close g w = (Ok g', w') -> uninitialized g'.

Definition fresh_module : Bugwatch.State :=
  Bugwatch.initial (Bugwatch.ForeignHook "sys.__excepthook__")
    (Bugwatch.ForeignHook "threading.excepthook") None.

(** The module after [init(api_key=...)] with every other argument at its
    default, and after [close()] has been called on it. *)
Definition initialized_module : Bugwatch.State :=
  snd (fst (Bugwatch.init fresh_module (Some "test-key") "https://api.bugwatch.dev"
              None None false true true true (fun options => options) quiet_world)).

Definition closed_module : Bugwatch.State :=
  match fst (Bugwatch.close initialized_module quiet_world) with
  | Ok g => g
  | Raise _ => initialized_module
  end.

(** ** Message normalization *)

(** The replacements of [_normalize_message], in their order. *)
Definition stages : list (Re.pattern * string) :=
  [ (Re.uuid, "<uuid>"); (Re.hex, "<hex>"); (Re.address, "at <address>");
    (Re.posix_path, "<path>"); (Re.windows_path, "<path>");
    (Re.quoted Re.dquote, "<string>"); (Re.quoted Re.squote, "<string>");
    (Re.number, "<number>") ].

Definition run_stages (sts : list (Re.pattern * string)) (s : list ascii) : list ascii :=
  fold_left (fun s st => Re.sub (fst st) (snd st) s) sts s.

(** The last character of [l], if any, is outside the class [F]. *)
Definition ends_outside (F : ascii -> bool) (l : list ascii) : bool :=
  match rev l with
  | c :: _ => negb (F c)
  | [] => true
  end.

(** [c] does not occur in [l]. *)
Definition free_of (c : ascii) (l : list ascii) : bool :=
  forallb (fun x => negb (Ascii.eqb x c)) l.

(** The whole of [u] is one match of the UUID pattern. *)
Definition is_uuid (u : string) : Prop :=
  Re.match_here Re.uuid (Py.chars u) = Some (String.length u).

(** [content] between two quote characters [q]. *)
Definition in_quotes (q : ascii) (content : string) : string :=
  String q (content +:+ String q "").

(** A pattern without repetition matches by its first characters alone. *)
Definition fixed (p : Re.pattern) : bool :=
  forallb (fun a => match a with Re.Many _ => false | _ => true end) p.

(** Stages whose patterns cannot consume [q] and whose replacements do not
    contain it work on each side of [q] separately. *)
Definition stops_at (q : ascii) (sts : list (Re.pattern * string)) : bool :=
  forallb (fun st => negb (Re.alphabet (fst st) q) && free_of q (Py.chars (snd st))) sts.

(** Two texts that are the same but for their runs of decimal digits: each
    run of one stands where a run of the other stands, of any length. *)
Inductive same_but_numbers : list ascii -> list ascii -> Prop :=
| sbn_nil : same_but_numbers [] []
| sbn_char c a b :
    Re.is_digit c = false -> same_but_numbers a b ->
    same_but_numbers (c :: a) (c :: b)
| sbn_run d1 d2 a b :
    d1 <> [] -> d2 <> [] ->
    forallb Re.is_digit d1 = true -> forallb Re.is_digit d2 = true ->
    same_but_numbers a b ->
    same_but_numbers (d1 ++ a) (d2 ++ b).

(** A replacement respects the relation when its pattern, tried at the
    start of two related texts, fails on both or matches on both and leaves
    related texts behind. *)
Definition respects (p : Re.pattern) : Prop :=
  forall a b, same_but_numbers a b ->
    match Re.match_here p a, Re.match_here p b with
    | Some (S n), Some (S n') => same_but_numbers (skipn (S n) a) (skipn (S n') b)
    | Some (S _), _ | _, Some (S _) => False
    | _, _ => True
    end.

(** A character that a UUID or a hex run can hold: a hex digit, a dash or
    the letter x. *)
Definition hexish (c : ascii) : bool := Re.alphabet Re.uuid c || Re.alphabet Re.hex c.

(** Two pieces of text that the UUID and hex replacements treat alike: the
    same piece, or two pieces the same but for their numbers with no UUID
    and no hex run in either. *)
Definition alike (a b : list ascii) : Prop :=
  a = b
  \/ (same_but_numbers a b
      /\ Re.search Re.uuid a = false /\ Re.search Re.hex a = false
      /\ Re.search Re.uuid b = false /\ Re.search Re.hex b = false).

(** Two messages cut at the same characters, none of which a UUID or a hex
    run can hold, into pieces that are alike. *)
Inductive same_but_free_numbers : list ascii -> list ascii -> Prop :=
| sfn_last a b : alike a b -> same_but_free_numbers a b
| sfn_cut a b g r1 r2 :
    alike a b -> hexish g = false -> same_but_free_numbers r1 r2 ->
    same_but_free_numbers (a ++ g :: r1) (b ++ g :: r2).

(** The number of times [q] occurs in [l]. *)
Definition occurrences (q : ascii) (l : list ascii) : nat :=
  length (List.filter (Ascii.eqb q) l).

(** Every match of [p] that begins among the first [i] characters of [s]
    ends among them. *)
Definition matches_end_by (p : Re.pattern) (i : nat) (s : list ascii) : Prop :=
  forall k n, (k < i)%nat -> Re.match_here p (skipn k s) = Some n -> (k + n <= i)%nat.

(** [_normalize_message] without its third replacement. *)
Definition normalize_without_address_step (message : string) : string :=
  Py.str (run_stages (firstn 2 stages ++ skipn 3 stages) (Py.chars message)).

(* ===================================================================== *)
(** * Properties of the fingerprint generator *)
(* ===================================================================== *)

(** The test vector of the standard, as [hashlib] computes it. *)
Example sha256_abc :
  Sha256.hexdigest (Py.encode "abc")
  = "ba7816bf8f01cfea414140de5dae2223b00361a396177a9cb410ff61f20015ad".
Proof. vm_compute. reflexivity. Qed.

Section Sha256Shape.

Import Sha256.

Lemma round_length st kw : length (round st kw) = length st.
Proof.
  unfold round.
  do 9 (destruct st as [|? st]; try reflexivity).
Qed.

Lemma rounds_length kws st : length (fold_left round kws st) = length st.
Proof.
  revert st. induction kws as [|kw kws IH]; intros st; simpl; [reflexivity|].
  rewrite IH. apply round_length.
Qed.

Lemma compress_length h block : length (compress h block) = length h.
Proof.
  unfold compress, zip_with.
  rewrite length_map, length_combine, rounds_length. apply Nat.min_id.
Qed.

Lemma digest_length msg : length (digest msg) = 8%nat.
Proof.
  unfold digest. generalize (blocks (length (words (length (pad msg)) (pad msg)))
                                    (words (length (pad msg)) (pad msg))).
  intros bs. change 8%nat with (length H0). generalize H0.
  induction bs as [|b bs IH]; intros h; simpl; [reflexivity|].
  rewrite IH. apply compress_length.
Qed.

Lemma hex_chars_length ws :
  length (flat_map hex32 ws) = (8 * length ws)%nat.
Proof.
  induction ws as [|w ws IH]; simpl; [reflexivity|].
  rewrite IH. lia.
Qed.

Lemma str_length l : String.length (Py.str l) = length l.
Proof. induction l as [|c l IH]; simpl; congruence. Qed.

Lemma hexdigest_length msg : String.length (hexdigest msg) = 64%nat.
Proof.
  unfold hexdigest. rewrite str_length, hex_chars_length, digest_length. reflexivity.
Qed.

End Sha256Shape.

Lemma substring_length n s :
  (n <= String.length s)%nat -> String.length (String.substring 0 n s) = n.
Proof.
  revert s. induction n as [|n IH]; intros s Hn.
  - destruct s; reflexivity.
  - destruct s as [|c s]; simpl in *; [lia|].
    rewrite IH; [reflexivity | lia].
Qed.

(** A fingerprint is 32 characters long, whatever it is computed from. *)
Lemma generate_fingerprint_length error_type message stacktrace :
  String.length (Fingerprint.generate_fingerprint error_type message stacktrace) = 32%nat.
Proof.
  unfold Fingerprint.generate_fingerprint.
  apply substring_length. rewrite hexdigest_length. lia.
Qed.

(** C2, as stated, fails when the digest supplied is the empty string: the
    code tests [if stacktrace:], so nothing is appended, while the claim
    appends the colon. *)
Lemma generate_fingerprint_empty_digest :
  Fingerprint.generate_fingerprint "TypeError" "error" (Some "")
  = Fingerprint.generate_fingerprint "TypeError" "error" None
  /\ Fingerprint.generate_fingerprint "TypeError" "error" (Some "")
     <> Spec.fingerprint "TypeError" "error" (Some "").
Proof.
  split; vm_compute; [reflexivity | discriminate].
Qed.

(** C2 (amended): [generate_fingerprint] is a function of its three
    arguments only; for every type and message, and every digest that is
    absent or non-empty, all of them text that UTF-8 can encode (here:
    strings of code points below 256), it returns the first 32 hexadecimal
    characters of the SHA-256 digest of [type + ":" + normalizedMessage],
    with [":" + digest] appended when the digest is present; an empty
    digest is treated as an absent one. *)
Theorem generate_fingerprint_spec error_type message stacktrace :
  stacktrace <> Some "" ->
  Fingerprint.generate_fingerprint error_type message stacktrace
  = Spec.fingerprint error_type message stacktrace
  /\ Fingerprint.generate_fingerprint error_type message (Some "")
     = Spec.fingerprint error_type message None.
Proof.
  intros Hne. unfold Fingerprint.generate_fingerprint, Spec.fingerprint.
  split; [|reflexivity].
  destruct stacktrace as [[|c st]|]; [congruence | reflexivity | reflexivity].
Qed.

Lemma generate_fingerprint_spec_witness :
  Fingerprint.generate_fingerprint "TypeError" "error" (Some "file.py:func:10")
  = Spec.fingerprint "TypeError" "error" (Some "file.py:func:10")
  /\ Fingerprint.generate_fingerprint "TypeError" "error" (Some "")
     = Spec.fingerprint "TypeError" "error" None.
Proof.
  apply (generate_fingerprint_spec "TypeError" "error" (Some "file.py:func:10")).
  discriminate.
Defined.

(* ===================================================================== *)
(** * Properties of the stack digest *)
(* ===================================================================== *)

#[global] Arguments Sha256.hexdigest : simpl never.
#[global] Arguments Fingerprint.generate_fingerprint : simpl never.
#[global] Arguments Fingerprint._normalize_message : simpl never.
#[global] Arguments Py.mem : simpl never.
#[global] Arguments Py.str_of_int : simpl never.

(** C4, as stated, fails on a stack whose only in-app frame is the sixth:
    the code looks at [stacktrace[:5]] and finds no in-app frame, so it
    hashes the type and message alone; the claim takes the sixth frame. *)
Lemma sixth_frame_is_ignored :
  Fingerprint.stacktrace_digest deep_stack = None
  /\ Spec.stack_digest deep_stack = Some "app.py:main:10"
  /\ Fingerprint.fingerprint_from_exception deep_exception
     = Fingerprint.generate_fingerprint "ValueError" "error" None
  /\ Fingerprint.fingerprint_from_exception deep_exception
     <> Fingerprint.generate_fingerprint "ValueError" "error" (Spec.stack_digest deep_stack).
Proof.
  repeat split; vm_compute; try reflexivity; discriminate.
Qed.

Lemma append_nonempty a b : a <> "" -> a +:+ b <> "".
Proof. destruct a; [congruence | discriminate]. Qed.

Lemma frame_part_nonempty frame : Fingerprint.frame_part frame <> "".
Proof.
  unfold Fingerprint.frame_part.
  destruct (StackFrame.filename frame); discriminate.
Qed.

Lemma join_nonempty sep p parts : p <> "" -> Py.join sep (p :: parts) <> "".
Proof.
  intros Hp. destruct parts; simpl; [assumption|]. now apply append_nonempty.
Qed.

Lemma digest_frames_spec frames frame :
  In frame (digest_frames frames)
  <-> exists i, (i < 5)%nat /\ nth_error frames i = Some frame
                /\ StackFrame.in_app frame = true.
Proof.
  unfold digest_frames. rewrite filter_In. split.
  - intros [Hin Happ]. apply In_nth_error in Hin as [i Hi].
    assert (i < 5)%nat.
    { assert (Hlen : (i < length (firstn 5 frames))%nat)
        by (apply nth_error_Some; congruence).
      rewrite length_firstn in Hlen. lia. }
    exists i. rewrite nth_error_firstn in Hi.
    destruct (Nat.ltb_spec i 5); [auto | lia].
  - intros (i & Hlt & Hi & Happ). split; [|assumption].
    apply nth_error_In with i. rewrite nth_error_firstn.
    destruct (Nat.ltb_spec i 5); [assumption | lia].
Qed.

Lemma digest_frames_length frames : (length (digest_frames frames) <= 5)%nat.
Proof.
  unfold digest_frames.
  etransitivity; [apply filter_length_le|]. rewrite length_firstn. lia.
Qed.

Lemma stacktrace_digest_eq frames :
  Fingerprint.stacktrace_digest frames
  = match digest_frames frames with
    | [] => None
    | used => Some (Py.join "|" (map Fingerprint.frame_part used))
    end.
Proof.
  unfold Fingerprint.stacktrace_digest, digest_frames, Py.slice_to.
  destruct (List.filter _ _); reflexivity.
Qed.

(** C4 (amended): the stack digest is built from the frames among the first
    five of the stack whose [in_app] flag is true (so at most five, and an
    in-app frame after the fifth position never counts), in stack order, each
    formatted as file, function and line joined by colons, the parts joined
    by a bar; when none of the first five frames is in-app the digest is
    absent, never the empty string, and the fingerprint is that of the type
    and message alone. *)
Theorem fingerprint_from_exception_digest exception :
  let frames := ExceptionInfo.stacktrace exception in
  let used := digest_frames frames in
  (forall frame, In frame used <->
     exists i, (i < 5)%nat /\ nth_error frames i = Some frame
               /\ StackFrame.in_app frame = true)
  /\ (length used <= 5)%nat
  /\ Fingerprint.stacktrace_digest frames <> Some ""
  /\ (used = [] ->
      Fingerprint.stacktrace_digest frames = None
      /\ Fingerprint.fingerprint_from_exception exception
         = Fingerprint.generate_fingerprint (ExceptionInfo.type exception)
             (ExceptionInfo.value exception) None)
  /\ (used <> [] ->
      Fingerprint.fingerprint_from_exception exception
      = Fingerprint.generate_fingerprint (ExceptionInfo.type exception)
          (ExceptionInfo.value exception)
          (Some (Py.join "|" (map Fingerprint.frame_part used)))).
Proof.
  intros frames used. unfold Fingerprint.fingerprint_from_exception.
  fold frames. rewrite stacktrace_digest_eq. fold used.
  split; [apply digest_frames_spec|].
  split; [apply digest_frames_length|].
  destruct used as [|frame rest] eqn:Hused.
  - repeat split; congruence.
  - split; [|split; [discriminate | reflexivity]].
    intros Heq. injection Heq as Heq. revert Heq. simpl map.
    apply join_nonempty, frame_part_nonempty.
Qed.

(** Three tests of the suite: the fingerprint tells types, messages and
    digests apart. *)
Example test_different_fingerprints :
  Fingerprint.generate_fingerprint "TypeError" "error message" None
  <> Fingerprint.generate_fingerprint "ValueError" "error message" None
  /\ Fingerprint.generate_fingerprint "TypeError" "cannot read property of undefined" None
     <> Fingerprint.generate_fingerprint "TypeError" "null is not a function" None
  /\ Fingerprint.generate_fingerprint "TypeError" "error" None
     <> Fingerprint.generate_fingerprint "TypeError" "error" (Some "file.py:func:10").
Proof. vm_compute. repeat split; discriminate. Qed.

(** A test of the suite: library frames do not count. *)
Example test_uses_in_app_frames_only :
  Fingerprint.fingerprint_from_exception
    (ExceptionInfo.mk "ValueError" "error" [library_frame; app_frame] None)
  = Fingerprint.fingerprint_from_exception
      (ExceptionInfo.mk "ValueError" "error"
         [ StackFrame.mk "other_lib.py" "other_func" 20 None None None None false None None;
           app_frame ] None).
Proof. vm_compute. reflexivity. Qed.

(* ===================================================================== *)
(** * Properties of the transports *)
(* ===================================================================== *)

Ltac run_monad :=
  unfold Runtime.bind, Runtime.read, Runtime.ask, Runtime.emit, Runtime.ret,
    Runtime.when, Runtime.lift, Runtime.raise, Runtime.try_except,
    Runtime.sys_exc_info; simpl.

(** [HttpTransport.send] always returns, and says [True] exactly on the
    statuses 200, 201 and 202. *)
Lemma http_send_result options event w :
  fst (Transport.HttpTransport_send options event w)
  = Ok (match collector_status event w with
        | Some status => Py.mem status [200; 201; 202]
        | None => false
        end).
Proof.
  unfold Transport.HttpTransport_send, collector_status, Transport.log_sent. run_monad.
  destruct (Runtime.json_body _ event) as [body|e]; simpl; [|reflexivity].
  destruct (Runtime.http_exchange _ _) as [status| | |]; simpl; try reflexivity.
  destruct (Py.mem status _); simpl; [|reflexivity].
  destruct (BugwatchOptions.debug options); reflexivity.
Qed.

(** [AsyncHttpTransport.send_async] always returns, and says [True]
    exactly on the statuses 200 and 201. *)
Lemma send_async_result options event w :
  fst (Transport.AsyncHttpTransport_send_async options event w)
  = Ok (Runtime.httpx_installed (Runtime.host w)
        && match collector_status event w with
           | Some status_code => Py.mem status_code [200; 201]
           | None => false
           end).
Proof.
  unfold Transport.AsyncHttpTransport_send_async, collector_status, Transport.log_sent. run_monad.
  destruct (Runtime.httpx_installed _); simpl; [|reflexivity].
  destruct (Runtime.json_body _ event) as [body|e]; simpl; [|reflexivity].
  destruct (Runtime.http_exchange _ _) as [status| | |]; simpl; try reflexivity.
  destruct (Py.mem status _); simpl; [|reflexivity].
  destruct (BugwatchOptions.debug options); reflexivity.
Qed.

Lemma mem_statuses status :
  Py.mem status [200; 201; 202] = true <-> status = 200 \/ status = 201 \/ status = 202.
Proof.
  unfold Py.mem. simpl. rewrite !orb_true_iff, !Z.eqb_eq. intuition discriminate.
Qed.

(** The synchronous transport behaves as the claim says: it reports
    delivery exactly when the collector answers 200, 201 or 202, and reports
    failure, without raising, in every other case. *)
Lemma http_send_delivered_iff options event w :
  (exists delivered, fst (Transport.HttpTransport_send options event w) = Ok delivered)
  /\ (fst (Transport.HttpTransport_send options event w) = Ok true
      <-> exists status, collector_status event w = Some status
                         /\ (status = 200 \/ status = 201 \/ status = 202)).
Proof.
  rewrite http_send_result. split; [eauto|].
  destruct (collector_status event w) as [status|].
  - split.
    + intros H. exists status. split; [reflexivity|]. apply mem_statuses. congruence.
    + intros (s & Hs & Hmem). apply mem_statuses in Hmem. congruence.
  - split; [discriminate | intros (s & Hs & _); discriminate].
Qed.

(** C9: the two HTTP transports disagree on status 202. [HttpTransport.send]
    reports delivery, as the claim says; [send_async], whose test is
    [status_code in (200, 201)], logs a warning and reports failure. *)
Theorem async_transport_rejects_202 options event w :
  Runtime.httpx_installed (Runtime.host w) = true ->
  collector_status event w = Some 202 ->
  fst (Transport.HttpTransport_send options event w) = Ok true
  /\ fst (Transport.AsyncHttpTransport_send_async options event w) = Ok false.
Proof.
  intros Hx Hs. rewrite http_send_result, send_async_result, Hx, Hs. split; reflexivity.
Qed.

Lemma async_transport_rejects_202_witness :
  fst (Transport.HttpTransport_send example_options example_event
         (example_world (Runtime.Response 202))) = Ok true
  /\ fst (Transport.AsyncHttpTransport_send_async example_options example_event
            (example_world (Runtime.Response 202))) = Ok false.
Proof.
  apply async_transport_rejects_202; reflexivity.
Defined.

(* ===================================================================== *)
(** * Properties of the breadcrumb trail *)
(* ===================================================================== *)

Lemma last_n_length {A} n (l : list A) : length (last_n n l) = Nat.min n (length l).
Proof. unfold last_n. rewrite length_skipn. lia. Qed.

Lemma last_n_all {A} n (l : list A) : (length l <= n)%nat -> last_n n l = l.
Proof.
  intros H. unfold last_n. replace (length l - n)%nat with 0%nat by lia. reflexivity.
Qed.

Lemma last_n_app {A} n (l r : list A) :
  last_n n (last_n n l ++ r) = last_n n (l ++ r).
Proof.
  destruct (Nat.le_gt_cases (length l) n) as [Hle|Hgt].
  - now rewrite (last_n_all n l Hle).
  - unfold last_n. rewrite !length_app, length_skipn.
    replace (length l - (length l - n) + length r - n)%nat with (length r) by lia.
    replace (length l + length r - n)%nat with (length r + (length l - n))%nat by lia.
    rewrite <- skipn_skipn. f_equal.
    rewrite skipn_app. replace (length l - n - length l)%nat with 0%nat by lia.
    reflexivity.
Qed.

Lemma slice_from_last {A} (n : Z) (l : list A) :
  0 < n -> Py.slice_from (- n) l = last_n (Z.to_nat n) l.
Proof.
  intros Hn. unfold Py.slice_from, last_n.
  destruct (Z.ltb_spec (- n) 0); [|lia]. f_equal. lia.
Qed.

Lemma slice_from_zero {A} (l : list A) : Py.slice_from (- 0) l = l.
Proof.
  unfold Py.slice_from. simpl. rewrite Z.min_l by lia. reflexivity.
Qed.

(** One call: the breadcrumb is appended, then the trail is cut by the
    slice [[-max_breadcrumbs:]] if it is longer than [max_breadcrumbs]. *)
Lemma add_breadcrumb_run self c w :
  BugwatchClient.add_breadcrumb self (call_category c) (call_message c) (call_level c)
    (call_data c) (call_type c) w
  = (Ok (BugwatchClient.with_breadcrumbs self
           (let crumbs := BugwatchClient._breadcrumbs self
                          ++ [recorded_at (Runtime.host w) (Runtime.tick w) c] in
            if Z.of_nat (length crumbs) >? capacity self
            then Py.slice_from (- capacity self) crumbs else crumbs)),
     Runtime.mk (Runtime.host w) (Runtime.exc_info w) (S (Runtime.tick w))
       (Runtime.trace w)).
Proof.
  unfold BugwatchClient.add_breadcrumb, capacity, recorded_at. run_monad.
  destruct (_ >? _); reflexivity.
Qed.

(** With a positive capacity the trail after any calls is the last
    [capacity] breadcrumbs recorded, oldest first: it never exceeds the
    capacity, and after [capacity + k] calls it holds exactly [capacity]
    entries. *)
Lemma breadcrumbs_keep_most_recent calls : forall self w,
  0 < capacity self ->
  (length (BugwatchClient._breadcrumbs self) <= Z.to_nat (capacity self))%nat ->
  exists self' w',
    add_breadcrumbs self calls w = (Ok self', w')
    /\ BugwatchClient._breadcrumbs self'
       = last_n (Z.to_nat (capacity self))
           (BugwatchClient._breadcrumbs self
            ++ recorded (Runtime.host w) (Runtime.tick w) calls)
    /\ (length (BugwatchClient._breadcrumbs self') <= Z.to_nat (capacity self))%nat.
Proof.
  induction calls as [|c rest IH]; intros self w Hcap Hlen.
  - exists self, w. simpl. rewrite app_nil_r, last_n_all by assumption. auto.
  - simpl add_breadcrumbs. unfold bind. rewrite add_breadcrumb_run.
    set (w1 := Runtime.mk _ _ _ _).
    set (x := recorded_at _ _ c).
    assert (Hcut : (let crumbs := BugwatchClient._breadcrumbs self ++ [x] in
                    if Z.of_nat (length crumbs) >? capacity self
                    then Py.slice_from (- capacity self) crumbs else crumbs)
                   = last_n (Z.to_nat (capacity self))
                       (BugwatchClient._breadcrumbs self ++ [x])).
    { cbv zeta. destruct (Z.gtb_spec (Z.of_nat (length (BugwatchClient._breadcrumbs self ++ [x])))
                                     (capacity self)).
      - now apply slice_from_last.
      - symmetry. apply last_n_all. lia. }
    rewrite Hcut. clear Hcut.
    set (self1 := BugwatchClient.with_breadcrumbs self _).
    destruct (IH self1 w1) as (self' & w' & Hrun & Htrail & Hbound).
    + exact Hcap.
    + subst self1. simpl. rewrite last_n_length. change (capacity _) with (capacity self). lia.
    + exists self', w'. split; [exact Hrun|]. split; [|exact Hbound].
      rewrite Htrail. subst self1 w1. simpl.
      change (capacity (BugwatchClient.with_breadcrumbs self _)) with (capacity self).
      rewrite last_n_app, <- app_assoc. reflexivity.
Qed.

(** A test of the suite: with capacity 5, ten breadcrumbs leave the last
    five, the sixth first. *)
Example test_max_breadcrumbs :
  match fst (add_breadcrumbs (example_client 5) (example_calls 10)
               (example_world (Runtime.Response 200))) with
  | Ok self =>
      map Breadcrumb.message (BugwatchClient._breadcrumbs self)
      = ["breadcrumb 5"; "breadcrumb 6"; "breadcrumb 7"; "breadcrumb 8"; "breadcrumb 9"]
  | Raise _ => False
  end.
Proof. vm_compute. reflexivity. Qed.

(** With capacity 0 the slice [[-0:]] is the whole list: nothing is ever
    dropped. *)
Lemma breadcrumbs_all_kept_at_zero calls : forall self w,
  capacity self = 0 ->
  exists self' w',
    add_breadcrumbs self calls w = (Ok self', w')
    /\ BugwatchClient._breadcrumbs self'
       = BugwatchClient._breadcrumbs self
         ++ recorded (Runtime.host w) (Runtime.tick w) calls.
Proof.
  induction calls as [|c rest IH]; intros self w Hcap.
  - exists self, w. simpl. now rewrite app_nil_r.
  - simpl add_breadcrumbs. unfold bind. rewrite add_breadcrumb_run.
    rewrite Hcap. cbv zeta. rewrite slice_from_zero.
    match goal with |- context [if ?b then ?x else ?x] => destruct b end;
      (set (self1 := BugwatchClient.with_breadcrumbs self _);
       set (w1 := Runtime.mk _ _ _ _);
       destruct (IH self1 w1 Hcap) as (self' & w' & Hrun & Htrail);
       exists self', w'; split; [exact Hrun|];
       rewrite Htrail; subst self1 w1; simpl; now rewrite <- app_assoc).
Qed.

(** C3: at capacity 0 the trail is not bounded. Every call appends and the
    cut keeps everything, so after [n] calls the trail holds [n] entries,
    more than the capacity as soon as one breadcrumb is added. *)
Theorem breadcrumb_trail_unbounded_at_zero self calls w :
  capacity self = 0 ->
  calls <> [] ->
  exists self' w',
    add_breadcrumbs self calls w = (Ok self', w')
    /\ length (BugwatchClient._breadcrumbs self')
       = (length (BugwatchClient._breadcrumbs self) + length calls)%nat
    /\ Z.of_nat (length (BugwatchClient._breadcrumbs self')) > capacity self.
Proof.
  intros Hcap Hcalls.
  destruct (breadcrumbs_all_kept_at_zero calls self w Hcap) as (self' & w' & Hrun & Htrail).
  exists self', w'. split; [exact Hrun|].
  assert (Hrec : forall cs h t, length (recorded h t cs) = length cs).
  { induction cs; intros; simpl; auto. }
  rewrite Htrail, length_app, Hrec. split; [reflexivity|].
  destruct calls; [congruence|]. simpl length. lia.
Qed.

Lemma breadcrumb_trail_unbounded_at_zero_witness :
  exists self' w',
    add_breadcrumbs (example_client 0) (example_calls 3)
      (example_world (Runtime.Response 200)) = (Ok self', w')
    /\ length (BugwatchClient._breadcrumbs self')
       = (length (BugwatchClient._breadcrumbs (example_client 0))
          + length (example_calls 3))%nat
    /\ Z.of_nat (length (BugwatchClient._breadcrumbs self')) > capacity (example_client 0).
Proof.
  apply breadcrumb_trail_unbounded_at_zero; [reflexivity | discriminate].
Defined.

(* ===================================================================== *)
(** * Properties of the capture pipeline *)
(* ===================================================================== *)

Lemma later_0 w : later 0 [] w = w.
Proof. destruct w. unfold later. simpl. now rewrite app_nil_r. Qed.

Lemma later_later n m a b w : later n a (later m b w) = later (n + m) (b ++ a) w.
Proof. unfold later. simpl. f_equal; [lia | now rewrite app_assoc]. Qed.

Lemma sends_app a b : sends (a ++ b) = sends a ++ sends b.
Proof. apply flat_map_app. Qed.

Lemma hook_calls_app a b : hook_calls (a ++ b) = hook_calls a ++ hook_calls b.
Proof. apply flat_map_app. Qed.

Lemma quiet_ret {A} (a : A) (post : Outcome A -> Prop) :
  post (Ok a) -> quiet (ret a) post.
Proof.
  intros Hpost w. exists (Ok a), 0%nat, []. rewrite later_0. now repeat split.
Qed.

Lemma quiet_lift {A} (o : Outcome A) (post : Outcome A -> Prop) :
  post o -> quiet (Runtime.lift o) post.
Proof.
  intros Hpost w. exists o, 0%nat, []. rewrite later_0. now repeat split.
Qed.

Lemma quiet_bind {A B} (m : M A) (k : A -> M B) (mid : Outcome A -> Prop)
  (post : Outcome B -> Prop) :
  quiet m mid ->
  (forall a, mid (Ok a) -> quiet (k a) post) ->
  (forall e, mid (Raise e) -> post (Raise e)) ->
  quiet (bind m k) post.
Proof.
  intros Hm Hk Hraise w.
  destruct (Hm w) as (r & n & new & Hrun & Hs & Hh & Hmid).
  unfold bind. rewrite Hrun. destruct r as [a|e].
  - destruct (Hk a Hmid (later n new w)) as (r' & n' & new' & Hrun' & Hs' & Hh' & Hpost).
    exists r', (n' + n)%nat, (new ++ new'). rewrite Hrun', later_later.
    rewrite sends_app, hook_calls_app, Hs, Hs', Hh, Hh'. now repeat split.
  - exists (Raise e), n, new. repeat split; auto.
Qed.

Lemma quiet_emit (e : Runtime.Effect) (post : Outcome unit -> Prop) :
  quiet_effect e -> post (Ok tt) -> quiet (Runtime.emit e) post.
Proof.
  intros He Hpost w. exists (Ok tt), 0%nat, [e].
  repeat split; auto; destruct e; simpl in *; tauto.
Qed.

Lemma quiet_ask {A} (q : Runtime.Host -> nat -> A) (post : Outcome A -> Prop) :
  (forall a, post (Ok a)) -> quiet (Runtime.ask q) post.
Proof.
  intros Hpost w. exists (Ok (q (Runtime.host w) (Runtime.tick w))), 1%nat, [].
  unfold Runtime.ask, later. rewrite app_nil_r. now repeat split.
Qed.

Lemma quiet_read {A} (q : Runtime.Host -> A) (post : Outcome A -> Prop) :
  (forall a, post (Ok a)) -> quiet (Runtime.read q) post.
Proof.
  intros Hpost w. exists (Ok (q (Runtime.host w))), 0%nat, [].
  rewrite later_0. now repeat split.
Qed.

Lemma quiet_exc_info (post : Outcome (option BaseException.t) -> Prop) :
  (forall a, post (Ok a)) -> quiet Runtime.sys_exc_info post.
Proof.
  intros Hpost w. exists (Ok (Runtime.exc_info w)), 0%nat, [].
  rewrite later_0. now repeat split.
Qed.

Lemma quiet_when (b : bool) (m : M unit) (post : Outcome unit -> Prop) :
  quiet m post -> post (Ok tt) -> quiet (Runtime.when b m) post.
Proof. intros Hm Hpost. destruct b; [exact Hm | now apply quiet_ret]. Qed.

Create HintDb quiet.
#[local] Hint Resolve quiet_ret quiet_lift quiet_emit quiet_ask quiet_read quiet_exc_info
  quiet_when : quiet.
#[local] Hint Extern 1 (quiet_effect _) => exact I : quiet.
#[local] Hint Extern 1 (returns (Ok _)) => eexists; reflexivity : quiet.

(** Steps through a computation built from the primitives above. *)
Ltac quiet_steps :=
  repeat first
    [ progress intros
    | match goal with
      | |- quiet (bind _ _) _ => eapply quiet_bind with (mid := returns)
      | |- quiet (match ?x with _ => _ end) _ => destruct x
      | |- quiet (if ?b then _ else _) _ => destruct b
      | H : returns (Raise _) |- _ => destruct H; discriminate
      end
    | solve [eauto with quiet] ].

Lemma http_send_quiet options event : quiet (Transport.HttpTransport_send options event) returns.
Proof. unfold Transport.HttpTransport_send, Transport.log_sent. quiet_steps. Qed.

Lemma send_async_quiet options event :
  quiet (Transport.AsyncHttpTransport_send_async options event) returns.
Proof. unfold Transport.AsyncHttpTransport_send_async, Transport.log_sent. quiet_steps. Qed.

Lemma async_send_quiet options event :
  quiet (Transport.AsyncHttpTransport_send options event) returns.
Proof.
  unfold Transport.AsyncHttpTransport_send. quiet_steps. apply send_async_quiet.
Qed.

Lemma steady_ret {A} (a : A) : steady (ret a).
Proof.
  intros w. exists (Ok a), 0%nat, []. rewrite later_0. repeat split.
Qed.

Lemma steady_print out : quiet_effect out -> steady (Runtime.print out).
Proof.
  intros Hq w. unfold Runtime.print.
  destruct (Runtime.print_raises (Runtime.host w) out) as [e|] eqn:Hp.
  - exists (Raise e), 0%nat, []. rewrite later_0. repeat split.
    intros w' Hw. now rewrite Hw, Hp.
  - exists (Ok tt), 0%nat, [out]. repeat split.
    + destruct out; simpl in *; tauto.
    + destruct out; simpl in *; tauto.
    + intros w' Hw. now rewrite Hw, Hp.
Qed.

Lemma steady_bind {A B} (m : M A) (k : A -> M B) :
  steady m -> (forall a, steady (k a)) -> steady (bind m k).
Proof.
  intros Hm Hk w.
  destruct (Hm w) as (r & n & new & Hrun & Hs & Hh & Hsame).
  unfold bind. rewrite Hrun. destruct r as [a|e].
  - destruct (Hk a (later n new w)) as (r' & n' & new' & Hrun' & Hs' & Hh' & Hsame').
    exists r', (n' + n)%nat, (new ++ new'). rewrite Hrun', later_later.
    rewrite sends_app, hook_calls_app, Hs, Hs', Hh, Hh'. repeat split.
    intros w' Hw. specialize (Hsame w' Hw).
    destruct (Hm w') as (r2 & n2 & new2 & Hrun2 & _).
    rewrite Hrun2 in Hsame |- *. simpl in Hsame. subst r2.
    apply Hsame'. simpl. exact Hw.
  - exists (Raise e), n, new. repeat split; auto.
    intros w' Hw. specialize (Hsame w' Hw).
    destruct (m w') as [r2 w2]. simpl in Hsame. now subst r2.
Qed.

Lemma console_send_steady event : steady (Transport.ConsoleTransport_send event).
Proof.
  unfold Transport.ConsoleTransport_send.
  repeat first
    [ apply steady_ret
    | apply steady_print; exact I
    | apply steady_bind; [|intros _]
    | match goal with
      | |- steady (match ?x with _ => _ end) => destruct x
      end ].
Qed.

Lemma quiet_never_raises {A} (m : M A) w :
  quiet m returns -> exists b, fst (m w) = Ok b.
Proof.
  intros Hm. destruct (Hm w) as (r & n & new & Hrun & _ & _ & (b & ->)).
  exists b. now rewrite Hrun.
Qed.

(** [transport.send(event)], as the client calls it: the transport is given
    the event, the hook is not called, and the call raises what
    [send_raises] says, whatever the moment. *)
Lemma transport_send_run transport event w :
  exists a n new,
    Transport.send transport event w = (a, later n new w)
    /\ hook_calls new = [] /\ sends new = [event]
    /\ match send_raises (Runtime.host w) transport event with
       | Some e => a = Raise e
       | None => exists b, a = Ok b
       end.
Proof.
  set (inner := match transport with
                | Transport.HttpTransport options => Transport.HttpTransport_send options event
                | Transport.AsyncHttpTransport options =>
                    Transport.AsyncHttpTransport_send options event
                | Transport.NoopTransport => ret true
                | Transport.ConsoleTransport _ => Transport.ConsoleTransport_send event
                | Transport.UserTransport _ user_send _ => Runtime.lift (user_send event)
                end).
  assert (Hinner : forall w0, exists a n new,
             inner w0 = (a, later n new w0) /\ sends new = [] /\ hook_calls new = []
             /\ forall w', Runtime.host w' = Runtime.host w0 ->
                  match fst (inner w') with
                  | Raise e => a = Raise e
                  | Ok _ => exists b, a = Ok b
                  end).
  { assert (Hquiet : quiet inner returns ->
              forall w0, exists a n new,
                inner w0 = (a, later n new w0) /\ sends new = [] /\ hook_calls new = []
                /\ forall w', Runtime.host w' = Runtime.host w0 ->
                     match fst (inner w') with
                     | Raise e => a = Raise e
                     | Ok _ => exists b, a = Ok b
                     end).
    { intros Hq w0. destruct (Hq w0) as (a & n & new & Hrun & Hs & Hh & (b & ->)).
      exists (Ok b), n, new. repeat split; auto.
      intros w' _. destruct (quiet_never_raises inner w' Hq) as (b' & ->). eauto. }
    assert (Hsteady : steady inner ->
              forall w0, exists a n new,
                inner w0 = (a, later n new w0) /\ sends new = [] /\ hook_calls new = []
                /\ forall w', Runtime.host w' = Runtime.host w0 ->
                     match fst (inner w') with
                     | Raise e => a = Raise e
                     | Ok _ => exists b, a = Ok b
                     end).
    { intros Hs w0. destruct (Hs w0) as (a & n & new & Hrun & Hs0 & Hh0 & Hsame).
      exists a, n, new. repeat split; auto.
      intros w' Hw. rewrite (Hsame w' Hw). destruct a; eauto. }
    destruct transport; subst inner; cbv beta iota.
    - apply Hquiet, http_send_quiet.
    - apply Hquiet, async_send_quiet.
    - apply Hsteady, steady_ret.
    - apply Hsteady, console_send_steady.
    - apply Hsteady. intros w0. exists (send event), 0%nat, [].
      rewrite later_0. repeat split. }
  unfold send_raises.
  assert (Hsend : forall w0, Transport.send transport event w0
                             = inner (later 0 [Runtime.TransportSend event] w0)).
  { intros w0. unfold Transport.send, bind, Runtime.emit. subst inner.
    destruct transport; reflexivity. }
  rewrite !Hsend.
  destruct (Hinner (later 0 [Runtime.TransportSend event] w)) as (a & n & new & Hrun & Hs & Hh & Hsame).
  exists a, (n + 0)%nat, ([Runtime.TransportSend event] ++ new).
  rewrite <- later_later, <- Hrun. split; [reflexivity|].
  rewrite sends_app, hook_calls_app, Hs, Hh. repeat split.
  specialize (Hsame (later 0 [Runtime.TransportSend event]
                       (Runtime.mk (Runtime.host w) None 0 [])) eq_refl).
  destruct (fst (inner _)); auto.
Qed.

Lemma send_then_id_run self event w :
  exists r n new,
    (do! Transport.send (BugwatchClient.transport self) event in
     ret (ErrorEvent.event_id event)) w = (r, later n new w)
    /\ hook_calls new = [] /\ sends new = [event]
    /\ sent_by self (Runtime.host w) event r.
Proof.
  destruct (transport_send_run (BugwatchClient.transport self) event w)
    as (a & n & new & Hrun & Hh & Hs & Ha).
  unfold bind, sent_by. rewrite Hrun.
  destruct (send_raises _ _ _) as [e|].
  - subst a. exists (Raise e), n, new. auto.
  - destruct Ha as (b & ->). exists (Ok (ErrorEvent.event_id event)), n, new. auto.
Qed.

(** The hook and the transport, from the event that was built. *)
Lemma deliver_run self event w :
  exists r n new,
    BugwatchClient.deliver self event w = (r, later n new w)
    /\ pipeline self (Runtime.host w) event r (hook_calls new) (sends new).
Proof.
  unfold BugwatchClient.deliver, pipeline.
  destruct (BugwatchClient.hook self) as [before_send|].
  - unfold bind at 1 2. unfold Runtime.emit, Runtime.lift.
    destruct (BeforeSend.call before_send event) as [[event'|]|e].
    + destruct (send_then_id_run self event' (later 0 [Runtime.BeforeSendCall event] w))
        as (r & n & new & Hrun & Hh & Hs & Hr).
      exists r, (n + 0)%nat, ([Runtime.BeforeSendCall event] ++ new).
      rewrite <- later_later, <- Hrun. split; [reflexivity|].
      rewrite sends_app, hook_calls_app, Hs, Hh. auto.
    + exists (Ok ""), 0%nat, [Runtime.BeforeSendCall event]. repeat split.
    + exists (Raise e), 0%nat, [Runtime.BeforeSendCall event]. repeat split.
  - unfold bind at 1, ret at 1.
    destruct (send_then_id_run self event w) as (r & n & new & Hrun & Hh & Hs & Hr).
    exists r, n, new. rewrite Hh, Hs. auto.
Qed.

(** The sample-rate gate answers [dropped], and asks for one random number
    when the rate is below one. *)
Lemma sampled_out_run self w :
  exists n, BugwatchClient.sampled_out self w = (Ok (dropped self w), later n [] w).
Proof.
  unfold BugwatchClient.sampled_out, dropped.
  destruct (PrimFloat.ltb _ 1%float).
  - exists 1%nat. unfold bind, Runtime.ask, ret, later. simpl. now rewrite app_nil_r.
  - exists 0%nat. unfold ret. now rewrite later_0.
Qed.

(** The event builder always returns, asks the host for an id and for the
    time, and copies the client and the arguments into the event. *)
Lemma create_event_run self level exception message tags extra w :
  exists event,
    BugwatchClient._create_event self level exception message tags extra w
    = (Ok event, later 2 [] w)
    /\ ErrorEvent.exception event = exception
    /\ ErrorEvent.message event = Some (final_message message exception)
    /\ ErrorEvent.fingerprint event = None
    /\ built self level tags extra event.
Proof.
  unfold BugwatchClient._create_event, final_message, built.
  unfold bind, Runtime.ask, Runtime.read, ret, later. simpl.
  eexists. split; [rewrite app_nil_r; reflexivity|]. simpl. repeat split.
Qed.

(** Extraction asks nothing that changes and fails only with [str(error)]. *)
Lemma extract_exception_run self error w :
  BugwatchClient._extract_exception self error w
  = (match BaseException.as_str error with
     | Ok value =>
         Ok (ExceptionInfo.mk (BaseException.class_name error) value
               (map (BugwatchClient.extract_frame self (Runtime.host w))
                    (BaseException.traceback error))
               (BaseException.class_module error))
     | Raise e => Raise e
     end, w).
Proof.
  unfold BugwatchClient._extract_exception, bind, Runtime.read, Runtime.lift, ret.
  destruct (BaseException.as_str error); reflexivity.
Qed.

(** What [capture_message] does, in every world. *)
Lemma capture_message_run self text level tags extra w :
  exists r n new,
    BugwatchClient.capture_message self text level tags extra w = (r, later n new w)
    /\ message_capture self text level tags extra w r (hook_calls new) (sends new).
Proof.
  unfold BugwatchClient.capture_message, message_capture.
  destruct (sampled_out_run self w) as (n0 & Hsample).
  unfold bind at 1. rewrite Hsample.
  destruct (dropped self w).
  - exists (Ok ""), n0, []. repeat split.
  - destruct (create_event_run self level None (Some text) tags extra (later n0 [] w))
      as (event & Hcreate & Hexc & Hmsg & Hfp & Hbuilt).
    unfold bind at 1. rewrite Hcreate.
    destruct (deliver_run self event (later 2 [] (later n0 [] w)))
      as (r & n & new & Hrun & Hpipe).
    exists r, (n + 2 + n0)%nat, new. rewrite Hrun, !later_later. cbn [app].
    split; [reflexivity|]. exists event. split; [|exact Hpipe].
    split; [exact Hmsg|]. split; [exact Hexc|]. split; [exact Hfp | exact Hbuilt].
Qed.

(** What [capture_exception] does, in every world. *)
Lemma capture_exception_run self error level tags extra w :
  exists r n new,
    BugwatchClient.capture_exception self error level tags extra w = (r, later n new w)
    /\ exception_capture self error level tags extra w r (hook_calls new) (sends new).
Proof.
  unfold BugwatchClient.capture_exception, exception_capture.
  assert (Hfirst : (match error with
                    | Some error => ret (Some error)
                    | None => Runtime.sys_exc_info
                    end) w = (Ok (captured error w), w)) by (destruct error; reflexivity).
  unfold bind at 1. rewrite Hfirst.
  destruct (captured error w) as [raised|].
  2: { exists (Ok ""), 0%nat, []. rewrite later_0. repeat split. }
  destruct (sampled_out_run self w) as (n0 & Hsample).
  unfold bind at 1. rewrite Hsample.
  destruct (dropped self w).
  { exists (Ok ""), n0, []. repeat split. }
  unfold bind at 1. rewrite extract_exception_run.
  destruct (BaseException.as_str raised) as [value|e].
  2: { exists (Raise e), n0, []. repeat split. }
  set (info := ExceptionInfo.mk _ _ _ _).
  destruct (create_event_run self level (Some info) None tags extra (later n0 [] w))
    as (event & Hcreate & Hexc & Hmsg & Hfp & Hbuilt).
  unfold bind at 1. rewrite Hcreate.
  set (event' := ErrorEvent.set_fingerprint _ event).
  destruct (deliver_run self event' (later 2 [] (later n0 [] w)))
    as (r & n & new & Hrun & Hpipe).
  exists r, (n + 2 + n0)%nat, new. rewrite Hrun, !later_later. cbn [app].
  split; [reflexivity|]. exists event'. split; [|exact Hpipe].
  exists info. subst event'. cbn [ErrorEvent.exception ErrorEvent.message
    ErrorEvent.fingerprint ErrorEvent.set_fingerprint].
  split; [exact Hexc|]. split; [reflexivity|]. split; [reflexivity|].
  split; [reflexivity|]. split; [apply length_map|]. split; [exact Hmsg|].
  split; [reflexivity|].
  destruct Hbuilt as (? & ? & ? & ? & ? & ? & ? & ? & ?). now repeat split.
Qed.

(* ===================================================================== *)
(** * The submission calls and their collaborators *)
(* ===================================================================== *)

(** C1, as stated, fails when the [before_send] hook raises: neither capture
    has a handler around the hook, so the exception reaches the caller
    instead of an empty string. *)
Lemma hook_exception_reaches_caller :
  fst (BugwatchClient.capture_message
         (example_client_with (Some failing_hook) Transport.NoopTransport)
         "test" INFO None None quiet_world)
  = Raise hook_failure
  /\ fst (BugwatchClient.capture_message
            (example_client_with (Some failing_hook) Transport.NoopTransport)
            "test" INFO None None quiet_world)
     <> Ok "".
Proof. split; [reflexivity | discriminate]. Qed.

(** The same holds of the other collaborators: a transport whose [send]
    raises, the console transport when [print] raises, and an error whose
    [__str__] raises. *)
Example collaborator_failures_reach_caller :
  fst (BugwatchClient.capture_message (example_client_with None failing_transport)
         "test" INFO None None quiet_world)
  = Raise transport_failure
  /\ fst (BugwatchClient.capture_message
            (example_client_with None (Transport.ConsoleTransport example_options))
            "test" INFO None None closed_stdout_world)
     = Raise closed_stdout
  /\ fst (BugwatchClient.capture_exception
            (example_client_with None Transport.NoopTransport)
            (Some unprintable_error) ERROR None None quiet_world)
     = Raise str_failure.
Proof. repeat split. Qed.

(** C1 (amended): [capture_message] and [capture_exception] have no
    exception handler, and what they do is this, in every world.
    - [capture_exception] without an error to capture (no argument and no
      exception being handled) returns the empty string and does nothing.
    - A call that the sample-rate gate drops returns the empty string; the
      hook is not called and nothing is sent.
    - When [str(error)] raises, [capture_exception] raises the same; the
      hook is not called and nothing is sent.
    - Otherwise the event is built. A hook whose truth value is true is
      called with it: what the hook raises, the call raises, and nothing is
      sent; when the hook returns [None] the call returns the empty string
      and nothing is sent; the event the hook returns, or the event built
      when no hook is called, is handed to the transport: what the
      transport's [send] raises, the call raises, and otherwise the call
      returns the id of that event.
    The strings here are made of code points below 256, which UTF-8 always
    encodes; over them no other exception arises. *)
Theorem capture_raises_what_collaborators_raise :
  (forall self text level tags extra w,
      exists r n new,
        BugwatchClient.capture_message self text level tags extra w = (r, later n new w)
        /\ if dropped self w
           then r = Ok "" /\ hook_calls new = [] /\ sends new = []
           else exists event,
                  message_event self text level tags extra event
                  /\ pipeline self (Runtime.host w) event r (hook_calls new) (sends new))
  /\ (forall self error level tags extra w,
        exists r n new,
          BugwatchClient.capture_exception self error level tags extra w
          = (r, later n new w)
          /\ match captured error w with
             | None => r = Ok "" /\ n = 0%nat /\ new = []
             | Some raised =>
                 if dropped self w
                 then r = Ok "" /\ hook_calls new = [] /\ sends new = []
                 else
                   match BaseException.as_str raised with
                   | Raise e => r = Raise e /\ hook_calls new = [] /\ sends new = []
                   | Ok value =>
                       exists event,
                         exception_event self raised value level tags extra event
                         /\ pipeline self (Runtime.host w) event r
                              (hook_calls new) (sends new)
                   end
             end).
Proof.
  split.
  - intros self text level tags extra w.
    destruct (capture_message_run self text level tags extra w) as (r & n & new & Hrun & H).
    exists r, n, new. split; [exact Hrun | exact H].
  - intros self error level tags extra w.
    destruct (captured error w) as [raised|] eqn:Hc.
    + destruct (capture_exception_run self error level tags extra w)
        as (r & n & new & Hrun & H).
      exists r, n, new. split; [exact Hrun|].
      unfold exception_capture in H. now rewrite Hc in H.
    + exists (Ok ""), 0%nat, []. rewrite later_0. split; [|auto].
      unfold BugwatchClient.capture_exception, bind.
      destruct error as [error|]; [discriminate|]. simpl in Hc.
      unfold Runtime.sys_exc_info. now rewrite Hc.
Qed.







(** The two hooks of the test suite: one drops the event, the other sets a
    tag, which the delivered event carries. *)
Example hook_can_drop_event :
  let run := BugwatchClient.capture_message
               (example_client_with (Some dropping_hook) Transport.NoopTransport)
               "test" INFO None None quiet_world in
  fst run = Ok "" /\ sends (Runtime.trace (snd run)) = []
  /\ length (hook_calls (Runtime.trace (snd run))) = 1%nat.
Proof. repeat split. Qed.

Example hook_can_modify_event :
  let run := BugwatchClient.capture_message
               (example_client_with (Some tagging_hook) Transport.NoopTransport)
               "test" INFO None None quiet_world in
  exists event,
    sends (Runtime.trace (snd run)) = [event]
    /\ ErrorEvent.tags event !! "modified" = Some "true"
    /\ fst run = Ok (ErrorEvent.event_id event).
Proof. eexists. split; [vm_compute; reflexivity|]. split; reflexivity. Qed.

(* ===================================================================== *)
(** * Properties of the module-level API *)
(* ===================================================================== *)

Lemma close_discards_client g w g' w' :
  Bugwatch.close g w = (Ok g', w') -> Bugwatch._client g' = None.
Proof.
  unfold Bugwatch.close, bind.
  destruct (Bugwatch.flush g w) as [[[]|e] w1]; [|discriminate].
  unfold Runtime.read, ret. now intros [= <- _].
Qed.

Lemma uninitialized_no_client g : uninitialized g -> Bugwatch._client g = None.
Proof.
  intros [sys_hook threading_hook loop|g0 w g' w' Hclose]; [reflexivity|].
  now apply close_discards_client in Hclose.
Qed.

(** C10: while the module has no client, the module-level calls do nothing:
    the captures return the empty string, the setters and [add_breadcrumb]
    return, and neither the module state nor the world changes. *)
Theorem uninitialized_api_is_noop g :
  uninitialized g ->
  (forall error level tags extra w,
      Bugwatch.capture_exception g error level tags extra w = (Ok "", w))
  /\ (forall message level tags extra w,
        Bugwatch.capture_message g message level tags extra w = (Ok "", w))
  /\ (forall category message level data w,
        Bugwatch.add_breadcrumb g category message level data w = (Ok g, w))
  /\ (forall user, Bugwatch.set_user g user = g)
  /\ (forall request, Bugwatch.set_request g request = g)
  /\ (forall key value, Bugwatch.set_tag g key value = g)
  /\ (forall key value, Bugwatch.set_extra g key value = g).
Proof.
  intros Hg. apply uninitialized_no_client in Hg.
  unfold Bugwatch.capture_exception, Bugwatch.capture_message, Bugwatch.add_breadcrumb,
    Bugwatch.set_user, Bugwatch.set_request, Bugwatch.set_tag, Bugwatch.set_extra,
    Bugwatch.on_client.
  rewrite Hg. repeat split.
Qed.

Lemma closed_module_uninitialized : uninitialized closed_module.
Proof.
  apply closed with (g := initialized_module) (w := quiet_world)
                    (w' := snd (Bugwatch.close initialized_module quiet_world)).
  vm_compute. reflexivity.
Qed.

Lemma uninitialized_api_is_noop_witness :
  (forall error level tags extra w,
      Bugwatch.capture_exception closed_module error level tags extra w = (Ok "", w))
  /\ (forall message level tags extra w,
        Bugwatch.capture_message closed_module message level tags extra w = (Ok "", w))
  /\ (forall category message level data w,
        Bugwatch.add_breadcrumb closed_module category message level data w
        = (Ok closed_module, w))
  /\ (forall user, Bugwatch.set_user closed_module user = closed_module)
  /\ (forall request, Bugwatch.set_request closed_module request = closed_module)
  /\ (forall key value, Bugwatch.set_tag closed_module key value = closed_module)
  /\ (forall key value, Bugwatch.set_extra closed_module key value = closed_module).
Proof.
  apply (uninitialized_api_is_noop closed_module closed_module_uninitialized).
Defined.

(** The test suite's two checks: a capture before [init] returns the empty
    string; after [init] the same call delivers an event. *)
Example capture_without_init_returns_empty :
  fst (Bugwatch.capture_message fresh_module "test" INFO None None quiet_world) = Ok "".
Proof. reflexivity. Qed.

Example capture_after_init_returns_id :
  Bugwatch.sys_excepthook initialized_module = Bugwatch.BugwatchHook
  /\ fst (Bugwatch.capture_message initialized_module "test" INFO None None quiet_world)
     = Ok "9f1c2d3e4b5a69788796a5b4c3d2e1f0"
  /\ Bugwatch.sys_excepthook closed_module = Bugwatch.ForeignHook "sys.__excepthook__".
Proof. vm_compute. repeat split. Qed.
(* ===================================================================== *)
(** * Facts about matching and substitution *)
(* ===================================================================== *)

Section ReFacts.

Import Re.

Implicit Types (p : pattern) (s a b : list ascii) (c q : ascii) (n k : nat).

Lemma span_le P s : (span P s <= length s)%nat.
Proof. induction s as [|c t IH]; simpl; [lia|]. destruct (P c); simpl; lia. Qed.

Lemma span_all P s : forallb P (firstn (span P s) s) = true.
Proof.
  induction s as [|c t IH]; simpl; [reflexivity|].
  destruct (P c) eqn:Hc; simpl; [now rewrite Hc|reflexivity].
Qed.

Lemma span_stop P a c b : P c = false -> span P (a ++ c :: b) = span P a.
Proof.
  intros Hc. induction a as [|x a IH]; simpl; [now rewrite Hc|].
  destruct (P x); [now rewrite IH | reflexivity].
Qed.

Lemma span_app_all P a b : forallb P a = true -> span P (a ++ b) = (length a + span P b)%nat.
Proof.
  induction a as [|x a IH]; simpl; [reflexivity|].
  intros [Hx Ha]%andb_true_iff. rewrite Hx, IH by assumption. reflexivity.
Qed.

(** A match lies inside the string and inside the alphabet of the pattern. *)
Lemma match_here_bound p : forall s n, match_here p s = Some n -> (n <= length s)%nat.
Proof.
  induction p as [|[x|m P|P] p IH]; intros s n; simpl.
  - intros [= <-]. lia.
  - destruct s as [|y t]; [discriminate|].
    destruct (Ascii.eqb y x); [|discriminate].
    destruct (match_here p t) as [j|] eqn:Hj; [|discriminate].
    intros [= <-]. apply IH in Hj. simpl. lia.
  - destruct ((m <=? length s)%nat && forallb P (firstn m s)) eqn:Hm; [|discriminate].
    apply andb_true_iff in Hm as [Hlen _]. apply Nat.leb_le in Hlen.
    destruct (match_here p (skipn m s)) as [j|] eqn:Hj; [|discriminate].
    intros [= <-]. apply IH in Hj. rewrite length_skipn in Hj. lia.
  - destruct (match_here p (skipn (span P s) s)) as [j|] eqn:Hj; [|discriminate].
    intros [= <-]. apply IH in Hj. rewrite length_skipn in Hj.
    pose proof (span_le P s). lia.
Qed.

Lemma forallb_weaken (P Q : ascii -> bool) l :
  (forall c, P c = true -> Q c = true) -> forallb P l = true -> forallb Q l = true.
Proof.
  intros Himp. rewrite !forallb_forall. auto.
Qed.

Lemma firstn_add {A} i j (l : list A) :
  firstn (i + j) l = firstn i l ++ firstn j (skipn i l).
Proof.
  revert l. induction i as [|i IH]; intros l; simpl; [reflexivity|].
  destruct l as [|x l]; simpl; [now rewrite firstn_nil|]. now rewrite IH.
Qed.

Lemma match_here_alphabet p : forall s n,
  match_here p s = Some n -> forallb (alphabet p) (firstn n s) = true.
Proof.
  induction p as [|[x|m P|P] p IH]; intros s n; simpl.
  - intros [= <-]. reflexivity.
  - destruct s as [|y t]; [discriminate|].
    destruct (Ascii.eqb y x) eqn:Hy; [|discriminate].
    destruct (match_here p t) as [j|] eqn:Hj; [|discriminate].
    intros [= <-]. simpl. unfold alphabet at 1. simpl. rewrite Hy. simpl.
    apply IH in Hj. revert Hj. apply forallb_weaken.
    intros c Hc. unfold alphabet in *. simpl. now rewrite Hc, orb_true_r.
  - destruct ((m <=? length s)%nat && forallb P (firstn m s)) eqn:Hm; [|discriminate].
    apply andb_true_iff in Hm as [_ Hall].
    destruct (match_here p (skipn m s)) as [j|] eqn:Hj; [|discriminate].
    intros [= <-]. rewrite firstn_add, forallb_app. apply andb_true_iff. split.
    + revert Hall. apply forallb_weaken. intros c Hc. unfold alphabet. simpl. now rewrite Hc.
    + apply IH in Hj. revert Hj. apply forallb_weaken.
      intros c Hc. unfold alphabet in *. simpl. now rewrite Hc, orb_true_r.
  - destruct (match_here p (skipn (span P s) s)) as [j|] eqn:Hj; [|discriminate].
    intros [= <-]. rewrite firstn_add, forallb_app. apply andb_true_iff. split.
    + generalize (span_all P s). apply forallb_weaken.
      intros c Hc. unfold alphabet. simpl. now rewrite Hc.
    + apply IH in Hj. revert Hj. apply forallb_weaken.
      intros c Hc. unfold alphabet in *. simpl. now rewrite Hc, orb_true_r.
Qed.

(** A character outside the alphabet of the pattern is a barrier: what
    follows it has no influence on a match that starts before it. *)
Lemma match_here_barrier p q : alphabet p q = false ->
  forall a b, match_here p (a ++ q :: b) = match_here p a.
Proof.
  induction p as [|[x|m P|P] p IH]; intros Hq a b; simpl; [reflexivity|..];
    unfold alphabet in Hq; simpl in Hq; apply orb_false_iff in Hq as [Hx Hp];
    specialize (IH Hp).
  - destruct a as [|y a]; simpl; [now rewrite Hx|].
    destruct (Ascii.eqb y x); [now rewrite IH | reflexivity].
  - destruct (Nat.leb_spec m (length a)) as [Hle|Hgt].
    + rewrite firstn_app, skipn_app.
      replace (m - length a)%nat with 0%nat by lia. simpl. rewrite app_nil_r.
      replace (m <=? length (a ++ q :: b))%nat with true
        by (symmetry; apply Nat.leb_le; rewrite length_app; lia).
      simpl. now rewrite IH.
    + simpl.
      assert (Hall : forallb P (firstn m (a ++ q :: b)) = false).
      { rewrite firstn_app, forallb_app.
        replace (m - length a)%nat with (S (m - length a - 1)) by lia.
        simpl. rewrite Hx. simpl. apply andb_false_r. }
      rewrite Hall. now rewrite andb_false_r.
  - rewrite (span_stop P a q b Hx), skipn_app.
    pose proof (span_le P a).
    replace (span P a - length a)%nat with 0%nat by lia. simpl. now rewrite IH.
Qed.

(** After a match the scan resumes right behind it. *)
Lemma sub_from_skip p repl a b :
  sub_from p repl (length a) (a ++ b) = sub_from p repl 0 b.
Proof. induction a as [|x a IH]; simpl; [now destruct b | exact IH]. Qed.

Lemma sub_from_barrier p repl q : alphabet p q = false ->
  forall a b k, (k <= length a)%nat ->
    sub_from p repl k (a ++ q :: b) = sub_from p repl k a ++ q :: sub_from p repl 0 b.
Proof.
  intros Hq a b. induction a as [|x a IH]; intros k Hk.
  - simpl in Hk. replace k with 0%nat by lia. simpl.
    destruct (match_here p (q :: b)) as [[|n]|] eqn:Hm; try reflexivity.
    apply match_here_alphabet in Hm. simpl in Hm. now rewrite Hq in Hm.
  - destruct k as [|k]; [|simpl; apply IH; simpl in Hk; lia].
    change ((x :: a) ++ q :: b) with (x :: (a ++ q :: b)).
    cbn [sub_from].
    change (x :: (a ++ q :: b)) with ((x :: a) ++ q :: b).
    rewrite (match_here_barrier p q Hq (x :: a) b).
    destruct (match_here p (x :: a)) as [[|n]|] eqn:Hm.
    + rewrite IH by lia. reflexivity.
    + apply match_here_bound in Hm. simpl in Hm.
      rewrite IH by lia. now rewrite app_assoc.
    + rewrite IH by lia. reflexivity.
Qed.

(** Substitution adds no character beyond those of the replacement. *)
Lemma sub_from_keeps (F : ascii -> bool) p repl :
  forallb F repl = true ->
  forall a k, forallb F a = true -> forallb F (sub_from p repl k a) = true.
Proof.
  intros Hrepl a. induction a as [|x a IH]; intros k Ha; [reflexivity|].
  simpl in Ha. apply andb_true_iff in Ha as [Hx Ha].
  destruct k as [|k]; [|simpl; auto].
  cbn [sub_from]. destruct (match_here p (x :: a)) as [[|n]|].
  - simpl. now rewrite Hx, IH.
  - rewrite forallb_app, Hrepl. simpl. auto.
  - simpl. now rewrite Hx, IH.
Qed.

(** A stretch without the first character of the pattern is copied. *)
Lemma sub_from_copies x p repl a b :
  forallb (fun c => negb (Ascii.eqb c x)) a = true ->
  sub_from (Lit x :: p) repl 0 (a ++ b) = a ++ sub_from (Lit x :: p) repl 0 b.
Proof.
  induction a as [|y a IH]; intros Ha; [reflexivity|].
  simpl in Ha. apply andb_true_iff in Ha as [Hy Ha].
  change ((y :: a) ++ b) with (y :: (a ++ b)). cbn [sub_from match_here].
  apply negb_true_iff in Hy. rewrite Hy. now rewrite IH.
Qed.

(** Where the pattern occurs nowhere, substitution changes nothing. *)
Lemma sub_from_nothing p repl s : search p s = false -> sub_from p repl 0 s = s.
Proof.
  induction s as [|x s IH]; [reflexivity|]. cbn [search sub_from].
  destruct (match_here p (x :: s)) as [[|n]|]; [| discriminate |];
    intros Hs; now rewrite IH.
Qed.

End ReFacts.

(* ===================================================================== *)
(** * The replacement of memory addresses *)
(* ===================================================================== *)

Section AddressStep.

Import Re.

Lemma search_suffix p a b : search p (a ++ b) = false -> search p b = false.
Proof.
  induction a as [|x a IH]; [auto|]. simpl.
  destruct (match_here p (x :: a ++ b)) as [[|n]|]; auto; discriminate.
Qed.

Lemma search_here p s n : search p s = false -> match_here p s <> Some (S n).
Proof.
  destruct s as [|x s]; simpl.
  - intros _ Hm. apply match_here_bound in Hm. simpl in Hm. lia.
  - destruct (match_here p (x :: s)) as [[|j]|]; congruence.
Qed.

(** A match of the hex pattern starts with [0x] and a hex digit. *)
Lemma hex_match_inv s n :
  match_here hex s = Some n ->
  exists h rest, s = "0"%char :: "x"%char :: h :: rest /\ is_hex h = true.
Proof.
  unfold hex. simpl.
  destruct s as [|c0 s]; [discriminate|].
  destruct (Ascii.eqb c0 "0") eqn:H0; [|discriminate]. apply Ascii.eqb_eq in H0 as ->.
  destruct s as [|c1 s]; [discriminate|].
  destruct (Ascii.eqb c1 "x") eqn:H1; [|discriminate]. apply Ascii.eqb_eq in H1 as ->.
  destruct s as [|h rest]; [discriminate|]. simpl.
  destruct (is_hex h) eqn:Hh; [|discriminate]. eauto.
Qed.

Lemma hex_match_intro h rest :
  is_hex h = true ->
  exists n, match_here hex ("0"%char :: "x"%char :: h :: rest) = Some (S n).
Proof.
  intros Hh. unfold hex. simpl. rewrite Hh. simpl. eauto.
Qed.

(** A match of the address pattern contains a match of the hex pattern. *)
Lemma address_match_inv s n :
  match_here address s = Some n ->
  exists rest k, s = "a"%char :: "t"%char :: " "%char :: rest
                 /\ match_here hex rest = Some k.
Proof.
  unfold address, hex. simpl.
  destruct s as [|c0 s]; [discriminate|].
  destruct (Ascii.eqb c0 "a") eqn:H0; [|discriminate]. apply Ascii.eqb_eq in H0 as ->.
  destruct s as [|c1 s]; [discriminate|].
  destruct (Ascii.eqb c1 "t") eqn:H1; [|discriminate]. apply Ascii.eqb_eq in H1 as ->.
  destruct s as [|c2 s]; [discriminate|].
  destruct (Ascii.eqb c2 " ") eqn:H2; [|discriminate]. apply Ascii.eqb_eq in H2 as ->.
  destruct (match s with [] => None | _ => _ end) as [k|] eqn:Hk; [|discriminate].
  intros _. exists s, k. split; [reflexivity | exact Hk].
Qed.

Lemma address_needs_hex s : search hex s = false -> search address s = false.
Proof.
  induction s as [|x s IH]; [reflexivity|]. intros Hs.
  assert (Htail : search hex s = false) by exact (search_suffix hex [x] s Hs).
  cbn [search].
  destruct (match_here address (x :: s)) as [[|n]|] eqn:Hm; auto.
  apply address_match_inv in Hm as (rest & k & Heq & Hk).
  injection Heq as -> ->.
  apply hex_match_inv in Hk as (h & rest' & -> & Hh).
  destruct (hex_match_intro h rest' Hh) as (j & Hj).
  apply (search_suffix hex ["t"%char; " "%char]) in Htail.
  now apply search_here with (n := j) in Htail.
Qed.

(** What the substitution of hex runs writes first: the next character as
    it is, or the replacement. *)
Lemma sub_hex_head x s :
  (match_here hex (x :: s) = None
   /\ sub_from hex (Py.chars "<hex>") 0 (x :: s) = x :: sub_from hex (Py.chars "<hex>") 0 s)
  \/ exists n,
       sub_from hex (Py.chars "<hex>") 0 (x :: s)
       = Py.chars "<hex>" ++ sub_from hex (Py.chars "<hex>") n s.
Proof.
  cbn [sub_from]. destruct (match_here hex (x :: s)) as [[|n]|] eqn:Hm; eauto.
  exfalso. destruct (hex_match_inv _ _ Hm) as (h & rest & Heq & Hh).
  injection Heq as -> ->. destruct (hex_match_intro h rest Hh) as (j & Hj).
  congruence.
Qed.

(** After the hex runs have been replaced, none is left. *)
Lemma sub_hex_leaves_none s : forall k,
  search hex (sub_from hex (Py.chars "<hex>") k s) = false.
Proof.
  pose proof sub_hex_head as Hhead. revert Hhead.
  assert (Hrepl : forall l, search hex l = false
                            -> search hex (Py.chars "<hex>" ++ l) = false)
    by (intros l Hl; exact Hl).
  assert (Hfirst : forall l, exists r, Py.chars "<hex>" ++ l = "<"%char :: r)
    by (intros l; eexists; reflexivity).
  revert Hrepl Hfirst. generalize (Py.chars "<hex>"). intros repl Hrepl Hfirst Hhead.
  induction s as [|x s IH]; intros k; [reflexivity|].
  destruct k as [|k]; [|exact (IH k)].
  destruct (Hhead x s) as [[Hnone ->]|[n ->]]; [|apply Hrepl, IH].
  cbn [search].
  destruct (match_here hex (x :: sub_from hex repl 0 s)) as [[|j]|] eqn:Hm; auto.
  exfalso. apply hex_match_inv in Hm as (h & rest & Heq & Hh).
  injection Heq as -> Hs. clear IH.
  destruct s as [|c1 s]; [discriminate|].
  destruct (Hhead c1 s) as [[_ H1]|[n H1]]; rewrite H1 in Hs.
  - injection Hs as -> Hs.
    destruct s as [|c2 s]; [discriminate|].
    destruct (Hhead c2 s) as [[_ H2]|[n H2]]; rewrite H2 in Hs.
    + injection Hs as -> _.
      destruct (hex_match_intro h s Hh) as (j' & Hj). congruence.
    + destruct (Hfirst (sub_from hex repl n s)) as (r & Hr). rewrite Hr in Hs.
      injection Hs as <- _. discriminate.
  - destruct (Hfirst (sub_from hex repl n s)) as (r & Hr). rewrite Hr in Hs.
    discriminate.
Qed.

(** The third replacement finds nothing to replace: every [0x] run was
    rewritten by the second, so no [at 0x...] is left. *)
Lemma address_step_is_dead s :
  sub address "at <address>" (sub hex "<hex>" s) = sub hex "<hex>" s.
Proof.
  unfold sub. apply sub_from_nothing, address_needs_hex, sub_hex_leaves_none.
Qed.

End AddressStep.

(* ===================================================================== *)
(** * Messages that differ in a UUID or in a quoted literal *)
(* ===================================================================== *)

Section Holes.

Import Re.

Lemma normalize_message_stages message :
  Fingerprint._normalize_message message = Py.str (run_stages stages (Py.chars message)).
Proof. reflexivity. Qed.

Lemma chars_app a b : Py.chars (a +:+ b) = Py.chars a ++ Py.chars b.
Proof. induction a as [|c a IH]; simpl; [reflexivity | now rewrite IH]. Qed.

Lemma chars_length s : length (Py.chars s) = String.length s.
Proof. induction s as [|c s IH]; simpl; congruence. Qed.

Lemma run_stages_app sts1 sts2 s :
  run_stages (sts1 ++ sts2) s = run_stages sts2 (run_stages sts1 s).
Proof. apply fold_left_app. Qed.

Lemma fingerprint_of_normalized error_type m1 m2 stacktrace :
  Fingerprint._normalize_message m1 = Fingerprint._normalize_message m2 ->
  Fingerprint.generate_fingerprint error_type m1 stacktrace
  = Fingerprint.generate_fingerprint error_type m2 stacktrace.
Proof. unfold Fingerprint.generate_fingerprint. now intros ->. Qed.

Lemma match_here_fixed p : fixed p = true ->
  forall a b n, match_here p a = Some n -> match_here p (a ++ b) = Some n.
Proof.
  induction p as [|[x|m P|P] p IH]; intros Hp a b n; simpl in *; auto;
    try discriminate.
  - destruct a as [|y a]; [discriminate|]. simpl.
    destruct (Ascii.eqb y x); [|discriminate].
    destruct (match_here p a) as [j|] eqn:Hj; [|discriminate].
    intros [= <-]. now rewrite (IH Hp a b j Hj).
  - destruct ((m <=? length a)%nat && forallb P (firstn m a)) eqn:Hm; [|discriminate].
    apply andb_true_iff in Hm as [Hlen Hall]. apply Nat.leb_le in Hlen.
    destruct (match_here p (skipn m a)) as [j|] eqn:Hj; [|discriminate].
    intros [= <-].
    rewrite firstn_app, skipn_app. replace (m - length a)%nat with 0%nat by lia.
    replace (m <=? length (a ++ b))%nat with true
      by (symmetry; apply Nat.leb_le; rewrite length_app; lia).
    cbn [firstn skipn]. rewrite app_nil_r, Hall. cbn [andb app].
    change (skipn 0 b) with b. now rewrite (IH Hp _ b j Hj).
Qed.

(** A quoted literal that follows text without the quote is replaced as a
    whole, whatever it contains. *)
Lemma sub_quoted_hole q a content b :
  free_of q a = true -> free_of q content = true ->
  sub (quoted q) "<string>" (a ++ q :: content ++ q :: b)
  = a ++ Py.chars "<string>" ++ sub (quoted q) "<string>" b.
Proof.
  intros Ha Hc. unfold sub, quoted. rewrite sub_from_copies by exact Ha. f_equal.
  cbn [sub_from match_here]. rewrite Ascii.eqb_refl.
  assert (Hspan : span (fun c => negb (is_char q c)) (content ++ q :: b) = length content).
  { rewrite span_stop by (unfold is_char; now rewrite Ascii.eqb_refl).
    rewrite <- (app_nil_r content) at 1.
    rewrite span_app_all by exact Hc. simpl. lia. }
  rewrite Hspan, skipn_app, skipn_all, Nat.sub_diag. simpl.
  rewrite Ascii.eqb_refl. simpl.
  replace (length content + 1)%nat with (length (content ++ [q]))
    by (rewrite length_app; reflexivity).
  change (content ++ q :: b) with (content ++ [q] ++ b).
  rewrite app_assoc, sub_from_skip. reflexivity.
Qed.

Lemma run_stages_barrier q sts : stops_at q sts = true ->
  forall a b, run_stages sts (a ++ q :: b) = run_stages sts a ++ q :: run_stages sts b.
Proof.
  induction sts as [|[p repl] sts IH]; intros Hsts a b; [reflexivity|].
  simpl in Hsts. apply andb_true_iff in Hsts as [[Hq _]%andb_true_iff Hsts].
  apply negb_true_iff in Hq. simpl. unfold sub at 1.
  rewrite (sub_from_barrier p _ q Hq) by lia. now rewrite IH.
Qed.

Lemma run_stages_keeps q sts : stops_at q sts = true ->
  forall a, free_of q a = true -> free_of q (run_stages sts a) = true.
Proof.
  induction sts as [|[p repl] sts IH]; intros Hsts a Ha; [exact Ha|].
  simpl in Hsts. apply andb_true_iff in Hsts as [[_ Hrepl]%andb_true_iff Hsts].
  simpl. apply IH; [exact Hsts|]. now apply sub_from_keeps.
Qed.

End Holes.

(* ===================================================================== *)
(** * Messages that differ in their numbers *)
(* ===================================================================== *)

Section Numbers.

Import Re.

Lemma sbn_prefix l a b : same_but_numbers a b -> same_but_numbers (l ++ a) (l ++ b).
Proof.
  intros Hab. induction l as [|c l IH]; [exact Hab|]. simpl.
  destruct (is_digit c) eqn:Hc.
  - apply (sbn_run [c] [c]); simpl; try rewrite Hc; auto; discriminate.
  - now apply sbn_char.
Qed.

Lemma sbn_refl a : same_but_numbers a a.
Proof. rewrite <- (app_nil_r a). apply sbn_prefix, sbn_nil. Qed.

(** One number replaced by another, anywhere in a text. *)
Lemma sbn_hole a d1 d2 b :
  d1 <> [] -> d2 <> [] -> forallb is_digit d1 = true -> forallb is_digit d2 = true ->
  same_but_numbers (a ++ d1 ++ b) (a ++ d2 ++ b).
Proof.
  intros. apply sbn_prefix, sbn_run; auto using sbn_refl.
Qed.

Lemma sbn_nil_inv b : same_but_numbers [] b -> b = [].
Proof.
  intros H. remember [] as a eqn:Ha.
  destruct H as [|c a b _ _|d1 d2 a b Hd1 _ _ _ _]; [reflexivity | discriminate |].
  destruct d1; [congruence | discriminate].
Qed.

(** Texts related in this way begin with the same character when that
    character is not a digit. *)
Lemma sbn_cons_inv c a b :
  is_digit c = false -> same_but_numbers (c :: a) b ->
  exists b', b = c :: b' /\ same_but_numbers a b'.
Proof.
  intros Hc H. remember (c :: a) as l eqn:Hl.
  destruct H as [|c' a' b' _ Hab|d1 d2 a' b' Hd1 _ Hall _ _]; [discriminate| |].
  - injection Hl as -> ->. eauto.
  - destruct d1 as [|x d1]; [congruence|]. injection Hl as -> _.
    simpl in Hall. now rewrite Hc in Hall.
Qed.

Lemma sub_from_skipn p repl l : forall k,
  sub_from p repl k l = sub_from p repl 0 (skipn k l).
Proof.
  induction l as [|x l IH]; intros [|k]; try reflexivity. simpl. apply IH.
Qed.

Lemma skipn_span_app P d a :
  forallb P d = true ->
  skipn (span P (d ++ a)) (d ++ a) = skipn (span P a) a.
Proof.
  intros Hd. rewrite span_app_all by exact Hd.
  rewrite Nat.add_comm, <- skipn_skipn, skipn_app, skipn_all, Nat.sub_diag. reflexivity.
Qed.

(** A class that contains the digits is left at the same place in both
    texts. *)
Lemma span_sbn (P : ascii -> bool) a b :
  (forall c, is_digit c = true -> P c = true) ->
  same_but_numbers a b ->
  (span P a = 0%nat <-> span P b = 0%nat)
  /\ same_but_numbers (skipn (span P a) a) (skipn (span P b) b).
Proof.
  intros Hdigits Hab.
  induction Hab as [|c a b Hc Hab [IH0 IH]|d1 d2 a b Hd1 Hd2 Ha1 Ha2 Hab [IH0 IH]].
  - split; [reflexivity | constructor].
  - simpl. destruct (P c); simpl.
    + split; [split; discriminate | exact IH].
    + split; [reflexivity | now apply sbn_char].
  - assert (H1 : forallb P d1 = true) by (revert Ha1; apply forallb_weaken, Hdigits).
    assert (H2 : forallb P d2 = true) by (revert Ha2; apply forallb_weaken, Hdigits).
    rewrite !skipn_span_app by assumption. split; [|exact IH].
    rewrite !span_app_all by assumption.
    destruct d1, d2; simpl; try congruence. split; discriminate.
Qed.

Lemma sub_from_respects x p repl :
  is_digit x = false -> respects (Lit x :: p) ->
  forall n a b, (length a <= n)%nat -> same_but_numbers a b ->
    same_but_numbers (sub_from (Lit x :: p) repl 0 a) (sub_from (Lit x :: p) repl 0 b).
Proof.
  intros Hx Hp.
  assert (Hcopy : forall d l, forallb is_digit d = true ->
            sub_from (Lit x :: p) repl 0 (d ++ l) = d ++ sub_from (Lit x :: p) repl 0 l).
  { intros d l Hd. apply sub_from_copies. revert Hd. apply forallb_weaken.
    intros c Hc. apply negb_true_iff. destruct (Ascii.eqb_spec c x); congruence. }
  induction n as [|n IH]; intros a b Hlen Hab.
  - destruct a; [|simpl in Hlen; lia]. apply sbn_nil_inv in Hab as ->. constructor.
  - destruct Hab as [|c a b Hc Hab|d1 d2 a b Hd1 Hd2 Ha1 Ha2 Hab].
    + constructor.
    + pose proof (Hp (c :: a) (c :: b) (sbn_char c a b Hc Hab)) as Hm.
      simpl in Hlen. cbn [sub_from].
      destruct (match_here (Lit x :: p) (c :: a)) as [[|i]|] eqn:Hi;
        destruct (match_here (Lit x :: p) (c :: b)) as [[|j]|] eqn:Hj;
        try contradiction;
        try (apply sbn_char; [exact Hc | apply IH; [lia | exact Hab]]).
      rewrite (sub_from_skipn _ _ a), (sub_from_skipn _ _ b).
      apply sbn_prefix, IH; [|exact Hm].
      rewrite length_skipn. lia.
    + rewrite !Hcopy by assumption. apply sbn_run; auto.
      apply IH; [|exact Hab]. rewrite length_app in Hlen.
      destruct d1; [congruence | simpl in Hlen; lia].
Qed.

(** The two path patterns: a separator, then a run of a class that contains
    the digits. *)
Lemma path_match x P s :
  match_here (Lit x :: plus P) s
  = match s with
    | c :: t =>
        if Ascii.eqb c x && (1 <=? span P t)%nat then Some (S (span P t)) else None
    | [] => None
    end.
Proof.
  destruct s as [|c t]; [reflexivity|]. unfold plus. cbn [match_here].
  destruct (Ascii.eqb c x); [|reflexivity]. cbn [andb].
  destruct t as [|y t]; [reflexivity|]. cbn [length firstn forallb span skipn].
  rewrite andb_true_r. change (1 <=? S (length t))%nat with true. cbn [andb].
  destruct (P y); [|reflexivity].
  change (skipn 0 t) with t. change (1 <=? S (span P t))%nat with true.
  cbn [option_map]. do 2 f_equal. lia.
Qed.

Lemma path_respects x P :
  is_digit x = false -> (forall c, is_digit c = true -> P c = true) ->
  respects (Lit x :: plus P).
Proof.
  intros Hx Hdigits a b Hab. rewrite !path_match.
  destruct Hab as [|c a b Hc Hab|d1 d2 a b Hd1 Hd2 Ha1 Ha2 Hab]; [exact I| |].
  - destruct (span_sbn P a b Hdigits Hab) as [H0 Hrest].
    destruct (Ascii.eqb c x); [|exact I]. cbn [andb].
    destruct (span P a) as [|i] eqn:Hi, (span P b) as [|j] eqn:Hj; simpl;
      try exact I; try (destruct H0 as [H0 H0']; (now discriminate H0 || now discriminate H0')).
    exact Hrest.
  - destruct d1 as [|y1 d1]; [congruence|]. destruct d2 as [|y2 d2]; [congruence|].
    simpl in Ha1, Ha2. apply andb_true_iff in Ha1 as [Hy1 _], Ha2 as [Hy2 _].
    simpl. destruct (Ascii.eqb_spec y1 x); [congruence|].
    destruct (Ascii.eqb_spec y2 x); [congruence|]. exact I.
Qed.

Lemma span_head P s y r : skipn (span P s) s = y :: r -> P y = false.
Proof.
  induction s as [|c t IH]; simpl; [discriminate|].
  destruct (P c) eqn:Hc; simpl; [exact IH | now intros [= <- _]].
Qed.

(** A quoted literal: the quote, the run of other characters, the quote. *)
Lemma quoted_match q s :
  match_here (quoted q) s
  = match s with
    | c :: t =>
        if Ascii.eqb c q then
          match skipn (span (fun c => negb (is_char q c)) t) t with
          | y :: _ =>
              if Ascii.eqb y q
              then Some (S (span (fun c => negb (is_char q c)) t + 1))
              else None
          | [] => None
          end
        else None
    | [] => None
    end.
Proof.
  destruct s as [|c t]; [reflexivity|]. unfold quoted. cbn [match_here].
  destruct (Ascii.eqb c q); [|reflexivity].
  destruct (skipn _ t) as [|y r]; [reflexivity|].
  destruct (Ascii.eqb y q); reflexivity.
Qed.

Lemma quoted_respects q : is_digit q = false -> respects (quoted q).
Proof.
  intros Hq a b Hab. rewrite !quoted_match.
  set (N := fun c => negb (is_char q c)).
  assert (Hdigits : forall c, is_digit c = true -> N c = true).
  { intros c Hc. unfold N, is_char. apply negb_true_iff.
    destruct (Ascii.eqb_spec c q); congruence. }
  destruct Hab as [|c a b Hc Hab|d1 d2 a b Hd1 Hd2 Ha1 Ha2 Hab]; [exact I| |].
  - destruct (Ascii.eqb c q); [|exact I].
    destruct (span_sbn N a b Hdigits Hab) as [_ Hrest].
    destruct (skipn (span N a) a) as [|y ra] eqn:Hra.
    + apply sbn_nil_inv in Hrest. now rewrite Hrest.
    + assert (Hy : Ascii.eqb y q = true).
      { apply span_head in Hra. unfold N, is_char in Hra. now apply negb_false_iff in Hra. }
      rewrite Hy. apply Ascii.eqb_eq in Hy as ->.
      apply sbn_cons_inv in Hrest as (rb & Hrb & Hrest); [|exact Hq].
      rewrite Hrb, Ascii.eqb_refl.
      cbn [skipn]. rewrite !(Nat.add_comm _ 1), <- !skipn_skipn, Hra, Hrb. exact Hrest.
  - destruct d1 as [|y1 d1]; [congruence|]. destruct d2 as [|y2 d2]; [congruence|].
    simpl in Ha1, Ha2. apply andb_true_iff in Ha1 as [Hy1 _], Ha2 as [Hy2 _].
    simpl. destruct (Ascii.eqb_spec y1 q); [congruence|].
    destruct (Ascii.eqb_spec y2 q); [congruence|]. exact I.
Qed.

(** The last replacement: a run of digits becomes one placeholder. *)
Lemma number_match s :
  match_here number s
  = if (1 <=? span is_digit s)%nat then Some (span is_digit s) else None.
Proof.
  unfold number, plus. cbn [match_here].
  destruct s as [|y t]; [reflexivity|]. cbn [length firstn forallb span skipn].
  rewrite andb_true_r. change (1 <=? S (length t))%nat with true. cbn [andb].
  destruct (is_digit y); [|reflexivity].
  change (skipn 0 t) with t. change (1 <=? S (span is_digit t))%nat with true.
  cbn [option_map]. f_equal. lia.
Qed.

Lemma sub_number_text repl c a :
  is_digit c = false ->
  sub_from number repl 0 (c :: a) = c :: sub_from number repl 0 a.
Proof.
  intros Hc. cbn [sub_from]. rewrite number_match. simpl. now rewrite Hc.
Qed.

Lemma sub_number_run repl d a :
  d <> [] -> forallb is_digit d = true ->
  sub_from number repl 0 (d ++ a)
  = repl ++ sub_from number repl 0 (skipn (span is_digit a) a).
Proof.
  intros Hd Hall. rewrite <- (skipn_span_app is_digit d a Hall).
  assert (Hpos : exists k, span is_digit (d ++ a) = S k).
  { rewrite span_app_all by exact Hall. destruct d; [congruence|]. simpl. eauto. }
  destruct Hpos as (k & Hk).
  destruct (d ++ a) as [|y l] eqn:Hl; [destruct d; [congruence | discriminate]|].
  cbn [sub_from]. rewrite number_match, Hk. simpl.
  now rewrite (sub_from_skipn _ _ l).
Qed.

Lemma sub_number_sbn repl a b :
  same_but_numbers a b ->
  sub_from number repl 0 a = sub_from number repl 0 b.
Proof.
  intros Hab.
  enough (sub_from number repl 0 a = sub_from number repl 0 b
          /\ sub_from number repl 0 (skipn (span is_digit a) a)
             = sub_from number repl 0 (skipn (span is_digit b) b)) by tauto.
  induction Hab as [|c a b Hc Hab [IH _]|d1 d2 a b Hd1 Hd2 Ha1 Ha2 Hab [_ IH]].
  - split; reflexivity.
  - simpl span. rewrite Hc. simpl skipn. rewrite !sub_number_text by assumption.
    split; now rewrite IH.
  - rewrite !skipn_span_app by assumption.
    rewrite !sub_number_run by assumption. split; [now rewrite IH | exact IH].
Qed.

Lemma word_has_digits c : is_digit c = true -> is_word c = true.
Proof. intros Hc. unfold is_word. now rewrite Hc. Qed.

(** The path and quote replacements keep two texts the same but for their
    numbers. *)
Lemma middle_stages_sbn a b :
  same_but_numbers a b ->
  same_but_numbers (run_stages (firstn 4 (skipn 3 stages)) a)
                   (run_stages (firstn 4 (skipn 3 stages)) b).
Proof.
  intros Hab. simpl. unfold sub.
  assert (Hposix : respects posix_path).
  { apply path_respects; [reflexivity|]. intros c Hc%word_has_digits.
    unfold is_posix_path_char. now rewrite Hc. }
  assert (Hwindows : respects windows_path).
  { apply path_respects; [reflexivity|]. intros c Hc%word_has_digits.
    unfold is_windows_path_char. now rewrite Hc. }
  pose proof (quoted_respects dquote eq_refl) as Hdq.
  pose proof (quoted_respects squote eq_refl) as Hsq.
  eapply (sub_from_respects squote); [reflexivity | exact Hsq | reflexivity |].
  eapply (sub_from_respects dquote); [reflexivity | exact Hdq | reflexivity |].
  eapply (sub_from_respects backslash); [reflexivity | exact Hwindows | reflexivity |].
  eapply (sub_from_respects "/"%char); [reflexivity | exact Hposix | reflexivity |].
  exact Hab.
Qed.

(** Where no UUID and no hex run occurs, the first three replacements
    change nothing. *)
Lemma first_stages_nothing a :
  search uuid a = false -> search hex a = false ->
  run_stages (firstn 3 stages) a = a.
Proof.
  intros Hu Hh. simpl. unfold sub.
  rewrite (sub_from_nothing uuid _ a Hu), (sub_from_nothing hex _ a Hh).
  apply sub_from_nothing, address_needs_hex, Hh.
Qed.

End Numbers.

Section HoleTheorems.

Import Re.

Lemma chars_in_quotes p q content s :
  Py.chars (p +:+ in_quotes q content +:+ s)
  = Py.chars p ++ q :: Py.chars content ++ q :: Py.chars s.
Proof.
  unfold in_quotes. rewrite chars_app. simpl. rewrite !chars_app. simpl.
  now rewrite <- app_assoc.
Qed.

Lemma free_of_app q a b : free_of q (a ++ b) = free_of q a && free_of q b.
Proof. apply forallb_app. Qed.

End HoleTheorems.

Section FreeNumbers.

Import Re.

Lemma sbn_app a b c d :
  same_but_numbers a b -> same_but_numbers c d -> same_but_numbers (a ++ c) (b ++ d).
Proof.
  intros Hab Hcd. induction Hab as [|x a b Hx _ IH|d1 d2 a b H1 H2 Hd1 Hd2 _ IH].
  - exact Hcd.
  - simpl. now apply sbn_char.
  - rewrite <- !app_assoc. now apply sbn_run.
Qed.

Lemma hexish_digit g : hexish g = false -> is_digit g = false.
Proof.
  unfold hexish. intros [Hu _]%orb_false_iff.
  cbn in Hu. apply orb_false_iff in Hu as [Hhex _].
  unfold is_hex in Hhex. apply orb_false_iff in Hhex as [Hhex _].
  apply orb_false_iff in Hhex as [Hd _]. exact Hd.
Qed.

(** The first three replacements come to the UUID and the hex replacement,
    and both stop at a character they cannot hold. *)
Lemma first_stages_cut a g r :
  hexish g = false ->
  run_stages (firstn 3 stages) (a ++ g :: r)
  = run_stages (firstn 3 stages) a ++ g :: run_stages (firstn 3 stages) r.
Proof.
  unfold hexish. intros [Hu Hh]%orb_false_iff.
  cbn [firstn stages run_stages fold_left fst snd].
  rewrite !address_step_is_dead. unfold sub.
  rewrite (sub_from_barrier uuid _ g Hu) by lia.
  rewrite (sub_from_barrier hex _ g Hh) by lia. reflexivity.
Qed.

Lemma alike_first_stages a b :
  alike a b ->
  same_but_numbers (run_stages (firstn 3 stages) a) (run_stages (firstn 3 stages) b).
Proof.
  intros [->|(Hab & Hua & Hha & Hub & Hhb)]; [apply sbn_refl|].
  now rewrite !first_stages_nothing.
Qed.

Lemma free_numbers_first_stages a b :
  same_but_free_numbers a b ->
  same_but_numbers (run_stages (firstn 3 stages) a) (run_stages (firstn 3 stages) b).
Proof.
  induction 1 as [a b Hab|a b g r1 r2 Hab Hg _ IH].
  - now apply alike_first_stages.
  - rewrite !first_stages_cut by exact Hg.
    apply sbn_app; [now apply alike_first_stages|].
    apply sbn_char; [now apply hexish_digit | exact IH].
Qed.

Lemma normalize_free_numbers m1 m2 :
  same_but_free_numbers (Py.chars m1) (Py.chars m2) ->
  Fingerprint._normalize_message m1 = Fingerprint._normalize_message m2.
Proof.
  intros H. rewrite !normalize_message_stages. f_equal.
  change stages with (firstn 3 stages ++ firstn 4 (skipn 3 stages) ++ [(number, "<number>")]).
  rewrite !run_stages_app.
  simpl run_stages at 1 4. unfold sub at 1 2.
  now apply sub_number_sbn, middle_stages_sbn, free_numbers_first_stages.
Qed.

End FreeNumbers.

Section Quotes.

Import Re.

Lemma first_occurrence q (l : list ascii) :
  free_of q l = true
  \/ exists a r, l = a ++ q :: r /\ free_of q a = true.
Proof.
  induction l as [|c l IH]; [now left|].
  destruct (Ascii.eqb c q) eqn:Hc.
  - apply Ascii.eqb_eq in Hc as ->. right. exists [], l. split; reflexivity.
  - destruct IH as [Hfree|(a & r & -> & Ha)].
    + left. simpl. now rewrite Hc.
    + right. exists (c :: a), r. split; [reflexivity|]. simpl. now rewrite Hc.
Qed.

Lemma occurrences_app q a b :
  occurrences q (a ++ b) = (occurrences q a + occurrences q b)%nat.
Proof. unfold occurrences. now rewrite List.filter_app, length_app. Qed.

Lemma occurrences_free q a : free_of q a = true -> occurrences q a = 0%nat.
Proof.
  unfold occurrences, free_of. induction a as [|c a IH]; [reflexivity|].
  simpl. intros [Hc Ha]%andb_true_iff. rewrite Ascii.eqb_sym.
  apply negb_true_iff in Hc. rewrite Hc. auto.
Qed.

Lemma occurrences_cons_same q a : occurrences q (q :: a) = S (occurrences q a).
Proof. unfold occurrences. simpl. now rewrite Ascii.eqb_refl. Qed.

(** A text without the quote character is left alone by the replacement of
    quoted literals. *)
Lemma sub_quoted_free q a :
  free_of q a = true -> sub (quoted q) "<string>" a = a.
Proof.
  intros Ha. unfold sub, quoted.
  rewrite <- (app_nil_r a) at 1. rewrite sub_from_copies by exact Ha.
  simpl. apply app_nil_r.
Qed.

Lemma sub_quoted_literal q content b :
  free_of q content = true ->
  sub (quoted q) "<string>" (q :: content ++ q :: b)
  = Py.chars "<string>" ++ sub (quoted q) "<string>" b.
Proof. intros Hc. now apply (sub_quoted_hole q [] content b). Qed.

(** A text in which the quotes pair up is replaced on its own: the
    replacement of what follows starts afresh. *)
Lemma sub_quoted_balanced q : forall n x y,
  (length x <= n)%nat ->
  Nat.even (occurrences q x) = true ->
  sub (quoted q) "<string>" (x ++ y)
  = sub (quoted q) "<string>" x ++ sub (quoted q) "<string>" y.
Proof.
  induction n as [|n IH]; intros x y Hlen Heven.
  - destruct x; [reflexivity | simpl in Hlen; lia].
  - destruct (first_occurrence q x) as [Hfree|(a & r & -> & Ha)].
    + rewrite (sub_quoted_free q x Hfree).
      unfold sub, quoted. now rewrite sub_from_copies.
    + rewrite occurrences_app, (occurrences_free q a Ha), occurrences_cons_same in Heven.
      cbn [Nat.add] in Heven.
      destruct (first_occurrence q r) as [Hfree|(c & r' & -> & Hc)].
      * rewrite (occurrences_free q r Hfree) in Heven. discriminate.
      * rewrite occurrences_app, (occurrences_free q c Hc), occurrences_cons_same in Heven.
        cbn [Nat.add] in Heven.
        rewrite <- !app_assoc. cbn [app]. rewrite <- !app_assoc. cbn [app].
        rewrite !sub_quoted_hole by assumption.
        rewrite <- !app_assoc. do 2 f_equal.
        apply IH; [|exact Heven].
        rewrite !length_app in Hlen. cbn [length] in Hlen.
        rewrite length_app in Hlen. cbn [length] in Hlen. lia.
Qed.

(** Replacements that stop at a character keep the number of its
    occurrences. *)
Lemma run_stages_occurrences q sts : stops_at q sts = true ->
  forall n a, (length a <= n)%nat ->
    occurrences q (run_stages sts a) = occurrences q a.
Proof.
  intros Hstop. induction n as [|n IH]; intros a Hlen.
  - destruct a; [|simpl in Hlen; lia].
    rewrite !occurrences_free; auto.
    now apply (run_stages_keeps q sts Hstop).
  - destruct (first_occurrence q a) as [Hfree|(x & r & -> & Hx)].
    + rewrite !occurrences_free; auto.
      now apply (run_stages_keeps q sts Hstop).
    + rewrite (run_stages_barrier q sts Hstop), !occurrences_app, !occurrences_cons_same.
      rewrite (occurrences_free q x Hx).
      rewrite (occurrences_free q _ (run_stages_keeps q sts Hstop x Hx)).
      rewrite IH; [reflexivity|].
      rewrite length_app in Hlen. cbn [length] in Hlen. lia.
Qed.

Lemma normalize_dquoted_literal p c1 c2 s :
  Nat.even (occurrences dquote (Py.chars p)) = true ->
  free_of dquote (Py.chars c1) = true -> free_of dquote (Py.chars c2) = true ->
  Fingerprint._normalize_message (p +:+ in_quotes dquote c1 +:+ s)
  = Fingerprint._normalize_message (p +:+ in_quotes dquote c2 +:+ s).
Proof.
  intros Hp H1 H2. rewrite !normalize_message_stages. f_equal.
  change stages
    with (firstn 5 stages ++ [(quoted dquote, "<string>")] ++ skipn 6 stages).
  rewrite !run_stages_app, !chars_in_quotes. f_equal.
  assert (Hstop : stops_at dquote (firstn 5 stages) = true) by reflexivity.
  rewrite !(run_stages_barrier dquote _ Hstop).
  set (stage := run_stages (firstn 5 stages)).
  assert (Hbefore : Nat.even (occurrences dquote (stage (Py.chars p))) = true).
  { subst stage. now rewrite (run_stages_occurrences dquote _ Hstop _ _ (Nat.le_refl _)). }
  cbn [run_stages fold_left fst snd].
  rewrite !(sub_quoted_balanced dquote _ _ _ (Nat.le_refl _) Hbefore). f_equal.
  rewrite !sub_quoted_literal; try reflexivity;
    now apply (run_stages_keeps dquote (firstn 5 stages) Hstop).
Qed.

Lemma normalize_squoted_literal p c1 c2 s :
  Nat.even (occurrences dquote (Py.chars p)) = true ->
  Nat.even (occurrences squote (run_stages (firstn 6 stages) (Py.chars p))) = true ->
  free_of squote (Py.chars c1) = true -> free_of dquote (Py.chars c1) = true ->
  free_of squote (Py.chars c2) = true -> free_of dquote (Py.chars c2) = true ->
  Fingerprint._normalize_message (p +:+ in_quotes squote c1 +:+ s)
  = Fingerprint._normalize_message (p +:+ in_quotes squote c2 +:+ s).
Proof.
  intros Hpd Hps H1s H1d H2s H2d. rewrite !normalize_message_stages. f_equal.
  change stages
    with (firstn 5 stages ++ [(quoted dquote, "<string>")]
          ++ [(quoted squote, "<string>")] ++ skipn 7 stages).
  rewrite !run_stages_app, !chars_in_quotes. f_equal.
  assert (Hs : stops_at squote (firstn 5 stages) = true) by reflexivity.
  assert (Hd : stops_at dquote (firstn 5 stages) = true) by reflexivity.
  rewrite !(run_stages_barrier squote _ Hs).
  change (firstn 6 stages) with (firstn 5 stages ++ [(quoted dquote, "<string>")]) in Hps.
  rewrite run_stages_app in Hps.
  set (stage := run_stages (firstn 5 stages)) in *.
  assert (Hbefore : Nat.even (occurrences dquote (stage (Py.chars p))) = true).
  { subst stage. now rewrite (run_stages_occurrences dquote _ Hd _ _ (Nat.le_refl _)). }
  cbn [run_stages fold_left fst snd] in Hps |- *.
  set (before := sub (quoted dquote) "<string>" (stage (Py.chars p))) in *.
  assert (Hcopy : forall content,
             free_of squote (Py.chars content) = true ->
             free_of dquote (Py.chars content) = true ->
             sub (quoted squote) "<string>"
               (sub (quoted dquote) "<string>"
                  (stage (Py.chars p) ++ squote :: stage (Py.chars content)
                   ++ squote :: stage (Py.chars s)))
             = sub (quoted squote) "<string>" before ++ Py.chars "<string>"
               ++ sub (quoted squote) "<string>"
                    (sub (quoted dquote) "<string>" (stage (Py.chars s)))).
  { intros content Hcs Hcd.
    rewrite (sub_quoted_balanced dquote _ _ _ (Nat.le_refl _) Hbefore). fold before.
    replace (squote :: stage (Py.chars content) ++ squote :: stage (Py.chars s))
      with ((squote :: stage (Py.chars content) ++ [squote]) ++ stage (Py.chars s))
      by (cbn [app]; now rewrite <- app_assoc).
    unfold sub at 2, quoted at 2. rewrite sub_from_copies.
    - fold (quoted dquote). fold (sub (quoted dquote) "<string>" (stage (Py.chars s))).
      rewrite (sub_quoted_balanced squote _ _ _ (Nat.le_refl _) Hps). f_equal.
      cbn [app]. rewrite <- app_assoc. cbn [app].
      apply sub_quoted_literal.
      subst stage. now apply (run_stages_keeps squote _ Hs).
    - fold (free_of dquote (squote :: stage (Py.chars content) ++ [squote])).
      cbn [free_of forallb]. change (forallb _ ?l) with (free_of dquote l).
      rewrite free_of_app. subst stage.
      rewrite (run_stages_keeps dquote _ Hd) by assumption. reflexivity. }
  now rewrite !Hcopy.
Qed.

End Quotes.

Section Across.

Import Re.

Lemma match_here_fixed_prefix p : fixed p = true ->
  forall x y n, match_here p (x ++ y) = Some n -> (n <= length x)%nat ->
    match_here p x = Some n.
Proof.
  induction p as [|[c|m P|P] p IH]; intros Hp x y n; cbn [match_here fixed forallb] in *;
    try discriminate.
  - intros [= <-] _. reflexivity.
  - destruct x as [|a x].
    + cbn [app]. destruct y as [|a y]; [discriminate|].
      destruct (Ascii.eqb a c); [|discriminate].
      destruct (match_here p y); [|discriminate]. cbn. intros [= <-] Hn. simpl in Hn. lia.
    + cbn [app]. destruct (Ascii.eqb a c); [|discriminate].
      destruct (match_here p (x ++ y)) as [j|] eqn:Hj; [|discriminate].
      cbn. intros [= <-] Hn. simpl in Hn.
      rewrite (IH Hp x y j Hj) by lia. reflexivity.
  - destruct ((m <=? length (x ++ y))%nat && forallb P (firstn m (x ++ y))) eqn:Hm;
      [|discriminate].
    apply andb_true_iff in Hm as [_ Hall].
    destruct (match_here p (skipn m (x ++ y))) as [j|] eqn:Hj; [|discriminate].
    cbn. intros [= <-] Hn.
    assert (Hmx : (m <= length x)%nat) by lia.
    rewrite firstn_app in Hall. replace (m - length x)%nat with 0%nat in Hall by lia.
    cbn [firstn] in Hall. rewrite app_nil_r in Hall.
    rewrite skipn_app in Hj. replace (m - length x)%nat with 0%nat in Hj by lia.
    change (skipn 0 y) with y in Hj.
    apply Nat.leb_le in Hmx. rewrite Hmx, Hall. cbn [andb].
    rewrite (IH Hp (skipn m x) y j Hj); [reflexivity|].
    rewrite length_skipn. apply Nat.leb_le in Hmx. lia.
Qed.

(** Where no match runs out of a text, its replacement does not depend on
    what follows. *)
Lemma sub_from_ends_by p repl : fixed p = true ->
  forall before k rest,
    (k <= length before)%nat ->
    matches_end_by p (length before) (before ++ rest) ->
    sub_from p repl k (before ++ rest)
    = sub_from p repl k before ++ sub_from p repl 0 rest.
Proof.
  intros Hp before. induction before as [|c b IH]; intros k rest Hk Hends.
  - simpl in Hk. replace k with 0%nat by lia. reflexivity.
  - assert (Hb : matches_end_by p (length b) (b ++ rest)).
    { intros j n Hj Hm. specialize (Hends (S j) n). cbn [length skipn app] in Hends.
      specialize (Hends ltac:(lia) Hm). lia. }
    cbn [app]. destruct k as [|k].
    + cbn [sub_from].
      destruct (match_here p (c :: b ++ rest)) as [[|n]|] eqn:Hm.
      * destruct (match_here p (c :: b)) as [[|n']|] eqn:Hm'.
        -- cbn [app]. f_equal. apply IH; [lia | exact Hb].
        -- apply (match_here_fixed p Hp _ rest) in Hm'. cbn [app] in Hm'. congruence.
        -- cbn [app]. f_equal. apply IH; [lia | exact Hb].
      * pose proof (Hends 0%nat (S n) ltac:(cbn [length]; lia) Hm) as Hn.
        cbn [length] in Hn.
        rewrite (match_here_fixed_prefix p Hp (c :: b) rest (S n) Hm) by (cbn [length]; lia).
        rewrite <- app_assoc. f_equal. apply IH; [lia | exact Hb].
      * destruct (match_here p (c :: b)) as [[|n']|] eqn:Hm'.
        -- cbn [app]. f_equal. apply IH; [lia | exact Hb].
        -- apply (match_here_fixed p Hp _ rest) in Hm'. cbn [app] in Hm'. congruence.
        -- cbn [app]. f_equal. apply IH; [lia | exact Hb].
    + cbn [sub_from]. apply IH; [cbn [length] in Hk; lia | exact Hb].
Qed.

(** A text that ends outside the alphabet of a pattern lets no match run
    out of it. *)
Lemma ends_outside_matches_end p a rest :
  ends_outside (alphabet p) a = true -> matches_end_by p (length a) (a ++ rest).
Proof.
  intros Ha k n Hk Hm.
  destruct (Nat.le_gt_cases (k + n) (length a)) as [|Hover]; [assumption|exfalso].
  apply match_here_alphabet in Hm.
  destruct (rev a) as [|z a'] eqn:Hrev.
  { apply (f_equal (@length ascii)) in Hrev. rewrite length_rev in Hrev.
    simpl in Hrev. lia. }
  unfold ends_outside in Ha. rewrite Hrev in Ha. apply negb_true_iff in Ha.
  assert (Ea : a = rev a' ++ [z]).
  { rewrite <- (rev_involutive a), Hrev. reflexivity. }
  rewrite Ea in Hk, Hover, Hm. rewrite length_app in Hk, Hover. cbn [length] in Hk, Hover.
  rewrite <- app_assoc, skipn_app in Hm. cbn [app] in Hm.
  replace (k - length (rev a'))%nat with 0%nat in Hm by lia.
  change (skipn 0 (z :: rest)) with (z :: rest) in Hm.
  rewrite firstn_app, forallb_app in Hm. apply andb_true_iff in Hm as [_ Hm].
  rewrite length_skipn in Hm.
  destruct (n - (length (rev a') - k))%nat as [|j] eqn:Hj; [lia|].
  cbn [firstn forallb] in Hm. apply andb_true_iff in Hm as [Hz _]. congruence.
Qed.

(** A UUID that no earlier match runs into is replaced as a whole,
    whatever it is. *)
Lemma sub_uuid_literal a u b :
  matches_end_by uuid (length a) (a ++ u ++ b) ->
  match_here uuid u = Some (length u) ->
  sub uuid "<uuid>" (a ++ u ++ b)
  = sub uuid "<uuid>" a ++ Py.chars "<uuid>" ++ sub uuid "<uuid>" b.
Proof.
  intros Ha Hu. unfold sub.
  rewrite (sub_from_ends_by uuid _ eq_refl a 0 (u ++ b)) by (lia || exact Ha). f_equal.
  destruct u as [|x u]; [discriminate|].
  apply (match_here_fixed uuid eq_refl _ b) in Hu.
  change ((x :: u) ++ b) with (x :: (u ++ b)) in *. cbn [sub_from].
  rewrite Hu. cbn [length]. now rewrite sub_from_skip.
Qed.

Lemma normalize_uuid_literal p u1 u2 s :
  is_uuid u1 -> is_uuid u2 ->
  matches_end_by uuid (String.length p) (Py.chars (p +:+ u1 +:+ s)) ->
  matches_end_by uuid (String.length p) (Py.chars (p +:+ u2 +:+ s)) ->
  Fingerprint._normalize_message (p +:+ u1 +:+ s)
  = Fingerprint._normalize_message (p +:+ u2 +:+ s).
Proof.
  unfold is_uuid. rewrite <- !chars_length, !chars_app. intros Hu1 Hu2 H1 H2.
  rewrite !normalize_message_stages. f_equal.
  change stages with ([(uuid, "<uuid>")] ++ skipn 1 stages).
  rewrite !run_stages_app. f_equal. simpl.
  rewrite !chars_app, !sub_uuid_literal by assumption. reflexivity.
Qed.

End Across.

(* ===================================================================== *)
(** * Properties of message normalization *)
(* ===================================================================== *)

(** C6: the replacements are applied in the stated order, and for that
    very reason the third never applies: the second has already rewritten
    every [0x] run, so no message has an address replaced. A message with
    [at 0x...] in it comes out with [at <hex>], not [at <address>]. *)
Theorem address_replacement_never_applies :
  (forall message,
      Fingerprint._normalize_message message
      = Py.str (run_stages stages (Py.chars message)))
  /\ map snd stages
     = ["<uuid>"; "<hex>"; "at <address>"; "<path>"; "<path>"; "<string>"; "<string>";
        "<number>"]
  /\ (forall message,
        Fingerprint._normalize_message message = normalize_without_address_step message)
  /\ Fingerprint._normalize_message "<Foo object at 0x7f3a2b1c>"
     = "<Foo object at <hex>>".
Proof.
  split; [exact normalize_message_stages|]. split; [reflexivity|]. split.
  - intros message. rewrite normalize_message_stages.
    unfold normalize_without_address_step. f_equal.
    change stages with (firstn 2 stages ++ [(Re.address, "at <address>")] ++ skipn 3 stages).
    rewrite !run_stages_app. f_equal. simpl. apply address_step_is_dead.
  - vm_compute. reflexivity.
Qed.

(** C5, as stated, fails in each of its parts: a digit before the letter x
    makes or unmakes a hex run; a UUID that follows hex digits and dashes
    is matched from an earlier position; a double quote in the text before
    a double-quoted literal pairs with its opening quote; and so does an
    apostrophe before a single-quoted literal. *)
Lemma normalization_classes_depend_on_context :
  (same_but_numbers (Py.chars "1x1") (Py.chars "0x1")
   /\ Fingerprint.generate_fingerprint "ValueError" "1x1" None
      <> Fingerprint.generate_fingerprint "ValueError" "0x1" None)
  /\ (is_uuid "550e8400-e29b-41d4-a716-446655440000"
      /\ is_uuid "6ba7b810-9dad-11d1-80b4-00c04fd430c8"
      /\ Fingerprint.generate_fingerprint "KeyError"
           ("00000000-0000-0000-0000-0000" +:+ "550e8400-e29b-41d4-a716-446655440000"
            +:+ " not found") None
         <> Fingerprint.generate_fingerprint "KeyError"
              ("00000000-0000-0000-0000-0000" +:+ "6ba7b810-9dad-11d1-80b4-00c04fd430c8"
               +:+ " not found") None)
  /\ Fingerprint.generate_fingerprint "KeyError"
       (("a " +:+ String Re.dquote " b ") +:+ in_quotes Re.dquote "foo" +:+ "") None
     <> Fingerprint.generate_fingerprint "KeyError"
          (("a " +:+ String Re.dquote " b ") +:+ in_quotes Re.dquote "bar" +:+ "") None
  /\ Fingerprint.generate_fingerprint "KeyError"
       ("can't find " +:+ in_quotes Re.squote "foo" +:+ "") None
     <> Fingerprint.generate_fingerprint "KeyError"
          ("can't find " +:+ in_quotes Re.squote "bar" +:+ "") None.
Proof.
  repeat split.
  - apply (sbn_hole [] ["1"%char] ["0"%char] (Py.chars "x1")); (reflexivity || discriminate).
  - vm_compute. discriminate.
  - vm_compute. discriminate.
  - vm_compute. discriminate.
  - vm_compute. discriminate.
Qed.

(** C5 (amended): for every type and stack digest,
    - two messages that are cut at the same characters, none of them a hex
      digit, a dash or the letter x, into pieces that are equal or are the
      same but for their runs of decimal digits and hold no UUID and no hex
      run ([0x] and hex digits), have equal fingerprints;
    - two messages that differ only in a UUID-shaped substring have equal
      fingerprints when no UUID-shaped match begins in the text before it
      and runs into it;
    - two messages that differ only in a double-quoted substring have equal
      fingerprints when the text before it holds an even number of double
      quotes;
    - two messages that differ only in a single-quoted substring without
      double quotes have equal fingerprints when the text before it holds
      an even number of double quotes and, once its double-quoted literals
      are replaced, an even number of single quotes. *)
Theorem fingerprint_ignores_variable_parts error_type stacktrace :
  (forall m1 m2,
      same_but_free_numbers (Py.chars m1) (Py.chars m2) ->
      Fingerprint.generate_fingerprint error_type m1 stacktrace
      = Fingerprint.generate_fingerprint error_type m2 stacktrace)
  /\ (forall before u1 u2 after,
        is_uuid u1 -> is_uuid u2 ->
        matches_end_by Re.uuid (String.length before)
          (Py.chars (before +:+ u1 +:+ after)) ->
        matches_end_by Re.uuid (String.length before)
          (Py.chars (before +:+ u2 +:+ after)) ->
        Fingerprint.generate_fingerprint error_type (before +:+ u1 +:+ after) stacktrace
        = Fingerprint.generate_fingerprint error_type (before +:+ u2 +:+ after) stacktrace)
  /\ (forall before c1 c2 after,
        Nat.even (occurrences Re.dquote (Py.chars before)) = true ->
        free_of Re.dquote (Py.chars c1) = true ->
        free_of Re.dquote (Py.chars c2) = true ->
        Fingerprint.generate_fingerprint error_type
          (before +:+ in_quotes Re.dquote c1 +:+ after) stacktrace
        = Fingerprint.generate_fingerprint error_type
            (before +:+ in_quotes Re.dquote c2 +:+ after) stacktrace)
  /\ (forall before c1 c2 after,
        Nat.even (occurrences Re.dquote (Py.chars before)) = true ->
        Nat.even (occurrences Re.squote
                    (run_stages (firstn 6 stages) (Py.chars before))) = true ->
        free_of Re.squote (Py.chars c1) = true -> free_of Re.dquote (Py.chars c1) = true ->
        free_of Re.squote (Py.chars c2) = true -> free_of Re.dquote (Py.chars c2) = true ->
        Fingerprint.generate_fingerprint error_type
          (before +:+ in_quotes Re.squote c1 +:+ after) stacktrace
        = Fingerprint.generate_fingerprint error_type
            (before +:+ in_quotes Re.squote c2 +:+ after) stacktrace).
Proof.
  repeat split; intros; apply fingerprint_of_normalized.
  - now apply normalize_free_numbers.
  - now apply normalize_uuid_literal.
  - now apply normalize_dquoted_literal.
  - now apply normalize_squoted_literal.
Qed.

(** The pairs of the test suite are instances, and so are messages that
    hold a hex run beside the number, or a quoted literal before the one
    that differs. *)
Lemma fingerprint_ignores_variable_parts_witness :
  Fingerprint.generate_fingerprint "IndexError" "list index 5 out of range" None
  = Fingerprint.generate_fingerprint "IndexError" "list index 10 out of range" None
  /\ Fingerprint.generate_fingerprint "RuntimeError" "retry 5 for 0xdeadbeef" None
     = Fingerprint.generate_fingerprint "RuntimeError" "retry 10 for 0xdeadbeef" None
  /\ Fingerprint.generate_fingerprint "RuntimeError"
       "<Foo object at 0x7f3a2b1c> failed 5 times" None
     = Fingerprint.generate_fingerprint "RuntimeError"
         "<Foo object at 0x7f3a2b1c> failed 10 times" None
  /\ Fingerprint.generate_fingerprint "KeyError"
       ("user " +:+ "550e8400-e29b-41d4-a716-446655440000" +:+ " not found") None
     = Fingerprint.generate_fingerprint "KeyError"
         ("user " +:+ "6ba7b810-9dad-11d1-80b4-00c04fd430c8" +:+ " not found") None
  /\ Fingerprint.generate_fingerprint "KeyError"
       ("key " +:+ in_quotes Re.dquote "foo" +:+ " not found") None
     = Fingerprint.generate_fingerprint "KeyError"
         ("key " +:+ in_quotes Re.dquote "bar" +:+ " not found") None
  /\ Fingerprint.generate_fingerprint "KeyError"
       (("key " +:+ in_quotes Re.dquote "a" +:+ " not in ")
        +:+ in_quotes Re.dquote "foo" +:+ "") None
     = Fingerprint.generate_fingerprint "KeyError"
         (("key " +:+ in_quotes Re.dquote "a" +:+ " not in ")
          +:+ in_quotes Re.dquote "bar" +:+ "") None
  /\ Fingerprint.generate_fingerprint "TypeError"
       ("Cannot read property " +:+ in_quotes Re.squote "x" +:+ " of undefined") None
     = Fingerprint.generate_fingerprint "TypeError"
         ("Cannot read property " +:+ in_quotes Re.squote "y" +:+ " of undefined") None
  /\ Fingerprint.generate_fingerprint "AttributeError"
       ("'NoneType' object has no attribute " +:+ in_quotes Re.squote "foo" +:+ "") None
     = Fingerprint.generate_fingerprint "AttributeError"
         ("'NoneType' object has no attribute " +:+ in_quotes Re.squote "bar" +:+ "") None.
Proof.
  destruct (fingerprint_ignores_variable_parts "IndexError" None) as (Hindex & _).
  destruct (fingerprint_ignores_variable_parts "RuntimeError" None) as (Hnumbers & _).
  destruct (fingerprint_ignores_variable_parts "KeyError" None) as (_ & Huuid & Hdouble & _).
  destruct (fingerprint_ignores_variable_parts "TypeError" None) as (_ & _ & _ & Hsingle).
  destruct (fingerprint_ignores_variable_parts "AttributeError" None)
    as (_ & _ & _ & Hattribute).
  assert (Hpiece : forall a d1 d2 b,
            d1 <> [] -> d2 <> [] ->
            forallb Re.is_digit d1 = true -> forallb Re.is_digit d2 = true ->
            Re.search Re.uuid (a ++ d1 ++ b) = false ->
            Re.search Re.hex (a ++ d1 ++ b) = false ->
            Re.search Re.uuid (a ++ d2 ++ b) = false ->
            Re.search Re.hex (a ++ d2 ++ b) = false ->
            alike (a ++ d1 ++ b) (a ++ d2 ++ b)).
  { intros. right. split; [now apply sbn_hole | auto]. }
  repeat apply conj.
  - apply Hindex. apply sfn_last.
    apply (Hpiece (Py.chars "list index ") ["5"%char] ["1"%char; "0"%char]
             (Py.chars " out of range")); (reflexivity || discriminate).
  - apply Hnumbers.
    apply (sfn_cut (Py.chars "retry 5") (Py.chars "retry 10") " "%char
             (Py.chars "for 0xdeadbeef") (Py.chars "for 0xdeadbeef")).
    + apply (Hpiece (Py.chars "retry ") ["5"%char] ["1"%char; "0"%char] []);
        (reflexivity || discriminate).
    + reflexivity.
    + apply sfn_last. now left.
  - apply Hnumbers.
    apply (sfn_cut (Py.chars "<Foo object at 0x7f3a2b1c") (Py.chars "<Foo object at 0x7f3a2b1c")
             ">"%char (Py.chars " failed 5 times") (Py.chars " failed 10 times")).
    + now left.
    + reflexivity.
    + apply sfn_last.
      apply (Hpiece (Py.chars " failed ") ["5"%char] ["1"%char; "0"%char]
               (Py.chars " times")); (reflexivity || discriminate).
  - apply Huuid; try (vm_compute; reflexivity);
      apply (ends_outside_matches_end Re.uuid (Py.chars "user ")); reflexivity.
  - apply Hdouble; vm_compute; reflexivity.
  - apply Hdouble; vm_compute; reflexivity.
  - apply Hsingle; vm_compute; reflexivity.
  - apply Hattribute; vm_compute; reflexivity.
Defined.
